(** * agent-bg: the conversation flow engine

    A shallow embedding of the conversation engine of the lead agent
    (server/app/core/prompts.py, server/app/core/utils.py,
    server/app/api/customers.py, server/app/services/langraph_agent.py and
    server/app/database/repository.py), and the properties its
    specification states about it.

    Conventions.
    - Python [str] is [string]: the UTF-8 bytes of the text.  Substring
      tests ([in]) on UTF-8 bytes agree with substring tests on code
      points; [len] and slicing count code points ([py_len], [py_take]).
    - Python [float] is the kernel's binary64 [float]; [int] is [Z].
    - A value of a [Dict[str, Any]] is a [PyVal]; the dictionary itself is
      a [gmap string PyVal].
    - A Python exception is the [Raise] case of [Result]. *)

From Stdlib Require Import ZArith String Ascii List Bool Floats Lia DecimalString.
From stdpp Require Import gmap strings.
Import ListNotations.

Set Warnings "-inexact-float".

Local Open Scope string_scope.
Local Open Scope Z_scope.

(** ** The Python runtime, as far as the engine uses it *)

Module Py.

Inductive exn :=
| ValueError | KeyError | IndexError | TypeError | OverflowError
| DatabaseError | BackendError.

Inductive Result (A : Type) :=
| Ok (a : A)
| Raise (e : exn).
Arguments Ok {A} a.
Arguments Raise {A} e.

Definition rbind {A B} (r : Result A) (k : A -> Result B) : Result B :=
  match r with
  | Ok a => k a
  | Raise e => Raise e
  end.

(** [try: r except Exception: h] for a pure computation. *)
Definition rcatch {A} (r : Result A) (h : A) : A :=
  match r with
  | Ok a => a
  | Raise _ => h
  end.

(** *** Values *)

Inductive PyVal :=
| VNone
| VBool (b : bool)
| VInt (z : Z)
| VFloat (f : float)
| VStr (s : string).

Abbreviation Dict := (gmap string PyVal).

(** [d.get(k)]: a missing key reads as [None]. *)
Definition dict_get (d : Dict) (k : string) : PyVal :=
  match d !! k with
  | Some v => v
  | None => VNone
  end.

(** [d.get(k, default)]. *)
Definition dict_get_default (d : Dict) (k : string) (default : PyVal) : PyVal :=
  match d !! k with
  | Some v => v
  | None => default
  end.

Definition is_none (v : PyVal) : bool :=
  match v with
  | VNone => true
  | _ => false
  end.

(** Truth value of an object ([if v:]). A NaN is true. *)
Definition truthy (v : PyVal) : bool :=
  match v with
  | VNone => false
  | VBool b => b
  | VInt z => negb (z =? 0)
  | VFloat f => negb (f =? 0)%float
  | VStr s => negb (s =? "")%string
  end.

(** [isinstance(v, (int, float))]; [bool] is a subclass of [int]. *)
Definition is_int_or_float (v : PyVal) : bool :=
  match v with
  | VBool _ | VInt _ | VFloat _ => true
  | _ => false
  end.

(** *** Floats and integers *)

(** [float(z)]: the nearest binary64, [OverflowError] past the range. *)
Definition float_of_Z (z : Z) : Result float :=
  let f := SF2Prim (binary_normalize prec emax z 0 false) in
  if is_infinity f then Raise OverflowError else Ok f.

(** A small integer literal used as a float (exact below 2^53). *)
Definition flit (z : Z) : float :=
  SF2Prim (binary_normalize prec emax z 0 false).

(** [int(f)]: truncation toward zero. *)
Definition py_int (f : float) : Result Z :=
  match Prim2SF f with
  | S754_zero _ => Ok 0
  | S754_finite s m e =>
      let a := if 0 <=? e then Z.pos m * 2 ^ e else Z.pos m / 2 ^ (- e) in
      Ok (if s then - a else a)
  | S754_infinity _ => Raise OverflowError
  | S754_nan => Raise ValueError
  end.

(** Exact comparison of a float with an integer, as Python compares
    a [float] with an [int]: [None] when the float is a NaN. *)
Definition float_cmp_Z (f : float) (z : Z) : option comparison :=
  match Prim2SF f with
  | S754_nan => None
  | S754_infinity s => Some (if s then Lt else Gt)
  | S754_zero _ => Some (0 ?= z)
  | S754_finite s m e =>
      let v := if s then Z.neg m else Z.pos m in
      Some (if 0 <=? e then (v * 2 ^ e ?= z) else (v ?= z * 2 ^ (- e)))
  end.

(** The numeric content of a value: [bool] counts as [0]/[1]. *)
Inductive num :=
| NInt (z : Z)
| NFloat (f : float).

Definition as_num (v : PyVal) : option num :=
  match v with
  | VBool b => Some (NInt (Z.b2z b))
  | VInt z => Some (NInt z)
  | VFloat f => Some (NFloat f)
  | _ => None
  end.

Definition num_cmp_Z (n : num) (z : Z) : option comparison :=
  match n with
  | NInt x => Some (x ?= z)
  | NFloat f => float_cmp_Z f z
  end.

(** [n >= z], [n > z], [n <= z], [n < z] against an integer literal. *)
Definition num_ge_Z (n : num) (z : Z) : bool :=
  match num_cmp_Z n z with Some (Gt | Eq) => true | _ => false end.
Definition num_gt_Z (n : num) (z : Z) : bool :=
  match num_cmp_Z n z with Some Gt => true | _ => false end.
Definition num_le_Z (n : num) (z : Z) : bool :=
  match num_cmp_Z n z with Some (Lt | Eq) => true | _ => false end.
Definition num_lt_Z (n : num) (z : Z) : bool :=
  match num_cmp_Z n z with Some Lt => true | _ => false end.

Definition num_to_float (n : num) : Result float :=
  match n with
  | NInt z => float_of_Z z
  | NFloat f => Ok f
  end.

(** [n * z] for an integer literal [z]. *)
Definition num_mul_Z (n : num) (z : Z) : num :=
  match n with
  | NInt x => NInt (x * z)
  | NFloat f => NFloat (f * flit z)
  end.

(** [n * c] for a float literal [c]. *)
Definition num_mul_float (n : num) (c : float) : Result float :=
  rbind (num_to_float n) (fun f => Ok (f * c)%float).

(** [min(n, z)]: the first argument unless the second is smaller. *)
Definition num_min_Z (n : num) (z : Z) : num :=
  if num_gt_Z n z then NInt z else n.

(** [max(a, b)] on floats: the first argument unless the second is larger. *)
Definition float_max (a b : float) : float :=
  if (a <? b)%float then b else a.

(** [min(a, b)] on floats: the first argument unless the second is smaller. *)
Definition float_min (a b : float) : float :=
  if (b <? a)%float then b else a.

(** [int(n)]. *)
Definition num_int (n : num) : Result Z :=
  match n with
  | NInt z => Ok z
  | NFloat f => py_int f
  end.

(** An integer as an exact, unrounded binary number. *)
Definition SF_of_Z (z : Z) : spec_float :=
  match z with
  | Z0 => S754_zero false
  | Zpos p => S754_finite false p 0
  | Zneg p => S754_finite true p 0
  end.

(** [n / z] (true division) for a non-zero integer literal [z]; on two
    integers it is the correctly rounded quotient. *)
Definition num_div_Z (n : num) (z : Z) : Result float :=
  match n with
  | NFloat f => Ok (f / flit z)%float
  | NInt x =>
      let q := SF2Prim (SFdiv prec emax (SF_of_Z x) (SF_of_Z z)) in
      if is_infinity q then Raise OverflowError else Ok q
  end.

(** *** Strings *)

Definition of_codes (l : list N) : string :=
  string_of_list_ascii (map ascii_of_N l).

Definition code (c : ascii) : N := N_of_ascii c.

(** [s.startswith(w)]. *)
Fixpoint starts_with (w s : string) : bool :=
  match w, s with
  | EmptyString, _ => true
  | String a w', String b s' => Ascii.eqb a b && starts_with w' s'
  | String _ _, EmptyString => false
  end.

(** [needle in hay]. *)
Fixpoint str_in (needle hay : string) : bool :=
  starts_with needle hay ||
  match hay with
  | EmptyString => false
  | String _ t => str_in needle t
  end.

(** [any(w in s for w in words)]. *)
Definition any_in (words : list string) (s : string) : bool :=
  existsb (fun w => str_in w s) words.

(** [s[n:]], on bytes. *)
Fixpoint drop (n : nat) (s : string) : string :=
  match n, s with
  | O, _ => s
  | S n', String _ t => drop n' t
  | S _, EmptyString => EmptyString
  end.

Definition rev_string (s : string) : string :=
  string_of_list_ascii (rev (list_ascii_of_string s)).

(** [s.lower()], on the letters of Basic Latin and of the Latin-1
    Supplement (U+00C0..U+00DE without the multiplication sign, whose
    UTF-8 form is the byte 0xC3 and a byte in 0x80..0x9E).  The model
    keeps every other character; the cased letters of other blocks,
    which [lower] maps as well, are outside it. *)
Fixpoint lower (s : string) : string :=
  match s with
  | EmptyString => EmptyString
  | String c t =>
      let n := code c in
      if ((65 <=? n) && (n <=? 90))%N then String (ascii_of_N (n + 32)) (lower t)
      else if (n =? 195)%N then
        match t with
        | String d t' =>
            let k := code d in
            if ((128 <=? k) && (k <=? 158) && negb (k =? 151))%N
            then String c (String (ascii_of_N (k + 32)) (lower t'))
            else String c (lower t)
        | EmptyString => String c EmptyString
        end
      else String c (lower t)
  end.

(** The characters [str.isspace] accepts, in UTF-8. *)
Definition whitespace : list string :=
  map of_codes
    [ [9]; [10]; [11]; [12]; [13]; [28]; [29]; [30]; [31]; [32];
      [194; 133]; [194; 160]; [225; 154; 128];
      [226; 128; 128]; [226; 128; 129]; [226; 128; 130]; [226; 128; 131];
      [226; 128; 132]; [226; 128; 133]; [226; 128; 134]; [226; 128; 135];
      [226; 128; 136]; [226; 128; 137]; [226; 128; 138];
      [226; 128; 168]; [226; 128; 169]; [226; 128; 175];
      [226; 129; 159]; [227; 128; 128] ]%N.

(** Removes leading occurrences of the given prefixes, at most [fuel] of them. *)
Fixpoint strip_prefixes (ws : list string) (fuel : nat) (s : string) : string :=
  match fuel with
  | O => s
  | S fuel' =>
      match find (fun w => starts_with w s) ws with
      | Some w => strip_prefixes ws fuel' (drop (String.length w) s)
      | None => s
      end
  end.

Definition lstrip (s : string) : string :=
  strip_prefixes whitespace (String.length s) s.

Definition rstrip (s : string) : string :=
  rev_string (strip_prefixes (map rev_string whitespace) (String.length s) (rev_string s)).

(** [s.strip()]. *)
Definition strip (s : string) : string := rstrip (lstrip s).

(** [s.replace(c, '')] for a one-byte character [c]. *)
Fixpoint remove_char (c : ascii) (s : string) : string :=
  match s with
  | EmptyString => EmptyString
  | String d t => if Ascii.eqb c d then remove_char c t else String d (remove_char c t)
  end.

(** A decimal digit. The model reads the ASCII digits; the digits of
    other scripts, which [isdigit] and the pattern [\d] accept as well,
    are outside it. *)
Definition is_digit (c : ascii) : bool :=
  ((48 <=? code c) && (code c <=? 57))%N.

(** [any(char.isdigit() for char in s)]. *)
Fixpoint has_digit (s : string) : bool :=
  match s with
  | EmptyString => false
  | String c t => is_digit c || has_digit t
  end.

(** A byte that continues a UTF-8 sequence. *)
Definition is_continuation (c : ascii) : bool :=
  ((128 <=? code c) && (code c <? 192))%N.

(** [len(s)]: the number of code points. *)
Fixpoint py_len (s : string) : nat :=
  match s with
  | EmptyString => O
  | String c t => if is_continuation c then py_len t else S (py_len t)
  end.

(** [s[:n]]: the first [n] code points. *)
Fixpoint py_take (n : nat) (s : string) : string :=
  match s with
  | EmptyString => EmptyString
  | String c t =>
      if is_continuation c then String c (py_take n t)
      else match n with
           | O => EmptyString
           | S n' => String c (py_take n' t)
           end
  end.

(** [s[-1]], for a non-empty [s] that ends in a one-byte character. *)
Fixpoint last_char (s : string) : option ascii :=
  match s with
  | EmptyString => None
  | String c EmptyString => Some c
  | String _ t => last_char t
  end.

(** [sep.join(l)]. *)
Fixpoint join (sep : string) (l : list string) : string :=
  match l with
  | [] => EmptyString
  | [x] => x
  | x :: r => x +:+ sep +:+ join sep r
  end.

(** *** Formatting numbers *)

(** [str(z)] for a natural number. *)
Definition digits_of_N (n : N) : string :=
  NilZero.string_of_uint (N.to_uint n).

Fixpoint zeros (n : nat) : string :=
  match n with
  | O => EmptyString
  | S n' => String "0" (zeros n')
  end.

(** Thousands separators: a comma before every group of three digits,
    counted from the right. The digits arrive reversed. *)
Fixpoint group_rev (l : list ascii) (k : nat) : list ascii :=
  match l with
  | [] => []
  | c :: r =>
      match k with
      | O => ","%char :: c :: group_rev r 2
      | S k' => c :: group_rev r k'
      end
  end.

Definition group3 (digits : string) : string :=
  string_of_list_ascii (rev (group_rev (rev (list_ascii_of_string digits)) 3)).

(** [str(z)]. *)
Definition str_of_Z (z : Z) : string :=
  match z with
  | Zneg p => "-" +:+ digits_of_N (Npos p)
  | _ => digits_of_N (Z.to_N z)
  end.

(** [format(z, ",")]. *)
Definition format_comma_Z (z : Z) : string :=
  match z with
  | Zneg p => "-" +:+ group3 (digits_of_N (Npos p))
  | _ => group3 (digits_of_N (Z.to_N z))
  end.

(** The shortest decimal that reads back as the float [m * 2^e]
    ([repr]'s digits): the digits as a number, and the position of the
    decimal point after the first [decpt] digits. *)
Section ShortestDecimal.
Variables (m : positive) (e : Z).

Let E := e - 2.
Let V := 4 * Z.pos m.
Let LO := if (Z.pos m =? 2 ^ 52) && (-1074 <? e) then V - 1 else V - 2.
Let HI := V + 2.
Let closed := Z.even (Z.pos m).

(** The decimal exponent [k], with [10^(k-1) <= m * 2^e < 10^k]. *)
Definition decimal_exponent : Z :=
  let bits := Z.log2 (Z.pos m) + e in
  let k0 := bits * 30103 / 100000 - 1 in
  let below k := V * 2 ^ Z.max E 0 * 10 ^ Z.max (- k) 0 <? 10 ^ Z.max k 0 * 2 ^ Z.max (- E) 0 in
  match find below [k0; k0 + 1; k0 + 2; k0 + 3] with
  | Some k => k
  | None => k0 + 4
  end.

(** The decimal with [n] digits nearest to the float (the even one of
    two at the same distance), when it reads back as the float. *)
Definition candidate (k : Z) (n : Z) : option Z :=
  let q := k - n in
  let S := 2 ^ Z.max E 0 * 10 ^ Z.max (- q) 0 in
  let D := 2 ^ Z.max (- E) 0 * 10 ^ Z.max q 0 in
  let inside c :=
    if closed then (LO * S <=? c * D) && (c * D <=? HI * S)
    else (LO * S <? c * D) && (c * D <? HI * S) in
  let c1 := V * S / D in
  let c2 := c1 + 1 in
  match inside c1, inside c2 with
  | true, true =>
      match V * S - c1 * D ?= c2 * D - V * S with
      | Lt => Some c1
      | Gt => Some c2
      | Eq => Some (if Z.even c1 then c1 else c2)
      end
  | true, false => Some c1
  | false, true => Some c2
  | false, false => None
  end.

(** The first candidate, from [n] digits up.  Seventeen digits
    identify every binary64 value, so the search from one digit
    with fuel 17 ends on a candidate. *)
Fixpoint shortest_from (k : Z) (n : Z) (fuel : nat) : Z * Z :=
  match fuel with
  | O => (V * 2 ^ Z.max E 0 * 10 ^ Z.max (- (k - n)) 0 / (2 ^ Z.max (- E) 0 * 10 ^ Z.max (k - n) 0), n)
  | S fuel' =>
      match candidate k n with
      | Some c => (c, n)
      | None => shortest_from k (n + 1) fuel'
      end
  end.

(** The digits, without trailing zeros, and the decimal point. *)
Definition shortest_decimal : string * Z :=
  let k := decimal_exponent in
  let '(c, n) := shortest_from k 1 17 in
  let ds := digits_of_N (Z.to_N c) in
  let decpt := k + (Z.of_nat (String.length ds) - n) in
  (rev_string (strip_prefixes ["0"] (String.length ds) (rev_string ds)), decpt).
End ShortestDecimal.

(** The text of a finite non-zero float from its digits: fixed notation
    when the decimal point falls in [-4 < decpt <= 16], with the integer
    part passed through [grp]; exponent notation otherwise. *)
Definition float_text (grp : string -> string) (ds : string) (decpt : Z) : string :=
  let n := Z.of_nat (String.length ds) in
  if (-4 <? decpt) && (decpt <=? 16) then
    if decpt <=? 0 then "0." +:+ zeros (Z.to_nat (- decpt)) +:+ ds
    else if decpt <? n then
      grp (String.substring 0 (Z.to_nat decpt) ds) +:+ "." +:+ drop (Z.to_nat decpt) ds
    else grp (ds +:+ zeros (Z.to_nat (decpt - n))) +:+ ".0"
  else
    let x := decpt - 1 in
    let mant :=
      match ds with
      | String d EmptyString => String d EmptyString
      | String d r => String d ("." +:+ r)
      | EmptyString => EmptyString
      end in
    let xs := digits_of_N (Z.to_N (Z.abs x)) in
    mant +:+ "e" +:+ (if x <? 0 then "-" else "+") +:+
    (if (String.length xs <? 2)%nat then "0" +:+ xs else xs).

Definition format_float (grp : string -> string) (f : float) : string :=
  match Prim2SF f with
  | S754_nan => "nan"
  | S754_infinity s => if s then "-inf" else "inf"
  | S754_zero s => if s then "-0.0" else "0.0"
  | S754_finite s m e =>
      let '(ds, decpt) := shortest_decimal m e in
      (if s then "-" else "") +:+ float_text grp ds decpt
  end.

(** [repr(f)] and [str(f)]. *)
Definition repr_float (f : float) : string := format_float (fun s => s) f.

(** [format(f, ",")]. *)
Definition format_comma_float (f : float) : string := format_float group3 f.

(** [format(v, ",")]: integers and floats take the separator, a [bool]
    is formatted as the integer it is; other types reject it. *)
Definition format_comma (v : PyVal) : Result string :=
  match v with
  | VBool b => Ok (format_comma_Z (Z.b2z b))
  | VInt z => Ok (format_comma_Z z)
  | VFloat f => Ok (format_comma_float f)
  | VStr _ => Raise ValueError
  | VNone => Raise TypeError
  end.

(** [format(v, "")], that is [str(v)]. *)
Definition format_plain (v : PyVal) : string :=
  match v with
  | VNone => "None"
  | VBool b => if b then "True" else "False"
  | VInt z => str_of_Z z
  | VFloat f => repr_float f
  | VStr s => s
  end.

End Py.

Import Py.

(** ** server/app/core/prompts.py: enumerations *)

Inductive ConversationStep :=
| GREETING | COLLECT_BUDGET | COLLECT_INCOME | COLLECT_EMPLOYMENT | COLLECT_AMOUNT
| PRESENT_OFFER | AWAITING_DECISION | HANDLE_OBJECTION | REQUEST_CLARIFICATION
| CLOSE_POSITIVE | CLOSE_NEGATIVE | COMPLETED | ERROR.

Inductive ProductType :=
| CREDIT_CARD | PERSONAL_CREDIT | INSURANCE | SAVINGS | MORTGAGE | INVESTMENT.

Inductive CustomerSegment :=
| PREMIUM | STANDARD | BASIC | YOUTH | SENIOR.

Inductive IntentType :=
| POSITIVE | NEGATIVE | NEUTRAL | REQUEST_INFO | OBJECTION | UNCLEAR.

#[global] Instance ConversationStep_eq_dec : EqDecision ConversationStep.
Proof. solve_decision. Defined.
#[global] Instance ProductType_eq_dec : EqDecision ProductType.
Proof. solve_decision. Defined.
#[global] Instance CustomerSegment_eq_dec : EqDecision CustomerSegment.
Proof. solve_decision. Defined.
#[global] Instance IntentType_eq_dec : EqDecision IntentType.
Proof. solve_decision. Defined.

(** An enumeration has a [value] per member, and is built from a value
    by [Enum(value)], which raises [ValueError] on any other string. *)
Class PyEnum (A : Type) := {
  value : A -> string;
  members : list A
}.

Definition of_value {A} `{PyEnum A} (v : string) : Result A :=
  match find (fun a => (value a =? v)%string) members with
  | Some a => Ok a
  | None => Raise ValueError
  end.

#[global] Instance ConversationStep_enum : PyEnum ConversationStep := {|
  value s :=
    match s with
    | GREETING => "greeting"
    | COLLECT_BUDGET => "collect_budget"
    | COLLECT_INCOME => "collect_income"
    | COLLECT_EMPLOYMENT => "collect_employment"
    | COLLECT_AMOUNT => "collect_amount"
    | PRESENT_OFFER => "present_offer"
    | AWAITING_DECISION => "awaiting_decision"
    | HANDLE_OBJECTION => "handle_objection"
    | REQUEST_CLARIFICATION => "request_clarification"
    | CLOSE_POSITIVE => "close_positive"
    | CLOSE_NEGATIVE => "close_negative"
    | COMPLETED => "completed"
    | ERROR => "error"
    end;
  members :=
    [GREETING; COLLECT_BUDGET; COLLECT_INCOME; COLLECT_EMPLOYMENT; COLLECT_AMOUNT;
     PRESENT_OFFER; AWAITING_DECISION; HANDLE_OBJECTION; REQUEST_CLARIFICATION;
     CLOSE_POSITIVE; CLOSE_NEGATIVE; COMPLETED; ERROR]
|}.

#[global] Instance ProductType_enum : PyEnum ProductType := {|
  value p :=
    match p with
    | CREDIT_CARD => "credit_card"
    | PERSONAL_CREDIT => "credit"
    | INSURANCE => "insurance"
    | SAVINGS => "savings"
    | MORTGAGE => "mortgage"
    | INVESTMENT => "investment"
    end;
  members := [CREDIT_CARD; PERSONAL_CREDIT; INSURANCE; SAVINGS; MORTGAGE; INVESTMENT]
|}.

#[global] Instance CustomerSegment_enum : PyEnum CustomerSegment := {|
  value c :=
    match c with
    | PREMIUM => "premium"
    | STANDARD => "standard"
    | BASIC => "basic"
    | YOUTH => "youth"
    | SENIOR => "senior"
    end;
  members := [PREMIUM; STANDARD; BASIC; YOUTH; SENIOR]
|}.

#[global] Instance IntentType_enum : PyEnum IntentType := {|
  value i :=
    match i with
    | POSITIVE => "positive"
    | NEGATIVE => "negative"
    | NEUTRAL => "neutral"
    | REQUEST_INFO => "request_info"
    | OBJECTION => "objection"
    | UNCLEAR => "unclear"
    end;
  members := [POSITIVE; NEGATIVE; NEUTRAL; REQUEST_INFO; OBJECTION; UNCLEAR]
|}.

Record PromptContext := {
  ctx_user_name : string;
  ctx_product_type : ProductType;
  ctx_customer_segment : CustomerSegment;
  ctx_current_step : ConversationStep;
  ctx_collected_data : Dict
}.

(** ** IntentAnalyzer *)

Module IntentAnalyzer.

Definition POSITIVE_KEYWORDS : list string :=
  ["sí"; "si"; "ok"; "acepto"; "me interesa"; "perfecto"; "excelente";
   "genial"; "claro"; "por supuesto"; "dale"; "vamos"; "quiero"].

Definition NEGATIVE_KEYWORDS : list string :=
  ["no"; "nah"; "no gracias"; "no me interesa"; "paso"; "mejor no";
   "ahora no"; "tal vez después"; "no estoy seguro"; "déjame pensarlo"].

Definition INFO_REQUEST_KEYWORDS : list string :=
  ["información"; "detalles"; "explica"; "cómo"; "qué"; "cuál";
   "cuánto"; "cuándo"; "dónde"; "por qué"; "más info"; "dime más"].

Definition OBJECTION_KEYWORDS : list string :=
  ["pero"; "sin embargo"; "aunque"; "el problema es"; "me preocupa";
   "no estoy convencido"; "dudas"; "riesgo"; "caro"; "costoso"].

Definition EMPLOYMENT_KEYWORDS : list string :=
  ["empleado"; "trabajo"; "empresa"; "empleada"; "oficina"; "sueldo";
   "negocio"; "propio"; "empresario"; "comercio"; "dueño"; "independiente";
   "freelance"; "independiente"; "por mi cuenta"; "proyectos";
   "jubilado"; "pensionado"; "retirado"; "tercera edad";
   "estudiante"; "estudio"; "universidad"; "carrera";
   "desempleado"; "sin trabajo"; "buscando trabajo"; "cesante"].

Definition analyze (message : string) (context : PromptContext) : IntentType :=
  let message_lower := strip (lower message) in
  if any_in POSITIVE_KEYWORDS message_lower then POSITIVE
  else if any_in NEGATIVE_KEYWORDS message_lower then NEGATIVE
  else if any_in INFO_REQUEST_KEYWORDS message_lower then REQUEST_INFO
  else if any_in OBJECTION_KEYWORDS message_lower then OBJECTION
  else if bool_decide (ctx_current_step context ∈ [COLLECT_INCOME; COLLECT_AMOUNT])
          && has_digit message then NEUTRAL
  else if any_in EMPLOYMENT_KEYWORDS message_lower then NEUTRAL
  else UNCLEAR.

End IntentAnalyzer.

(** ** DataExtractor *)

Module DataExtractor.

(** *** The pattern [\d+(?:,\d{3})*(?:\.\d{2})?]

    Every part after [\d+] is optional, so the match at a position is
    the greedy one: all the digits, then every group of a comma and
    three digits, then a point and two digits when they follow. *)

(** Length of the longest run of digits at the start ([\d+]). *)
Fixpoint digits_len (s : string) : nat :=
  match s with
  | String c t => if is_digit c then S (digits_len t) else O
  | EmptyString => O
  end.

(** Length matched by [(?:,\d{3})*] at the start. *)
Fixpoint comma_groups_len (s : string) : nat :=
  match s with
  | String "," (String a (String b (String c t))) =>
      if is_digit a && is_digit b && is_digit c
      then (4 + comma_groups_len t)%nat else O
  | _ => O
  end.

(** Length matched by [(?:\.\d{2})?] at the start. *)
Definition decimals_len (s : string) : nat :=
  match s with
  | String "." (String a (String b _)) =>
      if is_digit a && is_digit b then 3%nat else O
  | _ => O
  end.

(** Length of the match at the start of [s]; [0] when there is none. *)
Definition match_len (s : string) : nat :=
  match digits_len s with
  | O => O
  | d =>
      let s1 := drop d s in
      let g := comma_groups_len s1 in
      (d + g + decimals_len (drop g s1))%nat
  end.

(** [re.findall]: the matches from left to right, without overlap.
    [skip] counts the characters still inside the previous match. *)
Fixpoint findall_from (skip : nat) (s : string) : list string :=
  match s with
  | EmptyString => []
  | String _ t =>
      match skip with
      | S k => findall_from k t
      | O =>
          match match_len s with
          | O => findall_from O t
          | S k => String.substring 0 (S k) s :: findall_from k t
          end
      end
  end.

Definition findall (s : string) : list string := findall_from O s.

(** *** [float(text)] on a decimal numeral

    The texts the pattern matches are [digits] or [digits.digits] once
    the commas are gone, and no other text reaches [float] here; a text
    with a comma is a [ValueError]. The result is the binary64 nearest
    to the decimal, infinite when it is out of range. *)

Fixpoint digits_value (s : string) (acc : N) : option N :=
  match s with
  | EmptyString => Some acc
  | String c t =>
      if is_digit c then digits_value t (acc * 10 + (code c - 48))%N else None
  end.

Definition py_float (text : string) : Result float :=
  let d := digits_len text in
  let int_part := String.substring 0 d text in
  match d, drop d text with
  | O, _ => Raise ValueError
  | _, EmptyString =>
      match digits_value int_part 0 with
      | Some n => Ok (SF2Prim (binary_normalize prec emax (Z.of_N n) 0 false))
      | None => Raise ValueError
      end
  | _, String "." frac =>
      match frac, digits_value (int_part +:+ frac) 0 with
      | String _ _, Some n =>
          Ok (SF2Prim (SFdiv prec emax (SF_of_Z (Z.of_N n))
                                       (SF_of_Z (10 ^ Z.of_nat (String.length frac)))))
      | _, _ => Raise ValueError
      end
  | _, _ => Raise ValueError
  end.

Definition extract_income (message : string) : Result (option float) :=
  let numbers := findall (remove_char "," message) in
  match numbers with
  | [] => Ok None
  | n0 :: rest =>
      let message_lower := lower message in
      match str_in "entre" message_lower && (2 <=? length numbers)%nat, rest with
      | true, n1 :: _ =>
          (* "entre 2000 y 3000" -> promedio *)
          rbind (py_float n0) (fun a =>
          rbind (py_float n1) (fun b =>
          Ok (Some ((a + b) / 2)%float)))
      | _, _ =>
          (* Tomar el primer numero encontrado *)
          rbind (py_float n0) (fun a => Ok (Some a))
      end
  end.

Definition employment_keywords : list (string * list string) :=
  [("employee", ["empleado"; "trabajo"; "empresa"; "empleada"; "oficina"; "sueldo"]);
   ("business_owner", ["negocio"; "propio"; "empresario"; "comercio"; "dueño"; "independiente"]);
   ("freelancer", ["freelance"; "independiente"; "por mi cuenta"; "proyectos"]);
   ("retired", ["jubilado"; "pensionado"; "retirado"; "tercera edad"]);
   ("student", ["estudiante"; "estudio"; "universidad"; "carrera"]);
   ("unemployed", ["desempleado"; "sin trabajo"; "buscando trabajo"; "cesante"])].

Definition extract_employment (message : string) : option string :=
  let message_lower := lower message in
  option_map fst
    (find (fun entry => any_in (snd entry) message_lower) employment_keywords).

Definition extract_amount (message : string) : Result (option float) :=
  let numbers := findall (remove_char "," message) in
  match numbers with
  | [] => Ok None
  | n0 :: rest =>
      let message_lower := lower message in
      match str_in "entre" message_lower && (2 <=? length numbers)%nat, rest with
      | true, n1 :: _ =>
          (* Tomar el numero mayor del rango *)
          rbind (py_float n0) (fun a =>
          rbind (py_float n1) (fun b =>
          Ok (Some (float_max a b))))
      | _, _ => rbind (py_float n0) (fun a => Ok (Some a))
      end
  end.

End DataExtractor.


(** ** BasePromptTemplate *)

(** A template is its text, read as [str.format] reads it: literal text
    and replacement fields [{name}] or [{name:spec}]. *)
Inductive segment :=
| Lit (text : string)
| Field (name spec : string).

Record BasePromptTemplate := {
  segments : list segment;
  required_vars : list string
}.

Definition nl : string := String (ascii_of_N 10) EmptyString.

Definition segment_text (s : segment) : string :=
  match s with
  | Lit text => text
  | Field name spec =>
      if (spec =? "")%string then "{" +:+ name +:+ "}"
      else "{" +:+ name +:+ ":" +:+ spec +:+ "}"
  end.

(** [self.template]: the text with its fields unfilled. *)
Definition template (t : BasePromptTemplate) : string :=
  String.concat "" (map segment_text (segments t)).

(** [format(v, spec)] for the two specifications the templates use. *)
Definition format_value (v : PyVal) (spec : string) : Result string :=
  if (spec =? "")%string then Ok (format_plain v)
  else if (spec =? ",")%string then format_comma v
  else Raise ValueError.

(** [self.template.format] on the keyword arguments: a field without an
    argument is a [KeyError]. *)
Fixpoint format_segments (segs : list segment) (kwargs : Dict) : Result string :=
  match segs with
  | [] => Ok ""
  | Lit text :: rest =>
      rbind (format_segments rest kwargs) (fun r => Ok (text +:+ r))
  | Field name spec :: rest =>
      match kwargs !! name with
      | None => Raise KeyError
      | Some v =>
          rbind (format_value v spec) (fun a =>
          rbind (format_segments rest kwargs) (fun r => Ok (a +:+ r)))
      end
  end.

(** [BasePromptTemplate.render]: the filled text, or the template as it
    is when filling it raises. *)
Definition render (t : BasePromptTemplate) (kwargs : Dict) : string :=
  rcatch (format_segments (segments t) kwargs) (template t).

(** [f(..., **kwargs)] where [f] has parameters of the given names: a
    keyword naming one of them is a second value for that parameter,
    which is a [TypeError] at the call. *)
Definition call_with_keywords {A} (parameters : list string) (kwargs : Dict)
    (body : Result A) : Result A :=
  if existsb (fun name => bool_decide (is_Some (kwargs !! name))) parameters
  then Raise TypeError
  else body.

(** ** SystemPromptBuilder

    Only [_get_product_display] is needed below: the system prompt is an
    argument of the backend call and of nothing else. *)

Module SystemPromptBuilder.

Definition _get_product_display (product_type : ProductType) : string :=
  match product_type with
  | CREDIT_CARD => "Tarjetas de Crédito"
  | PERSONAL_CREDIT => "Créditos Personales"
  | INSURANCE => "Seguros"
  | SAVINGS => "Cuentas de Ahorro"
  | MORTGAGE => "Créditos Hipotecarios"
  | INVESTMENT => "Inversiones"
  end.

End SystemPromptBuilder.

(** ** ProductPromptBuilder *)

Module ProductPromptBuilder.

Record ProductConfig := {
  benefits : list string;
  amount_question : string;
  (** The [lambda income: ...] of the product; a value that is not a
      number fails in it with [TypeError]. *)
  calculation : PyVal -> Result num
}.

Definition on_number (f : num -> Result num) (income : PyVal) : Result num :=
  match as_num income with
  | Some n => f n
  | None => Raise TypeError
  end.

Definition PRODUCT_CONFIGS (product_type : ProductType) : option ProductConfig :=
  match product_type with
  | CREDIT_CARD =>
      Some {| benefits :=
                ["Sin anualidad el primer año";
                 "Cashback en compras diarias";
                 "Meses sin intereses en tiendas afiliadas";
                 "Programa de puntos canjeables";
                 "Seguro de compras incluido";
                 "App móvil avanzada"];
              amount_question := "¿Qué límite de crédito te gustaría tener en tu tarjeta?";
              calculation := on_number (fun income => Ok (num_min_Z (num_mul_Z income 5) 15000)) |}
  | PERSONAL_CREDIT =>
      Some {| benefits :=
                ["Tasas preferenciales desde 8.9%";
                 "Plazos flexibles hasta 60 meses";
                 "Aprobación en 24 horas";
                 "Sin comisiones por apertura";
                 "Pagos fijos mensuales";
                 "Opción de prepago sin penalización"];
              amount_question := "¿Qué monto de crédito necesitas aproximadamente?";
              calculation := on_number (fun income => Ok (num_min_Z (num_mul_Z income 12) 100000)) |}
  | INSURANCE =>
      Some {| benefits :=
                ["Cobertura integral";
                 "Primas competitivas";
                 "Atención 24/7 en emergencias";
                 "Red de proveedores nacional";
                 "Deducibles preferenciales";
                 "App para reportar siniestros"];
              amount_question := "¿Qué tipo de cobertura buscas: vida, hogar, auto o familiar?";
              calculation := on_number (fun income =>
                               rbind (num_mul_float income 0.05) (fun v => Ok (NFloat v))) |}
  | SAVINGS =>
      Some {| benefits :=
                ["Rendimientos hasta 6.5% anual";
                 "Sin monto mínimo de apertura";
                 "Retiros ilimitados";
                 "Banca digital completa";
                 "Transferencias gratuitas";
                 "Estado de cuenta digital"];
              amount_question := "¿Qué monto te gustaría ahorrar mensualmente?";
              calculation := on_number (fun income =>
                               rbind (num_mul_float income 0.15) (fun v => Ok (NFloat v))) |}
  | MORTGAGE | INVESTMENT => None
  end.

(** Determina el tipo de tarjeta segun ingresos. *)
Definition _get_card_type (income : PyVal) : Result string :=
  match as_num income with
  | None => Raise TypeError
  | Some n =>
      if num_ge_Z n 5000 then Ok "Tarjeta Platinum"
      else if num_ge_Z n 2500 then Ok "Tarjeta Gold"
      else Ok "Tarjeta Classic"
  end.

(** [f"${int(x):,}"] without the dollar sign. *)
Definition int_comma (x : num) : Result string :=
  rbind (num_int x) (fun z => Ok (format_comma_Z z)).

(** [", ".join(benefits[:-1]) + f" y {benefits[-1]}"]. *)
Definition benefits_text (benefits : list string) : Result string :=
  match rev benefits with
  | [] => Raise IndexError
  | b_last :: init => Ok (join ", " (rev init) +:+ " y " +:+ b_last)
  end.

(** [recommended_value / 36]: 36 meses promedio. *)
Definition monthly_payment (recommended_value : num) : Result float :=
  num_div_Z recommended_value 36.

(** [recommended_value * 12 * 0.065]: 6.5% anual. *)
Definition annual_earnings (recommended_value : num) : Result float :=
  num_mul_float (num_mul_Z recommended_value 12) 0.065.

Definition build_offer (context : PromptContext) : Result string :=
  match PRODUCT_CONFIGS (ctx_product_type context) with
  | None => Ok "Te tengo una excelente opción que será perfecta para ti."
  | Some config =>
      let monthly_income := dict_get_default (ctx_collected_data context) "monthly_income" (VInt 0) in
      if negb (truthy monthly_income)
      then Ok "Necesito conocer tus ingresos para darte la mejor recomendación."
      else
        (* Calcular valores recomendados *)
        rbind (calculation config monthly_income) (fun recommended_value =>
        (* Seleccionar beneficios top 3 *)
        rbind (benefits_text (firstn 3 (benefits config))) (fun benefits_text =>
        match ctx_product_type context with
        | CREDIT_CARD =>
            rbind (_get_card_type monthly_income) (fun product_name =>
            rbind (format_comma monthly_income) (fun income_text =>
            rbind (int_comma recommended_value) (fun limit_text =>
            Ok ("Con tus ingresos de $" +:+ income_text +:+ ", te recomiendo nuestra "
                +:+ product_name +:+ " con límite de hasta $" +:+ limit_text
                +:+ ", que incluye " +:+ benefits_text +:+ "."))))
        | PERSONAL_CREDIT =>
            rbind (monthly_payment recommended_value) (fun monthly_payment =>
            rbind (int_comma recommended_value) (fun amount_text =>
            rbind (int_comma (NFloat monthly_payment)) (fun payment_text =>
            Ok ("Puedo ofrecerte un crédito de hasta $" +:+ amount_text
                +:+ " con cuotas desde $" +:+ payment_text
                +:+ " mensuales, que incluye " +:+ benefits_text +:+ "."))))
        | INSURANCE =>
            rbind (int_comma recommended_value) (fun premium_text =>
            Ok ("Te recomiendo nuestro seguro integral con prima mensual desde $"
                +:+ premium_text +:+ ", que incluye " +:+ benefits_text +:+ "."))
        | SAVINGS =>
            rbind (annual_earnings recommended_value) (fun annual_earnings =>
            rbind (int_comma recommended_value) (fun deposit_text =>
            rbind (int_comma (NFloat annual_earnings)) (fun earnings_text =>
            Ok ("Tu cuenta de ahorros con $" +:+ deposit_text
                +:+ " mensuales generaría aproximadamente $" +:+ earnings_text
                +:+ " al año, e incluye " +:+ benefits_text +:+ "."))))
        | _ => Ok ("Te tengo una excelente opción con " +:+ benefits_text +:+ ".")
        end))
  end.

Definition get_amount_question (product_type : ProductType) : string :=
  match PRODUCT_CONFIGS product_type with
  | Some config => amount_question config
  | None => "¿Qué monto te interesa?"
  end.

End ProductPromptBuilder.

(** ** StepPromptBuilder *)

Module StepPromptBuilder.

Definition STEP_TEMPLATES (step : ConversationStep) : option BasePromptTemplate :=
  match step with
  | GREETING =>
      Some {| segments :=
                [Lit "¡Hola ";
                 Field "user_name" "";
                 Lit "! 👋 ";
                 Lit nl;
                 Lit "            ";
                 Lit nl;
                 Lit "Vi que estuviste consultando opciones de ";
                 Field "product_type_display" "";
                 Lit ". ";
                 Field "segment_greeting" "";
                 Lit nl;
                 Lit nl;
                 Lit "¿Te gustaría que te ayude a encontrar la mejor opción para tu perfil?"];
              required_vars := ["user_name"; "product_type_display"] |}
  | COLLECT_INCOME =>
      Some {| segments :=
                [Field "confirmation_phrase" "";
                 Lit " Para recomendarte las mejores opciones disponibles, ¿podrías contarme cuáles son tus ingresos mensuales aproximados?";
                 Lit nl;
                 Lit nl;
                 Field "income_context" ""];
              required_vars := ["confirmation_phrase"] |}
  | COLLECT_EMPLOYMENT =>
      Some {| segments :=
                [Lit "Perfecto, con $";
                 Field "monthly_income" ",";
                 Lit " mensuales tienes buenas opciones. 💪";
                 Lit nl;
                 Lit nl;
                 Lit "¿Trabajas como empleado en una empresa o tienes tu propio negocio?"];
              required_vars := ["monthly_income"] |}
  | COLLECT_AMOUNT =>
      Some {| segments :=
                [Lit "Excelente información. ";
                 Field "employment_acknowledgment" "";
                 Lit nl;
                 Lit nl;
                 Field "amount_question" ""];
              required_vars := ["amount_question"] |}
  | PRESENT_OFFER =>
      Some {| segments :=
                [Lit "¡Tengo la opción perfecta para ti! 🎯";
                 Lit nl;
                 Lit nl;
                 Field "offer_details" "";
                 Lit nl;
                 Lit nl;
                 Lit "¿Te gustaría que te envíe más información detallada o tienes alguna pregunta específica?"];
              required_vars := ["offer_details"] |}
  | AWAITING_DECISION =>
      Some {| segments :=
                [Field "decision_prompt" "";
                 Lit nl;
                 Lit nl;
                 Lit "¿Te interesa proceder con esta opción?"];
              required_vars := ["decision_prompt"] |}
  | CLOSE_POSITIVE =>
      Some {| segments :=
                [Lit "¡Excelente decisión, ";
                 Field "user_name" "";
                 Lit "! 🙌";
                 Lit nl;
                 Lit nl;
                 Lit "Un asesor especializado se contactará contigo en las próximas 24-48 horas para finalizar tu ";
                 Field "product_type_display" "";
                 Lit ".";
                 Lit nl;
                 Lit nl;
                 Lit "¡Gracias por confiar en nosotros!"];
              required_vars := ["user_name"; "product_type_display"] |}
  | CLOSE_NEGATIVE =>
      Some {| segments :=
                [Lit "Entiendo perfectamente, ";
                 Field "user_name" "";
                 Lit ". ";
                 Lit nl;
                 Lit nl;
                 Lit "Gracias por tu tiempo. Si en el futuro cambias de opinión, estaré aquí para ayudarte.";
                 Lit nl;
                 Lit nl;
                 Lit "¡Que tengas un excelente día! 👋"];
              required_vars := ["user_name"] |}
  | HANDLE_OBJECTION =>
      Some {| segments :=
                [Lit "Entiendo tu preocupación sobre ";
                 Field "objection_topic" "";
                 Lit ". ";
                 Field "objection_response" "";
                 Lit nl;
                 Lit nl;
                 Lit "¿Hay algo más específico que te gustaría saber?"];
              required_vars := ["objection_topic"; "objection_response"] |}
  | REQUEST_CLARIFICATION =>
      Some {| segments :=
                [Lit "No entendí bien tu mensaje, ¿podrías darme más detalles? ";
                 Lit nl;
                 Lit nl;
                 Field "clarification_examples" "";
                 Lit nl;
                 Lit nl;
                 Lit "¡Gracias por tu paciencia! 😊"];
              required_vars := ["clarification_examples"] |}
  | COLLECT_BUDGET | COMPLETED | ERROR => None
  end.

Definition SEGMENT_GREETINGS (segment : CustomerSegment) : string :=
  match segment with
  | PREMIUM => "Como cliente preferencial, quiero asegurarme de ofrecerte las mejores condiciones."
  | STANDARD => "Me encantaría ayudarte a encontrar algo que se ajuste perfectamente a tus necesidades."
  | BASIC => "Estoy aquí para ayudarte de manera sencilla y sin complicaciones."
  | YOUTH => "¡Perfecto timing! Tenemos opciones geniales para personas como tú."
  | SENIOR => "Será un placer ayudarte con toda la información que necesites."
  end.

Definition _get_confirmation_phrase (context : PromptContext) : string :=
  match ctx_customer_segment context with
  | PREMIUM => "Perfecto."
  | STANDARD => "Excelente."
  | BASIC => "¡Muy bien!"
  | YOUTH => "¡Genial!"
  | SENIOR => "Muy bien."
  end.

Definition _get_income_context (product_type : ProductType) : string :=
  match product_type with
  | CREDIT_CARD => "Esto me ayuda a calcular el límite ideal para ti."
  | PERSONAL_CREDIT => "Con esta info puedo mostrarte los montos disponibles."
  | INSURANCE => "Así puedo sugerirte coberturas acordes a tu perfil."
  | SAVINGS => "Para recomendarte el mejor plan de ahorro."
  | MORTGAGE => "Es fundamental para evaluar tu capacidad de financiamiento."
  | INVESTMENT => "Necesario para armar una estrategia de inversión adecuada."
  end.

(** Obtiene variables especificas para cada paso. *)
Definition _get_step_specific_vars (context : PromptContext) : Result Dict :=
  match ctx_current_step context with
  | COLLECT_INCOME =>
      Ok (<["income_context" := VStr (_get_income_context (ctx_product_type context))]>
          (<["confirmation_phrase" := VStr (_get_confirmation_phrase context)]> ∅))
  | COLLECT_EMPLOYMENT =>
      let employment := dict_get_default (ctx_collected_data context) "employment_type" (VStr "") in
      Ok {["employment_acknowledgment" :=
             match employment with
             | VStr "employee" => VStr "Es genial que tengas un empleo estable."
             | VStr "business_owner" => VStr "¡Excelente que tengas tu propio negocio!"
             | _ => VStr ""
             end ]}
  | COLLECT_AMOUNT =>
      Ok {["amount_question" :=
             VStr (ProductPromptBuilder.get_amount_question (ctx_product_type context)) ]}
  | PRESENT_OFFER =>
      rbind (ProductPromptBuilder.build_offer context) (fun offer =>
      Ok {["offer_details" := VStr offer ]})
  | _ => Ok ∅
  end.

(** Construye el prompt para un paso especifico. In the keyword
    arguments a later binding of a name replaces an earlier one; the
    variables are the keyword arguments of [render(self, **kwargs)]. *)
Definition build (context : PromptContext) (extra_vars : Dict) : Result string :=
  match STEP_TEMPLATES (ctx_current_step context) with
  | None => Ok "Continúa la conversación apropiadamente."
  | Some t =>
      let base : Dict :=
        <["segment_greeting" := VStr (SEGMENT_GREETINGS (ctx_customer_segment context))]>
        (<["product_type_display" :=
             VStr (SystemPromptBuilder._get_product_display (ctx_product_type context))]>
        (<["user_name" := VStr (ctx_user_name context)]> ∅)) in
      let variables : Dict := extra_vars ∪ (ctx_collected_data context ∪ base) in
      rbind (_get_step_specific_vars context) (fun step_vars =>
      let variables := step_vars ∪ variables in
      call_with_keywords ["self"] variables (Ok (render t variables)))
  end.

End StepPromptBuilder.

(** ** PromptBuilder *)

Module PromptBuilder.

(** [except (ValueError, KeyError)]: these two are handled, any other
    exception passes. *)
Definition except_value_or_key {A} (r : Result A) (handler : A) : Result A :=
  match r with
  | Raise ValueError | Raise KeyError => Ok handler
  | _ => r
  end.

(** Construye prompt especifico para un paso. [kwargs] holds the
    keywords of the call that name no parameter of the method; they go
    on to [StepPromptBuilder.build(cls, context, **extra_vars)]. *)
Definition build_step_prompt (step user_name product_type customer_segment : string)
    (collected_data : Dict) (kwargs : Dict) : Result string :=
  except_value_or_key
    (rbind (of_value product_type) (fun product =>
     rbind (of_value customer_segment) (fun segment =>
     rbind (of_value step) (fun current =>
     call_with_keywords ["cls"; "context"] kwargs
       (StepPromptBuilder.build
          {| ctx_user_name := user_name;
             ctx_product_type := product;
             ctx_customer_segment := segment;
             ctx_current_step := current;
             ctx_collected_data := collected_data |} kwargs)))))
    ("Continúa la conversación apropiadamente para el paso: " +:+ step).

(** Analiza la intencion del mensaje del usuario. *)
Definition analyze_intent (message current_step product_type customer_segment user_name : string)
    : Result string :=
  rbind (of_value product_type) (fun product =>
  rbind (of_value customer_segment) (fun segment =>
  rbind (of_value current_step) (fun current =>
  Ok (value (IntentAnalyzer.analyze message
        {| ctx_user_name := user_name;
           ctx_product_type := product;
           ctx_customer_segment := segment;
           ctx_current_step := current;
           ctx_collected_data := ∅ |}))))).

(** Extrae datos especificos del mensaje: [None] when the extractor
    finds nothing or raises. *)
Definition extract_data (message data_type : string) : PyVal :=
  if (data_type =? "income")%string then
    match DataExtractor.extract_income message with
    | Ok (Some f) => VFloat f
    | _ => VNone
    end
  else if (data_type =? "employment")%string then
    match DataExtractor.extract_employment message with
    | Some e => VStr e
    | None => VNone
    end
  else if (data_type =? "amount")%string then
    match DataExtractor.extract_amount message with
    | Ok (Some f) => VFloat f
    | _ => VNone
    end
  else VNone.

(** Construye oferta especifica por producto; every exception gives
    the generic offer. *)
Definition build_product_offer (product_type : string) (collected_data : Dict)
    (customer_segment user_name : string) : string :=
  rcatch
    (rbind (of_value product_type) (fun product =>
     rbind (of_value customer_segment) (fun segment =>
     ProductPromptBuilder.build_offer
       {| ctx_user_name := user_name;
          ctx_product_type := product;
          ctx_customer_segment := segment;
          ctx_current_step := PRESENT_OFFER;
          ctx_collected_data := collected_data |})))
    "Te tengo una excelente opción que será perfecta para ti.".

End PromptBuilder.

(** ** ConversationFlowManager *)

Record Progress := {
  progress_current_step : string;
  progress_percentage : Z;
  data_completeness : Z;
  is_complete : bool;
  collected_fields : option Z;
  total_fields : option Z;
  progress_error : option exn
}.

Module ConversationFlowManager.

(** Verifica si hay ingresos validos. *)
Definition _has_valid_income (data : Dict) : bool :=
  let income := dict_get data "monthly_income" in
  match as_num income with (* isinstance(income, (int, float)) *)
  | Some n => num_ge_Z n 500 && num_le_Z n 50000
  | None => false
  end.

(** Verifica si hay informacion de empleo valida. *)
Definition _has_valid_employment (data : Dict) : bool :=
  let employment := dict_get data "employment_type" in
  let valid_types :=
    ["employee"; "business_owner"; "freelancer"; "retired"; "student"; "unemployed"] in
  match employment with
  | VStr e => existsb (String.eqb e) valid_types
  | _ => false
  end.

(** Verifica si hay monto valido. *)
Definition _has_valid_amount (data : Dict) : bool :=
  let amount := dict_get data "requested_amount" in
  match as_num amount with
  | Some n => num_gt_Z n 0
  | None => false
  end.

(** Determina el siguiente paso despues de una aclaracion. *)
Definition _get_clarification_next_step (data : Dict) : string :=
  if negb (_has_valid_income data) then value COLLECT_INCOME
  else if negb (_has_valid_employment data) then value COLLECT_EMPLOYMENT
  else if negb (_has_valid_amount data) then value COLLECT_AMOUNT
  else value PRESENT_OFFER.

(** Determina el siguiente paso en la conversacion. *)
Definition get_next_step (current_step intent : string) (collected_data : Dict) : string :=
  rcatch
    (rbind (of_value current_step) (fun current : ConversationStep =>
     rbind (of_value intent) (fun intent_type : IntentType =>
     (* Si el usuario rechaza en cualquier momento *)
     if decide (intent_type = NEGATIVE) then Ok (value CLOSE_NEGATIVE)
     else
       (* Flujo principal segun el paso actual *)
       match current with
       | GREETING =>
           if decide (intent_type = POSITIVE) then Ok (value COLLECT_INCOME)
           else Ok (value REQUEST_CLARIFICATION)
       | COLLECT_INCOME =>
           if _has_valid_income collected_data then Ok (value COLLECT_EMPLOYMENT)
           else Ok (value COLLECT_INCOME)
       | COLLECT_EMPLOYMENT =>
           if _has_valid_employment collected_data then Ok (value COLLECT_AMOUNT)
           else Ok (value COLLECT_EMPLOYMENT)
       | COLLECT_AMOUNT =>
           if _has_valid_amount collected_data then Ok (value PRESENT_OFFER)
           else Ok (value COLLECT_AMOUNT)
       | PRESENT_OFFER =>
           if decide (intent_type = POSITIVE) then Ok (value AWAITING_DECISION)
           else if decide (intent_type = REQUEST_INFO) then Ok (value PRESENT_OFFER)
           else if decide (intent_type = OBJECTION) then Ok (value HANDLE_OBJECTION)
           else Ok (value REQUEST_CLARIFICATION)
       | AWAITING_DECISION =>
           if decide (intent_type = POSITIVE) then Ok (value CLOSE_POSITIVE)
           else if decide (intent_type = NEGATIVE) then Ok (value CLOSE_NEGATIVE)
           else Ok (value AWAITING_DECISION)
       | HANDLE_OBJECTION =>
           if decide (intent_type = POSITIVE) then Ok (value AWAITING_DECISION)
           else if decide (intent_type = REQUEST_INFO) then Ok (value PRESENT_OFFER)
           else Ok (value CLOSE_NEGATIVE)
       | REQUEST_CLARIFICATION =>
           Ok (_get_clarification_next_step collected_data)
       | _ => Ok (value ERROR)
       end)))
    (value ERROR).

(** Verifica si la conversacion ha terminado. *)
Definition is_conversation_complete (current_step : string) : bool :=
  existsb (String.eqb current_step)
    [value CLOSE_POSITIVE; value CLOSE_NEGATIVE; value COMPLETED; value ERROR].

Definition step_order : list ConversationStep :=
  [GREETING; COLLECT_INCOME; COLLECT_EMPLOYMENT; COLLECT_AMOUNT;
   PRESENT_OFFER; AWAITING_DECISION; CLOSE_POSITIVE].

(** [l.index(x)]: [None] stands for the [ValueError]. *)
Fixpoint index {A} `{EqDecision A} (x : A) (l : list A) : option Z :=
  match l with
  | [] => None
  | y :: r => if decide (y = x) then Some 0 else option_map Z.succ (index x r)
  end.

(** [int((a / b) * 100)]. *)
Definition percentage (a b : Z) : Result Z :=
  rbind (num_div_Z (NInt a) b) (fun q => py_int (q * flit 100)%float).

Definition required_fields : list string :=
  ["monthly_income"; "employment_type"; "requested_amount"].

(** Obtiene el progreso actual de la conversacion. *)
Definition get_conversation_progress (current_step : string) (collected_data : Dict) : Progress :=
  let body :=
    rbind (of_value current_step) (fun step : ConversationStep =>
    rbind (match index step step_order with
           | Some current_index => percentage current_index (Z.of_nat (length step_order))
           | None => Ok 50 (* Estimacion *)
           end) (fun progress_percentage =>
    (* Calcular completitud de datos *)
    let completed_fields :=
      Z.of_nat (length (List.filter (fun field => negb (is_none (dict_get collected_data field)))
                               required_fields)) in
    rbind (percentage completed_fields (Z.of_nat (length required_fields))) (fun data_completeness =>
    Ok {| progress_current_step := current_step;
          progress_percentage := progress_percentage;
          data_completeness := data_completeness;
          is_complete := is_conversation_complete current_step;
          collected_fields := Some completed_fields;
          total_fields := Some (Z.of_nat (length required_fields));
          progress_error := None |}))) in
  match body with
  | Ok progress => progress
  | Raise e =>
      {| progress_current_step := current_step;
         progress_percentage := 0;
         data_completeness := 0;
         is_complete := false;
         collected_fields := None;
         total_fields := None;
         progress_error := Some e |}
  end.

End ConversationFlowManager.

(** ** server/app/core/utils.py *)

Module Utils.

Definition segment_multipliers (segment : PyVal) : option float :=
  match segment with
  | VStr k =>
      if (k =? "premium")%string then Some 1.3%float
      else if (k =? "standard")%string then Some 1.0%float
      else if (k =? "basic")%string then Some 0.8%float
      else None
  | _ => None
  end.

Definition employment_multipliers (employment : PyVal) : option float :=
  match employment with
  | VStr k =>
      if (k =? "employee")%string then Some 1.1%float
      else if (k =? "business_owner")%string then Some 1.2%float
      else if (k =? "freelancer")%string then Some 0.9%float
      else if (k =? "retired")%string then Some 0.8%float
      else None
  | _ => None
  end.

(** Calcula score de propension simple basado en datos. Comparing a
    value that is not a number with a number is a [TypeError]. *)
Definition calculate_propensity_score (user_data collected_data : Dict) : Result float :=
  let score := 0.5%float in
  (* Ajustar por segmento de cliente *)
  let segment := dict_get_default user_data "customer_segment" (VStr "standard") in
  let score := (score * default 1.0 (segment_multipliers segment))%float in
  (* Ajustar por ingresos *)
  let monthly_income := dict_get collected_data "monthly_income" in
  rbind
    (if truthy monthly_income then
       match as_num monthly_income with
       | None => Raise TypeError
       | Some n =>
           if num_gt_Z n 5000 then Ok (score * 1.2)%float
           else if num_gt_Z n 2000 then Ok (score * 1.1)%float
           else if num_lt_Z n 1000 then Ok (score * 0.8)%float
           else Ok score
       end
     else Ok score) (fun score =>
  (* Ajustar por tipo de empleo *)
  let employment := dict_get collected_data "employment_type" in
  let score :=
    match employment_multipliers employment with
    | Some k => (score * k)%float
    | None => score
    end in
  (* Mantener score entre 0.1 y 1.0 *)
  Ok (float_max 0.1 (float_min 1.0 score))).

End Utils.

(** ** server/app/api/customers.py *)

(** A finite [Decimal]: [(-1)^sign * coefficient * 10^exponent]. *)
Record Decimal := {
  dec_sign : bool;
  dec_coefficient : N;
  dec_exponent : Z
}.

Record UserData := {
  customer_segment : string;
  current_products : list string;
  credit_score : option Z;
  monthly_income : option Decimal
}.

Module Customers.

(** [float(d)]: the binary64 nearest to the decimal. *)
Definition float_of_Decimal (d : Decimal) : float :=
  let c := Z.of_N (dec_coefficient d) in
  let c := if dec_sign d then - c else c in
  match dec_coefficient d with
  | N0 => if dec_sign d then (-0)%float else 0%float
  | _ =>
      if 0 <=? dec_exponent d
      then SF2Prim (binary_normalize prec emax (c * 10 ^ dec_exponent d) 0 false)
      else SF2Prim (SFdiv prec emax (SF_of_Z c) (SF_of_Z (10 ^ (- dec_exponent d))))
  end.

(** Convierte de forma segura Decimal/int/None a float. *)
Definition safe_decimal_to_float (v : option Decimal) : float :=
  match v with
  | None => 0.0%float
  | Some d => float_of_Decimal d
  end.

(** Convierte de forma segura cualquier numero a int: [int(float(value))],
    where [float] of an integer out of range is an [OverflowError],
    which the function does not handle. *)
Definition safe_int (v : option Z) : Result Z :=
  match v with
  | None => Ok 0
  | Some z => rbind (float_of_Z z) py_int
  end.

Definition segment_scores (segment : string) : option float :=
  if (segment =? "premium")%string then Some 0.8%float
  else if (segment =? "standard")%string then Some 0.6%float
  else if (segment =? "basic")%string then Some 0.4%float
  else None.

(** Calcula el score de propension basado en datos del usuario. *)
Definition calculate_propensity_score (user_data : UserData) (collected_data : Dict)
    : Result float :=
  let score := 0.0%float in
  (* Score base por segmento *)
  let score := (score + default 0.5 (segment_scores (customer_segment user_data)))%float in
  (* Ajuste por score crediticio *)
  rbind
    (if truthy (from_option VInt VNone (credit_score user_data)) then
       rbind (safe_int (credit_score user_data)) (fun credit_score =>
       if 800 <=? credit_score then Ok (score + 0.2)%float
       else if 700 <=? credit_score then Ok (score + 0.1)%float
       else if credit_score <? 600 then Ok (score - 0.1)%float
       else Ok score)
     else Ok score) (fun score =>
  (* Ajuste por ingresos *)
  let monthly_income := safe_decimal_to_float (monthly_income user_data) in
  let score := if (1500 <? monthly_income)%float then (score + 0.1)%float else score in
  (* Ajuste por productos actuales *)
  let score :=
    if negb (bool_decide (current_products user_data = [])) && (0 <? length (current_products user_data))%nat
    then (score + 0.1)%float else score in
  Ok (float_min 1.0 (float_max 0.0 score))).

End Customers.

(** ** server/app/models/schemas.py: ConversationState *)

Record Message := {
  role : string;
  content : string;
  timestamp : nat
}.

(** The keys of the state that the engine reads and writes. A key that
    a fresh state lacks is an [option]. *)
Record ConversationState := {
  phone : string;
  user_id : string;
  campaign_id : string;
  product_type : string;
  current_step : string;
  collected_data : Dict;
  messages : list Message;
  intent_confirmed : option bool;
  session_id : string;
  propensity_score : float;
  user_name : string;
  state_customer_segment : string;
  lead_generated : option bool;
  lead_id : option string;
  detected_intent : option string;
  needs_retry : bool;
  conversation_progress : option Progress
}.

(** ** server/app/database/repository.py *)

Record ConversationLogRow := {
  log_id : nat;
  log_session_id : string;
  log_user_id : string;
  log_campaign_id : string;
  log_status : string;
  log_current_step : string;
  log_product_type : string;
  log_phone_number : string;
  log_intent_confirmed : option bool;
  log_collected_data : Dict;
  log_total_messages : nat;
  log_started_at : nat;
  log_last_activity_at : nat
}.

Record MessageRow := {
  msg_id : nat;
  msg_session_id : string;
  msg_sender : string;
  msg_message_text : string;
  msg_intent_detected : option string;
  msg_agent_step : option string;
  msg_timestamp : nat
}.

Record LeadRow := {
  lead_row_id : nat;
  lead_user_id : string;
  lead_campaign_id : string;
  lead_session_id : string;
  lead_first_name : PyVal;
  lead_last_name : PyVal;
  lead_email : PyVal;
  lead_phone : string;
  lead_product_type : string;
  lead_monthly_income : PyVal;
  lead_employment_type : PyVal;
  lead_requested_amount : PyVal;
  lead_channel : string;
  lead_propensity_score : float;
  lead_status : string;
  lead_priority : string
}.

(** What lies outside the engine: the three tables, the database and the
    text-generation backend, either of which may fail on any call, and
    the clock. [db_fails n] tells whether the [n]-th statement sent to
    the database raises; [backend n] is the outcome of the [n]-th call
    of the backend, a text or an exception (a timeout is one). *)
Record World := {
  conversation_logs : gmap string ConversationLogRow;
  conversation_messages : list MessageRow;
  leads : list LeadRow;
  statements : nat;
  db_fails : nat -> bool;
  backend_calls : nat;
  backend : nat -> Result string;
  now : nat
}.

(** The world after one more call of the backend. *)
Definition backend_called (w : World) : World :=
  {| conversation_logs := conversation_logs w;
     conversation_messages := conversation_messages w;
     leads := leads w;
     statements := statements w;
     db_fails := db_fails w;
     backend_calls := S (backend_calls w);
     backend := backend w;
     now := now w |}.

(** The world after one more statement sent to the database. *)
Definition statement_sent (w : World) : World :=
  {| conversation_logs := conversation_logs w;
     conversation_messages := conversation_messages w;
     leads := leads w;
     statements := S (statements w);
     db_fails := db_fails w;
     backend_calls := backend_calls w;
     backend := backend w;
     now := now w |}.

(** A method of the agent runs on the state dictionary, which it
    changes in place, and on the world. What it changed before an
    exception stays changed. *)
Record Store := {
  state : ConversationState;
  world : World
}.

Definition M (A : Type) : Type := Store -> Result A * Store.

Definition ret {A} (a : A) : M A := fun s => (Ok a, s).

Definition bind {A B} (m : M A) (k : A -> M B) : M B :=
  fun s =>
    match m s with
    | (Ok a, s') => k a s'
    | (Raise e, s') => (Raise e, s')
    end.

Notation "'let*' x ':=' m 'in' k" := (bind m (fun x => k))
  (at level 10, x name, m at level 100, k at level 200).
Notation "m ';;' k" := (bind m (fun _ => k))
  (at level 100, k at level 200, right associativity).

Definition lift {A} (r : Result A) : M A := fun s => (r, s).

(** [try: body except Exception as e: handler]. *)
Definition try_except {A} (body : M A) (handler : exn -> M A) : M A :=
  fun s =>
    match body s with
    | (Ok a, s') => (Ok a, s')
    | (Raise e, s') => handler e s'
    end.

Definition get_state : M ConversationState := fun s => (Ok (state s), s).

Definition get_world : M World := fun s => (Ok (world s), s).

Definition update_state (f : ConversationState -> ConversationState) : M unit :=
  fun s => (Ok tt, {| state := f (state s); world := world s |}).

Definition update_world (f : World -> World) : M unit :=
  fun s => (Ok tt, {| state := state s; world := f (world s) |}).

Definition set_current_step (v : string) (s : ConversationState) : ConversationState :=
  {| phone := phone s; user_id := user_id s; campaign_id := campaign_id s;
     product_type := product_type s; current_step := v;
     collected_data := collected_data s; messages := messages s;
     intent_confirmed := intent_confirmed s; session_id := session_id s;
     propensity_score := propensity_score s; user_name := user_name s;
     state_customer_segment := state_customer_segment s;
     lead_generated := lead_generated s; lead_id := lead_id s;
     detected_intent := detected_intent s; needs_retry := needs_retry s;
     conversation_progress := conversation_progress s |}.

Definition append_message (m : Message) (s : ConversationState) : ConversationState :=
  {| phone := phone s; user_id := user_id s; campaign_id := campaign_id s;
     product_type := product_type s; current_step := current_step s;
     collected_data := collected_data s; messages := messages s ++ [m];
     intent_confirmed := intent_confirmed s; session_id := session_id s;
     propensity_score := propensity_score s; user_name := user_name s;
     state_customer_segment := state_customer_segment s;
     lead_generated := lead_generated s; lead_id := lead_id s;
     detected_intent := detected_intent s; needs_retry := needs_retry s;
     conversation_progress := conversation_progress s |}.

Definition set_conversation_progress (v : Progress) (s : ConversationState) : ConversationState :=
  {| phone := phone s; user_id := user_id s; campaign_id := campaign_id s;
     product_type := product_type s; current_step := current_step s;
     collected_data := collected_data s; messages := messages s;
     intent_confirmed := intent_confirmed s; session_id := session_id s;
     propensity_score := propensity_score s; user_name := user_name s;
     state_customer_segment := state_customer_segment s;
     lead_generated := lead_generated s; lead_id := lead_id s;
     detected_intent := detected_intent s; needs_retry := needs_retry s;
     conversation_progress := Some v |}.

Definition set_intent (confirmed : option bool) (intent : string) (s : ConversationState)
    : ConversationState :=
  {| phone := phone s; user_id := user_id s; campaign_id := campaign_id s;
     product_type := product_type s; current_step := current_step s;
     collected_data := collected_data s; messages := messages s;
     intent_confirmed := confirmed; session_id := session_id s;
     propensity_score := propensity_score s; user_name := user_name s;
     state_customer_segment := state_customer_segment s;
     lead_generated := lead_generated s; lead_id := lead_id s;
     detected_intent := Some intent; needs_retry := needs_retry s;
     conversation_progress := conversation_progress s |}.

Definition set_detected_intent (intent : string) (s : ConversationState) : ConversationState :=
  set_intent (intent_confirmed s) intent s.

(** [state["collected_data"][key] = v]. *)
Definition set_collected (key : string) (v : PyVal) (s : ConversationState) : ConversationState :=
  {| phone := phone s; user_id := user_id s; campaign_id := campaign_id s;
     product_type := product_type s; current_step := current_step s;
     collected_data := <[key := v]> (collected_data s); messages := messages s;
     intent_confirmed := intent_confirmed s; session_id := session_id s;
     propensity_score := propensity_score s; user_name := user_name s;
     state_customer_segment := state_customer_segment s;
     lead_generated := lead_generated s; lead_id := lead_id s;
     detected_intent := detected_intent s; needs_retry := needs_retry s;
     conversation_progress := conversation_progress s |}.

Definition set_lead (generated : bool) (id : option string) (s : ConversationState)
    : ConversationState :=
  {| phone := phone s; user_id := user_id s; campaign_id := campaign_id s;
     product_type := product_type s; current_step := current_step s;
     collected_data := collected_data s; messages := messages s;
     intent_confirmed := intent_confirmed s; session_id := session_id s;
     propensity_score := propensity_score s; user_name := user_name s;
     state_customer_segment := state_customer_segment s;
     lead_generated := Some generated;
     lead_id := match id with Some i => Some i | None => lead_id s end;
     detected_intent := detected_intent s; needs_retry := needs_retry s;
     conversation_progress := conversation_progress s |}.

(** One statement sent to the database: it raises when the world says
    so, and otherwise changes the tables and returns its row's id. *)
Definition execute_single (run : World -> nat * World) : M nat :=
  fun s =>
    let w := world s in
    if db_fails w (statements w)
    then (Raise DatabaseError, {| state := state s; world := statement_sent w |})
    else
      let '(id, w') := run w in
      (Ok id, {| state := state s; world := statement_sent w' |}).

Definition str_of_nat (n : nat) : string := str_of_Z (Z.of_nat n).

Module ConversationRepository.

(** Guarda o actualiza log de conversacion de campana:
    [INSERT ... ON CONFLICT (session_id) DO UPDATE SET ...]. *)
Definition upsert_log (st : ConversationState) (w : World) : nat * World :=
  let row :=
    match conversation_logs w !! session_id st with
    | Some old =>
        {| log_id := log_id old;
           log_session_id := log_session_id old;
           log_user_id := log_user_id old;
           log_campaign_id := log_campaign_id old;
           log_status :=
             if (current_step st =? "completed")%string then "completed" else log_status old;
           log_current_step := current_step st;
           log_product_type := log_product_type old;
           log_phone_number := log_phone_number old;
           log_intent_confirmed := intent_confirmed st;
           log_collected_data := collected_data st;
           log_total_messages := length (messages st);
           log_started_at := log_started_at old;
           log_last_activity_at := now w |}
    | None =>
        {| log_id := S (size (conversation_logs w));
           log_session_id := session_id st;
           log_user_id := user_id st;
           log_campaign_id := campaign_id st;
           log_status :=
             if negb (current_step st =? "completed")%string then "active" else "completed";
           log_current_step := current_step st;
           log_product_type := product_type st;
           log_phone_number := phone st;
           log_intent_confirmed := intent_confirmed st;
           log_collected_data := collected_data st;
           log_total_messages := length (messages st);
           log_started_at := now w;
           log_last_activity_at := now w |}
    end in
  (log_id row,
   {| conversation_logs := <[session_id st := row]> (conversation_logs w);
      conversation_messages := conversation_messages w;
      leads := leads w;
      statements := statements w;
      db_fails := db_fails w;
      backend_calls := backend_calls w;
      backend := backend w;
      now := now w |}).

Definition save_conversation_log : M string :=
  let* st := get_state in
  let* id := execute_single (upsert_log st) in
  ret (str_of_nat id).

(** Guarda mensaje individual de campana. *)
Definition insert_message (session_id sender message : string)
    (intent agent_step : option string) (w : World) : nat * World :=
  let row :=
    {| msg_id := S (length (conversation_messages w));
       msg_session_id := session_id;
       msg_sender := sender;
       msg_message_text := message;
       msg_intent_detected := intent;
       msg_agent_step := agent_step;
       msg_timestamp := now w |} in
  (msg_id row,
   {| conversation_logs := conversation_logs w;
      conversation_messages := conversation_messages w ++ [row];
      leads := leads w;
      statements := statements w;
      db_fails := db_fails w;
      backend_calls := backend_calls w;
      backend := backend w;
      now := now w |}).

Definition save_message (session_id sender message : string)
    (intent agent_step : option string) : M string :=
  let* id := execute_single (insert_message session_id sender message intent agent_step) in
  ret (str_of_nat id).

End ConversationRepository.

Module LeadRepository.

(** Guarda un nuevo lead: [INSERT INTO leads ... RETURNING id]. *)
Definition insert_lead (st : ConversationState) (w : World) : nat * World :=
  let collected := collected_data st in
  let row :=
    {| lead_row_id := S (length (leads w));
       lead_user_id := user_id st;
       lead_campaign_id := campaign_id st;
       lead_session_id := session_id st;
       lead_first_name := dict_get_default collected "first_name" (VStr (user_name st));
       lead_last_name := dict_get_default collected "last_name" (VStr "");
       lead_email := dict_get_default collected "email" (VStr "");
       lead_phone := phone st;
       lead_product_type := product_type st;
       lead_monthly_income := dict_get collected "monthly_income";
       lead_employment_type := dict_get collected "employment_type";
       lead_requested_amount := dict_get collected "requested_amount";
       lead_channel := "whatsapp";
       lead_propensity_score := propensity_score st;
       lead_status :=
         if truthy (from_option VBool VNone (intent_confirmed st)) then "qualified" else "new";
       lead_priority :=
         if (0.7 <? propensity_score st)%float then "high" else "medium" |} in
  (lead_row_id row,
   {| conversation_logs := conversation_logs w;
      conversation_messages := conversation_messages w;
      leads := leads w ++ [row];
      statements := statements w;
      db_fails := db_fails w;
      backend_calls := backend_calls w;
      backend := backend w;
      now := now w |}).

Definition save_lead : M string :=
  let* st := get_state in
  let* id := execute_single (insert_lead st) in
  ret (str_of_nat id).

End LeadRepository.

(** ** server/app/services/langraph_agent.py *)

Record ConversationAgent := {
  (** Whether [lead_repo] was given ([None] by default). *)
  lead_repo : bool
}.

Module Agent.

(** [await self.llm.ainvoke(messages)] and [response.content]. *)
Definition llm_ainvoke : M string :=
  fun s =>
    (backend (world s) (backend_calls (world s)),
     {| state := state s; world := backend_called (world s) |}).

(** Genera respuesta usando el LLM con el PromptBuilder. The system
    prompt is built first; building it raises nothing and its text goes
    to the backend only. *)
Definition _generate_llm_response (step user_name product_type customer_segment : string)
    (collected_data : Dict) (extra_kwargs : Dict) : M string :=
  try_except
    (let* step_prompt :=
       lift (PromptBuilder.build_step_prompt step user_name product_type customer_segment
               collected_data extra_kwargs) in
     let* response := llm_ainvoke in
     ret (strip response))
    (fun _ =>
       (* Fallback: usar respuesta del PromptBuilder sin LLM *)
       lift (PromptBuilder.build_step_prompt step user_name product_type customer_segment
               collected_data extra_kwargs)).

(** Genera respuesta para intencion negativa. *)
Definition _generate_negative_response (user_name : string) : string :=
  "Entiendo perfectamente, " +:+ user_name +:+ ". Gracias por tu tiempo.".

(** Limpia y valida la respuesta generada. *)
Definition _clean_response (response : string) : string :=
  if (response =? "")%string then "¿En qué puedo ayudarte?"
  else
    (* Limpiar caracteres extranos y normalizar *)
    let cleaned := strip response in
    (* Limitar longitud maxima *)
    let cleaned :=
      if (500 <? py_len cleaned)%nat then py_take 497 cleaned +:+ "..." else cleaned in
    (* Asegurar que termine con puntuacion apropiada *)
    match last_char cleaned with
    | Some c =>
        if existsb (Ascii.eqb c) ["."; "!"; "?"]%char then cleaned else cleaned +:+ "."
    | None => cleaned
    end.

Definition assistant_message (text : string) : M unit :=
  let* w := get_world in
  update_state (append_message {| role := "assistant"; content := text; timestamp := now w |}).

(** [state["collected_data"][key] = v] when [v] is true. *)
Definition collect_if_found (key : string) (v : PyVal) : M unit :=
  if truthy v then update_state (set_collected key v) else ret tt.

(** Analiza el mensaje del usuario usando el PromptBuilder mejorado. *)
Definition analyze_message : M unit :=
  try_except
    (* Asegurar que existe el conversation log *)
    (ConversationRepository.save_conversation_log ;;
     let* st := get_state in
     let* user_message :=
       match last (messages st) with
       | Some m => ret (content m)
       | None => lift (Raise IndexError)
       end in
     let current_step := current_step st in
     (* Analizar intencion usando el nuevo PromptBuilder *)
     let* intent :=
       lift (PromptBuilder.analyze_intent user_message current_step (product_type st)
               (state_customer_segment st) (user_name st)) in
     (* Mapear intencion a intent_confirmed para compatibilidad *)
     update_state
       (set_intent (if (intent =? "positive")%string then Some true
                    else if (intent =? "negative")%string then Some false
                    else None) intent) ;;
     (* Extraer datos segun el paso actual *)
     (if (current_step =? "collect_income")%string then
        collect_if_found "monthly_income" (PromptBuilder.extract_data user_message "income")
      else if (current_step =? "collect_employment")%string then
        collect_if_found "employment_type" (PromptBuilder.extract_data user_message "employment")
      else if (current_step =? "collect_amount")%string then
        collect_if_found "requested_amount" (PromptBuilder.extract_data user_message "amount")
      else ret tt) ;;
     (* Fallback: extraccion basica con regex (para compatibilidad) *)
     let* st' := get_state in
     (if negb (truthy (dict_get (collected_data st') "monthly_income"))
         && existsb (String.eqb current_step) ["collect_income"; "collect_budget"]
      then
        match DataExtractor.findall (remove_char "," user_message) with
        | number :: _ =>
            match DataExtractor.py_float number with
            | Ok amount =>
                if (current_step =? "collect_budget")%string
                then update_state (set_collected "budget" (VFloat amount))
                else update_state (set_collected "monthly_income" (VFloat amount))
            | Raise ValueError => ret tt
            | Raise e => lift (Raise e)
            end
        | [] => ret tt
        end
      else ret tt) ;;
     (* Guardar mensaje del usuario *)
     ConversationRepository.save_message (session_id st) "user" user_message
       (Some current_step) None ;;
     ret tt)
    (fun _ =>
       (* En caso de error, mantener estado actual *)
       update_state (set_detected_intent "unclear")).

(** Genera respuesta usando el PromptBuilder mejorado. *)
Definition generate_response : M unit :=
  try_except
    (let* st := get_state in
     let current_step := current_step st in
     let intent := default "unclear" (detected_intent st) in
     let collected_data := collected_data st in
     let user_name := user_name st in
     let product_type := product_type st in
     let customer_segment := state_customer_segment st in
     let needs_retry := needs_retry st in
     let next_step := ConversationFlowManager.get_next_step current_step intent collected_data in
     (* Generar respuesta apropiada *)
     let* answer :=
       if (intent =? "negative")%string && negb (current_step =? "greeting")%string then
         ret (_generate_negative_response user_name, "close_negative")
       else if (current_step =? "present_offer")%string && (intent =? "positive")%string then
         let* response :=
           _generate_llm_response "close_positive" user_name product_type customer_segment
             collected_data ∅ in
         ret (response, "close_positive")
       else if (next_step =? "present_offer")%string then
         (* Usar el ProductPromptBuilder para generar oferta *)
         let offer_details :=
           PromptBuilder.build_product_offer product_type collected_data customer_segment
             user_name in
         let* response :=
           _generate_llm_response "present_offer" user_name product_type customer_segment
             collected_data {["offer_details" := VStr offer_details]} in
         ret (response, next_step)
       else
         (* Generar respuesta estandar para el paso *)
         let* response :=
           _generate_llm_response (if negb needs_retry then next_step else current_step)
             user_name product_type customer_segment collected_data ∅ in
         ret (response, next_step) in
     let next_step := snd answer in
     (* Limpiar y validar respuesta *)
     let response := _clean_response (fst answer) in
     (* Agregar respuesta a los mensajes *)
     assistant_message response ;;
     update_state (set_current_step next_step) ;;
     (* Guardar mensaje del agente *)
     ConversationRepository.save_message (session_id st) "agent" response (Some next_step) None ;;
     ret tt)
    (fun _ =>
       let fallback := "Disculpa, hubo un error técnico. ¿Podemos continuar?" in
       assistant_message fallback ;;
       (* No cambiar el paso en caso de error *)
       let* st := get_state in
       ConversationRepository.save_message (session_id st) "agent" fallback
         (Some (current_step st)) None ;;
       ret tt).

(** Guarda el estado de la conversacion con metricas adicionales. *)
Definition save_conversation (self : ConversationAgent) : M unit :=
  try_except
    (let* st := get_state in
     (* Calcular progreso de la conversacion *)
     let progress :=
       ConversationFlowManager.get_conversation_progress (current_step st) (collected_data st) in
     update_state (set_conversation_progress progress) ;;
     (* Guardar estado completo *)
     ConversationRepository.save_conversation_log ;;
     (* Si completo la conversacion exitosamente, crear lead *)
     if (current_step st =? "close_positive")%string
        && truthy (from_option VBool VNone (intent_confirmed st))
        && lead_repo self
        && (75 <=? data_completeness progress)
     then
       try_except
         (let* lead_id := LeadRepository.save_lead in
          update_state (set_lead true (Some lead_id)))
         (fun _ => update_state (set_lead false None))
     else ret tt)
    (fun _ => ret tt).

End Agent.


(** * The specification's notions *)

(** The exact value of a number as a fraction [p / q] with [q > 0]; an
    infinite float and a NaN have none. *)
Definition num_fraction (n : num) : option (Z * Z) :=
  match n with
  | NInt z => Some (z, 1)
  | NFloat f =>
      match Prim2SF f with
      | S754_zero _ => Some (0, 1)
      | S754_finite s m e =>
          let v := if s then Z.neg m else Z.pos m in
          Some (if 0 <=? e then (v * 2 ^ e, 1) else (v, 2 ^ (- e)))
      | _ => None
      end
  end.

(** [v] is a number, and [lo <= v <= hi]. *)
Definition number_between (lo hi : Z) (v : PyVal) : Prop :=
  exists n p q, as_num v = Some n /\ num_fraction n = Some (p, q) /\ lo * q <= p <= hi * q.

(** A required field is present when its value is not [None]. *)
Definition present (data : Dict) (field : string) : bool :=
  negb (is_none (dict_get data field)).

Definition present_fields (data : Dict) : nat :=
  length (List.filter (present data) ConversationFlowManager.required_fields).

(** The steps that collect a number. *)
Definition numeric_collection_step (step : ConversationStep) : bool :=
  match step with
  | COLLECT_INCOME | COLLECT_AMOUNT => true
  | _ => false
  end.

(** The classifier in the specification's words: the rules in their
    order of priority, each a test of the utterance and the intent it
    gives; the first rule whose test holds decides, and [UNCLEAR] is the
    answer when none does. The lexicons are tested on the case-normalized
    utterance. *)
Definition intent_rules (utterance : string) (step : ConversationStep)
    : list (bool * IntentType) :=
  let normalized := strip (lower utterance) in
  [ (any_in IntentAnalyzer.POSITIVE_KEYWORDS normalized, POSITIVE);
    (any_in IntentAnalyzer.NEGATIVE_KEYWORDS normalized, NEGATIVE);
    (any_in IntentAnalyzer.INFO_REQUEST_KEYWORDS normalized, REQUEST_INFO);
    (any_in IntentAnalyzer.OBJECTION_KEYWORDS normalized, OBJECTION);
    (numeric_collection_step step && has_digit utterance, NEUTRAL);
    (any_in IntentAnalyzer.EMPLOYMENT_KEYWORDS normalized, NEUTRAL) ].

Definition first_match {A} (rules : list (bool * A)) (otherwise : A) : A :=
  match find fst rules with
  | Some rule => snd rule
  | None => otherwise
  end.

Definition classify (utterance : string) (step : ConversationStep) : IntentType :=
  first_match (intent_rules utterance step) UNCLEAR.

(** [hay] contains [needle]. *)
Definition contains (needle hay : string) : Prop :=
  exists before after, hay = before +:+ needle +:+ after.



Fixpoint all_digits (s : string) : bool :=
  match s with
  | EmptyString => true
  | String c t => is_digit c && all_digits t
  end.


(** [config["calculation"](monthly_income)] for the configuration of a
    product. *)
Definition recommended_value (product : ProductType) (monthly_income : PyVal) : Result num :=
  match ProductPromptBuilder.PRODUCT_CONFIGS product with
  | Some config => ProductPromptBuilder.calculation config monthly_income
  | None => Raise KeyError
  end.

Definition offer_context (product : ProductType) (monthly_income : PyVal) : PromptContext :=
  {| ctx_user_name := "Cliente";
     ctx_product_type := product;
     ctx_customer_segment := STANDARD;
     ctx_current_step := PRESENT_OFFER;
     ctx_collected_data := {["monthly_income" := monthly_income]} |}.

(** [0 <= v <= 1] on floats. *)
Definition in_unit_interval (v : float) : Prop :=
  (0 <=? v)%float = true /\ (v <=? 1)%float = true.

(** The step for which [generate_response] asks a response, with the
    extra keyword arguments of the prompt: [close_positive] on a positive
    answer to the offer, [present_offer] (with the offer) when the offer
    comes next, otherwise the next step, or the current one on a retry.
    There is none when a refusal outside the greeting gets the canned
    closing message. *)
Definition prompted_step (st : ConversationState) : option (string * Dict) :=
  let intent := default "unclear" (detected_intent st) in
  let next_step :=
    ConversationFlowManager.get_next_step (current_step st) intent (collected_data st) in
  if (intent =? "negative")%string && negb (current_step st =? "greeting")%string then None
  else if (current_step st =? "present_offer")%string && (intent =? "positive")%string
  then Some ("close_positive", ∅)
  else if (next_step =? "present_offer")%string
  then Some ("present_offer",
             {["offer_details" :=
                 VStr (PromptBuilder.build_product_offer (product_type st) (collected_data st)
                         (state_customer_segment st) (user_name st))]})
  else Some (if negb (needs_retry st) then next_step else current_step st, ∅).

(** The step [generate_response] writes into the state. *)
Definition written_step (st : ConversationState) : string :=
  let intent := default "unclear" (detected_intent st) in
  if (intent =? "negative")%string && negb (current_step st =? "greeting")%string
  then "close_negative"
  else if (current_step st =? "present_offer")%string && (intent =? "positive")%string
  then "close_positive"
  else ConversationFlowManager.get_next_step (current_step st) intent (collected_data st).

(** The leads of a session in the table. *)
Definition leads_of (session : string) (w : World) : list LeadRow :=
  List.filter (fun row => (lead_session_id row =? session)%string) (leads w).

(** When a run of [save_conversation] emits a lead: the step is
    [close_positive], the intent is confirmed, there is a lead
    repository, the data is complete to 75% or more, and neither the
    statement that saves the log nor the one that inserts the lead
    fails. *)
Definition emits_lead (self : ConversationAgent) (st : ConversationState) (w : World) : bool :=
  (current_step st =? "close_positive")%string
  && truthy (from_option VBool VNone (intent_confirmed st))
  && lead_repo self
  && (75 <=? data_completeness
               (ConversationFlowManager.get_conversation_progress (current_step st)
                  (collected_data st)))
  && negb (db_fails w (statements w))
  && negb (db_fails w (S (statements w))).

(** A state with other lead marks. *)
Definition with_lead_marks (generated : option bool) (id : option string)
    (s : ConversationState) : ConversationState :=
  {| phone := phone s; user_id := user_id s; campaign_id := campaign_id s;
     product_type := product_type s; current_step := current_step s;
     collected_data := collected_data s; messages := messages s;
     intent_confirmed := intent_confirmed s; session_id := session_id s;
     propensity_score := propensity_score s; user_name := user_name s;
     state_customer_segment := state_customer_segment s;
     lead_generated := generated; lead_id := id;
     detected_intent := detected_intent s; needs_retry := needs_retry s;
     conversation_progress := conversation_progress s |}.

(** ** Sample data *)

(** A world with empty tables where the database works and the backend
    is down. *)
Definition backend_down : World :=
  {| conversation_logs := ∅;
     conversation_messages := [];
     leads := [];
     statements := 0;
     db_fails := fun _ => false;
     backend_calls := 0;
     backend := fun _ => Raise BackendError;
     now := 0 |}.

Definition complete_data : Dict :=
  <["requested_amount" := VFloat 5000]>
    (<["employment_type" := VStr "employee"]> {["monthly_income" := VFloat 2500]}).

(** Ana has heard the offer and says yes. *)
Definition ana_accepts : ConversationState :=
  {| phone := "+593997814126"; user_id := "user_001"; campaign_id := "7";
     product_type := "credit_card"; current_step := "present_offer";
     collected_data := complete_data;
     messages := [{| role := "user"; content := "si, me interesa"; timestamp := 0 |}];
     intent_confirmed := Some true; session_id := "session_593997814126";
     propensity_score := 0.75; user_name := "Ana";
     state_customer_segment := "standard";
     lead_generated := None; lead_id := None;
     detected_intent := Some "positive"; needs_retry := false;
     conversation_progress := None |}.

Definition with_lead_repo : ConversationAgent := {| lead_repo := true |}.

(** A world with empty tables where the database and the backend work. *)
Definition quiet_world : World :=
  {| conversation_logs := ∅;
     conversation_messages := [];
     leads := [];
     statements := 0;
     db_fails := fun _ => false;
     backend_calls := 0;
     backend := fun _ => Ok "¡Listo!";
     now := 0 |}.


(** Ana after the generate stage closed the conversation positively. *)
Definition ana_closed : ConversationState := set_current_step "close_positive" ana_accepts.

(** The closing prompt for Ana, filled, and the template it comes from. *)
Definition close_positive_for_ana : string :=
  "¡Excelente decisión, Ana! 🙌" +:+ nl +:+ nl
  +:+ "Un asesor especializado se contactará contigo en las próximas 24-48 horas para finalizar tu Tarjetas de Crédito."
  +:+ nl +:+ nl +:+ "¡Gracias por confiar en nosotros!".

Definition close_positive_template : string :=
  "¡Excelente decisión, {user_name}! 🙌" +:+ nl +:+ nl
  +:+ "Un asesor especializado se contactará contigo en las próximas 24-48 horas para finalizar tu {product_type_display}."
  +:+ nl +:+ nl +:+ "¡Gracias por confiar en nosotros!".

(** Ana is asked for her income and answers [message]. *)
Definition ana_answers_income (message : string) : ConversationState :=
  {| phone := "+593997814126"; user_id := "user_001"; campaign_id := "7";
     product_type := "credit_card"; current_step := "collect_income";
     collected_data := ∅;
     messages := [{| role := "user"; content := message; timestamp := 0 |}];
     intent_confirmed := None; session_id := "session_593997814126";
     propensity_score := 0.75; user_name := "Ana";
     state_customer_segment := "standard";
     lead_generated := None; lead_id := None;
     detected_intent := None; needs_retry := false;
     conversation_progress := None |}.

(** The analyze stage, then the generate stage. *)
Definition analyze_then_generate (st : ConversationState) : ConversationState :=
  state (snd ((Agent.analyze_message ;; Agent.generate_response)
                {| state := st; world := quiet_world |})).


(** * The rest of the engine

    The functions of the same files that the conversation flow does not
    go through: the helpers of server/app/core/utils.py and
    server/app/api/customers.py, the validation rules of the prompt
    builder and the reads of the conversation repository. *)

(** ** More of the Python runtime *)

Module PyText.

(** Every character is one of Basic Latin (one byte each). *)
Fixpoint is_ascii (s : string) : bool :=
match s with
| EmptyString => true
| String c t => (code c <? 128)%N && is_ascii t
end.

(** [s[n:]]: what follows the first [n] code points. *)
Fixpoint py_drop (n : nat) (s : string) : string :=
match s with
| EmptyString => EmptyString
| String c t =>
    if is_continuation c then py_drop n t
    else match n with
         | O => s
         | S n' => py_drop n' t
         end
end.

(** [s[-n:]] for [n > 0]: the last [n] code points, all of [s] when it
  has fewer. *)
Definition py_last (n : nat) (s : string) : string :=
py_drop (py_len s - n) s.

(** [c * n] for a one-byte character [c]. *)
Fixpoint repeat_char (c : ascii) (n : nat) : string :=
match n with
| O => EmptyString
| S n' => String c (repeat_char c n')
end.

(** [s.lstrip(c)] for a one-byte character [c]. *)
Fixpoint lstrip_char (c : ascii) (s : string) : string :=
match s with
| EmptyString => EmptyString
| String d t => if Ascii.eqb c d then lstrip_char c t else s
end.

(** [s.split(c, 1)] for a one-byte character [c] that [s] contains: the
  text before its first occurrence and the text after it. *)
Fixpoint split_once (c : ascii) (s : string) : option (string * string) :=
match s with
| EmptyString => None
| String d t =>
    if Ascii.eqb c d then Some (EmptyString, t)
    else option_map (fun p => (String d (fst p), snd p)) (split_once c t)
end.

(** The characters of [s] that [keep] accepts, byte by byte. *)
Fixpoint keep_chars (keep : ascii -> bool) (s : string) : string :=
match s with
| EmptyString => EmptyString
| String c t => if keep c then String c (keep_chars keep t) else keep_chars keep t
end.

End PyText.

Import PyText.

(** ** server/app/core/utils.py: telephone numbers *)

Module CoreUtils.

(** The class [[\d+]]: a digit or the plus sign. *)
Definition digit_or_plus (c : ascii) : bool :=
is_digit c || Ascii.eqb c "+".

(** The country code is added to a number that has none. *)
Definition with_country_code (clean : string) : string :=
if negb (starts_with "+" clean) then
  if starts_with "593" clean then "+" +:+ clean
  else if starts_with "09" clean || starts_with "9" clean
  then "+593" +:+ lstrip_char "0" clean
  else "+593" +:+ clean
else clean.

(** Limpia y estandariza numero de telefono a formato internacional. *)
Definition clean_phone_number (phone : string) : string :=
if (phone =? "")%string then ""
else
  (* Remover caracteres no numericos excepto + *)
  let clean := keep_chars digit_or_plus phone in
  (* Si no tiene codigo de pais, agregar +593 (Ecuador) *)
  with_country_code clean.

(** [re.match(r'^\+593[0-9]{9}$', s)]: the end of the pattern is the end
  of the text, or a line feed that ends it. *)
Definition matches_ecuadorian (s : string) : bool :=
starts_with "+593" s
&& (let r := drop 4 s in
    (9 <=? String.length r)%nat
    && all_digits (String.substring 0 9 r)
    && ((drop 9 r =? "")%string || (drop 9 r =? nl)%string)).

(** Valida formato de numero de telefono. *)
Definition is_valid_phone_number (phone : string) : bool :=
let clean_phone := clean_phone_number phone in
(* Validar formato ecuatoriano: +593 seguido de 9 digitos *)
matches_ecuadorian clean_phone.

(** Enmascara numero de telefono para logging. *)
Definition mask_phone_number (phone : string) : string :=
if (py_len phone <? 8)%nat then phone
else py_take 4 phone +:+ repeat_char "*" (py_len phone - 8) +:+ py_last 4 phone.

(** *** Dictionaries *)

(** Merge dos diccionarios de manera segura: an empty dictionary gives
  a copy of the other one, and a key of both takes the value of the
  second. *)
Definition merge_dicts (dict1 dict2 : Dict) : Dict :=
if bool_decide (dict1 = ∅) then (if bool_decide (dict2 = ∅) then ∅ else dict2)
else if bool_decide (dict2 = ∅) then dict1
else dict2 ∪ dict1.

(** Extrae campos especificos de un diccionario:
  [{field: data.get(field) for field in fields if field in data}]. *)
Definition extract_dict_fields (data : Dict) (fields : list string) : Dict :=
foldl (fun result field =>
         match data !! field with
         | Some v => <[field := v]> result
         | None => result
         end) ∅ fields.

(** *** Validation *)

(** Valida tipo de empleo. *)
Definition validate_employment_type (employment : string) : bool :=
let valid_types :=
  ["employee"; "business_owner"; "freelancer"; "retired"; "student"; "unemployed"; "other"] in
existsb (String.eqb employment) valid_types.

(** *** Masking *)

Definition sensitive_fields : list string := ["phone"; "email"; "user_id"; "campaign_id"].

(** What replaces the value [v] of a sensitive field; [str(v)] is what
  gets masked. An e-mail address without an at sign is left as it
  is. *)
Definition mask_field (field : string) (v : PyVal) : PyVal :=
if (field =? "phone")%string then VStr (mask_phone_number (format_plain v))
else if (field =? "email")%string then
  let email := format_plain v in
  match split_once "@" email with
  | Some (local, domain) => VStr (py_take 2 local +:+ "***@" +:+ domain)
  | None => v
  end
else
  let value := format_plain v in
  VStr (if (8 <? py_len value)%nat
        then py_take 4 value +:+ "***" +:+ py_last 4 value
        else "***").

(** Enmascara informacion sensible en diccionarios: a sensitive field
  is masked when the dictionary has it with a true value. *)
Definition mask_sensitive_info (data : Dict) : Dict :=
foldl (fun masked field =>
         match masked !! field with
         | Some v => if truthy v then <[field := mask_field field v]> masked else masked
         | None => masked
         end) data sensitive_fields.

End CoreUtils.

(** ** server/app/api/customers.py: the amount a customer may ask for *)

Module CustomersApi.

(** Limpia el formato del telefono. [UserRepository._clean_phone] and
  [ConversationRepository._clean_phone] have the same body. *)
Definition _clean_phone (phone : string) : string :=
let clean := keep_chars CoreUtils.digit_or_plus phone in
CoreUtils.with_country_code clean.

(** Factores base segun producto. *)
Definition product_factors (product_type : string) : option float :=
if (product_type =? "credito_personal")%string then Some 5.0%float
else if (product_type =? "credito_vehicular")%string then Some 15.0%float
else if (product_type =? "credito_hipotecario")%string then Some 100.0%float
else if (product_type =? "tarjeta_credito")%string then Some 3.0%float
else None.

(** Limites por producto. *)
Definition limits (product_type : string) : option (Z * Z) :=
if (product_type =? "credito_personal")%string then Some (1000, 50000)
else if (product_type =? "credito_vehicular")%string then Some (5000, 200000)
else if (product_type =? "credito_hipotecario")%string then Some (20000, 500000)
else if (product_type =? "tarjeta_credito")%string then Some (500, 15000)
else None.

(** Ajuste por score crediticio. *)
Definition score_multiplier (credit_score : Z) : float :=
if 800 <=? credit_score then 1.5%float
else if 700 <=? credit_score then 1.2%float
else if 600 <=? credit_score then 1.0%float
else 0.7%float.

(** Calcula el monto maximo segun el perfil del cliente. The score is
  an [int] and the income a [float], as [safe_int] and
  [safe_decimal_to_float] give them. *)
Definition calculate_max_amount (credit_score : Z) (monthly_income : float)
  (product_type : string) : Result Z :=
if negb (truthy (VInt credit_score)) || negb (truthy (VFloat monthly_income))
then Ok 5000 (* Monto base *)
else
  let base_factor := default 5.0%float (product_factors product_type) in
  let score_multiplier := score_multiplier credit_score in
  (* Calcular con tipos compatibles *)
  rbind (py_int (monthly_income * base_factor * score_multiplier)%float) (fun max_amount =>
  let '(min_limit, max_limit) := default (1000, 50000) (limits product_type) in
  Ok (Z.max min_limit (Z.min max_amount max_limit))).

End CustomersApi.

(** ** PromptBuilder: the validation rules *)

Record ValidationRules := {
  required_data : list string;
  data_type : string;
  min_value : option Z;
  max_value : option Z;
  valid_values : list string;
  error_message : string
}.

Record Validation := {
  valid : bool;
  message : option string;
  missing_fields : option (list string)
}.

Module PromptBuilderRules.

(** Obtiene reglas de validacion para un paso especifico; [None] stands
  for the empty dictionary of a step without rules. *)
Definition get_validation_rules (step : string) : option ValidationRules :=
if (step =? value COLLECT_INCOME)%string then
  Some {| required_data := ["monthly_income"];
          data_type := "numeric";
          min_value := Some 500;
          max_value := Some 50000;
          valid_values := [];
          error_message :=
            "Por favor, proporciona un ingreso mensual válido entre $500 y $50,000." |}
else if (step =? value COLLECT_EMPLOYMENT)%string then
  Some {| required_data := ["employment_type"];
          data_type := "categorical";
          min_value := None;
          max_value := None;
          valid_values :=
            ["employee"; "business_owner"; "freelancer"; "retired"; "student"; "unemployed"];
          error_message := "Por favor, especifica tu situación laboral actual." |}
else if (step =? value COLLECT_AMOUNT)%string then
  Some {| required_data := ["requested_amount"];
          data_type := "numeric";
          min_value := Some 100;
          max_value := Some 100000;
          valid_values := [];
          error_message := "Por favor, indica el monto que te interesa." |}
else None.

Definition invalid (text : string) : Validation :=
{| valid := false; message := Some text; missing_fields := None |}.

(** [min_val and value < min_val]: a bound that is absent or zero
  checks nothing, and a NaN is below no bound. *)
Definition below (bound : option Z) (v : num) : bool :=
match bound with
| Some b => negb (b =? 0) && num_lt_Z v b
| None => false
end.

Definition above (bound : option Z) (v : num) : bool :=
match bound with
| Some b => negb (b =? 0) && num_gt_Z v b
| None => false
end.

(** The text of an optional bound in a message. *)
Definition bound_text (bound : option Z) : string :=
match bound with
| Some b => str_of_Z b
| None => "None"
end.

(** The loop over the fields of a numeric rule: the first field that
  fails gives the answer. *)
Fixpoint check_numeric (rules : ValidationRules) (fields : list string) (data : Dict)
  : option Validation :=
match fields with
| [] => None
| field :: rest =>
    match as_num (dict_get data field) with
    | None => Some (invalid ("El valor de " +:+ field +:+ " debe ser numérico."))
    | Some v =>
        if below (min_value rules) v then
          Some (invalid ("El valor mínimo para " +:+ field +:+ " es "
                         +:+ bound_text (min_value rules) +:+ "."))
        else if above (max_value rules) v then
          Some (invalid ("El valor máximo para " +:+ field +:+ " es "
                         +:+ bound_text (max_value rules) +:+ "."))
        else check_numeric rules rest data
    end
end.

(** [value in valid_values]: only a string equals a string. *)
Definition among (values : list string) (v : PyVal) : bool :=
match v with
| VStr s => existsb (String.eqb s) values
| _ => false
end.

Fixpoint check_categorical (rules : ValidationRules) (fields : list string) (data : Dict)
  : option Validation :=
match fields with
| [] => None
| field :: rest =>
    if negb (among (valid_values rules) (dict_get data field)) then
      Some (invalid ("Valor no válido para " +:+ field +:+ ". Valores permitidos: "
                     +:+ join ", " (valid_values rules)))
    else check_categorical rules rest data
end.

(** Valida los datos recolectados segun las reglas del paso. *)
Definition validate_collected_data (step : string) (collected_data : Dict) : Validation :=
match get_validation_rules step with
| None => {| valid := true; message := None; missing_fields := None |}
| Some rules =>
    (* Verificar que todos los datos requeridos esten presentes *)
    let missing_data :=
      List.filter (fun field => is_none (dict_get collected_data field)) (required_data rules) in
    match missing_data with
    | _ :: _ =>
        {| valid := false;
           message := Some (error_message rules);
           missing_fields := Some missing_data |}
    | [] =>
        (* Validaciones especificas por tipo de dato *)
        let failure :=
          if (data_type rules =? "numeric")%string
          then check_numeric rules (required_data rules) collected_data
          else if (data_type rules =? "categorical")%string
          then check_categorical rules (required_data rules) collected_data
          else None in
        match failure with
        | Some answer => answer
        | None => {| valid := true; message := Some "Datos válidos"; missing_fields := None |}
        end
    end
end.

End PromptBuilderRules.

(** ** ConversationRepository: reading the log *)

Module ConversationReads.

(** [execute_single] on a query: one statement sent, which may fail,
  and the row found. *)
Definition select_single {A} (read : World -> option A) : M (option A) :=
fun s =>
  let w := world s in
  if db_fails w (statements w)
  then (Raise DatabaseError, {| state := state s; world := statement_sent w |})
  else (Ok (read w), {| state := state s; world := statement_sent w |}).

(** Obtiene el paso actual de la conversacion. *)
Definition get_current_step (session_id : string) : M string :=
let* row := select_single (fun w => conversation_logs w !! session_id) in
ret (match row with
     | Some r => log_current_step r
     | None => "greeting"
     end).

End ConversationReads.

(** ** Notions for the properties below *)

(** The steps for which the transition table has no rule. *)
Definition without_rule (c : ConversationStep) : bool :=
  match c with
  | COLLECT_BUDGET | CLOSE_POSITIVE | CLOSE_NEGATIVE | COMPLETED | ERROR => true
  | _ => false
  end.

(** Every byte of [s] passes the test [p]. *)
Fixpoint all_chars (p : ascii -> bool) (s : string) : bool :=
  match s with
  | EmptyString => true
  | String c t => p c && all_chars p t
  end.

(** The ways to write the mobile number [+593 9 d] ([d] its last eight
    digits): local with and without the leading zero, and international
    with and without the plus sign. *)
Definition spellings (d : string) : list string :=
  ["09" +:+ d; "9" +:+ d; "5939" +:+ d; "+5939" +:+ d].

(** A float that is not a number. *)
Definition is_nan_value (v : PyVal) : bool :=
  match v with
  | VFloat f => match Prim2SF f with S754_nan => true | _ => false end
  | _ => false
  end.

(** The steps that have validation rules. *)
Definition validated_steps : list string :=
  ["collect_income"; "collect_employment"; "collect_amount"].

(** The employment types of the transition table. *)
Definition employment_types : list string :=
  ["employee"; "business_owner"; "freelancer"; "retired"; "student"; "unemployed"].

(** The limits of a product, those of the personal credit for a product
    that has none of its own. *)
Definition limits_of (product_type : string) : Z * Z :=
  default (1000, 50000) (CustomersApi.limits product_type).

(** A float that is a NaN or an infinity. *)
Definition not_finite (f : float) : Prop :=
  match Prim2SF f with
  | S754_nan | S754_infinity _ => True
  | _ => False
  end.

(** The fields the analysis of a message may collect. *)
Definition analysed_fields : list string :=
  ["monthly_income"; "employment_type"; "requested_amount"; "budget"].

(** What a stage leaves alone when it only analyses: the messages, the
    step and the identity of the session stay, a field collected before
    is still collected, the fields other than the analysed ones keep
    their value, and no lead is written. *)
Definition analysis_only (s s' : Store) : Prop :=
  messages (state s') = messages (state s)
  /\ current_step (state s') = current_step (state s)
  /\ session_id (state s') = session_id (state s)
  /\ (forall key, is_Some (collected_data (state s) !! key) ->
                  is_Some (collected_data (state s') !! key))
  /\ (forall key, ~ In key analysed_fields ->
                  collected_data (state s') !! key = collected_data (state s) !! key)
  /\ leads (world s') = leads (world s).

(** A computation all of whose runs only analyse. *)
Definition analyses {A} (m : M A) : Prop :=
  forall s, analysis_only s (snd (m s)).

(** The message [generate_response] appends on an error. *)
Definition apology : string := "Disculpa, hubo un error técnico. ¿Podemos continuar?".

(** A message of the assistant. *)
Definition from_assistant (m : Message) : Prop := role m = "assistant".

(** What a run of the generate stage does to the conversation. It adds
    messages of the assistant to the end of the list and leaves the
    collected data alone. When the database takes the statement that
    saves the answer, the stage returns and adds one message. When the
    database refuses it, either no answer could be built, and the
    apology alone is added, the step stays and the stage raises; or the
    answer has been added and the step written before the refusal, and
    the apology comes after the answer: the stage then returns if the
    database takes the apology, and raises if not. *)
Definition appends_answer (s : Store) (r : Result unit) (s' : Store) : Prop :=
  exists extra,
    messages (state s') = (messages (state s) ++ extra)%list
    /\ Forall from_assistant extra
    /\ collected_data (state s') = collected_data (state s)
    /\ (db_fails (world s) (statements (world s)) = false ->
        r = Ok tt /\ length extra = 1%nat)
    /\ (db_fails (world s) (statements (world s)) = true ->
        (length extra = 1%nat
         /\ r = Raise DatabaseError
         /\ current_step (state s') = current_step (state s))
        \/ (exists answer, extra = [answer; {| role := "assistant"; content := apology;
                                               timestamp := now (world s) |}]
            /\ current_step (state s') = written_step (state s)
            /\ (r = Ok tt <-> db_fails (world s) (S (statements (world s))) = false))).

(** A world whose database refuses the first statement and no other. *)
Definition first_statement_fails : World :=
  {| conversation_logs := ∅;
     conversation_messages := [];
     leads := [];
     statements := 0;
     db_fails := fun n => Nat.eqb n 0;
     backend_calls := 0;
     backend := fun _ => Ok "¡Listo!";
     now := 0 |}.

(** What an update of the log of a session keeps of the row it finds:
    the identifier, the session, the user, the campaign, the product,
    the telephone number and the start; and a completed log stays
    completed. *)
Definition same_session (old new : ConversationLogRow) : Prop :=
  log_id new = log_id old
  /\ log_session_id new = log_session_id old
  /\ log_user_id new = log_user_id old
  /\ log_campaign_id new = log_campaign_id old
  /\ log_product_type new = log_product_type old
  /\ log_phone_number new = log_phone_number old
  /\ log_started_at new = log_started_at old
  /\ (log_status old = "completed" -> log_status new = "completed").

(** The names of the replacement fields of a template. *)
Definition field_names (t : BasePromptTemplate) : list string :=
  flat_map (fun s => match s with Field name _ => [name] | Lit _ => [] end) (segments t).

(** The variable of the template of a step that the builder of the step
    does not supply. *)
Definition unsupplied_variable (step : ConversationStep) : option string :=
  match step with
  | COLLECT_AMOUNT => Some "employment_acknowledgment"
  | AWAITING_DECISION => Some "decision_prompt"
  | HANDLE_OBJECTION => Some "objection_topic"
  | REQUEST_CLARIFICATION => Some "clarification_examples"
  | _ => None
  end.

(** The two fixed sentences of the offer builder. *)
Definition generic_offer : string :=
  "Te tengo una excelente opción que será perfecta para ti.".

Definition income_needed : string :=
  "Necesito conocer tus ingresos para darte la mejor recomendación.".

(** The products that have a configuration. *)
Definition configured (product : ProductType) : bool :=
  match ProductPromptBuilder.PRODUCT_CONFIGS product with
  | Some _ => true
  | None => false
  end.

(** [lo <= v <= hi] on floats. *)
Definition float_between (lo hi v : float) : Prop :=
  (lo <=? v)%float = true /\ (v <=? hi)%float = true.

(** A state whose product, segment or step is no member of its
    enumeration. *)
Definition outside_enumerations (st : ConversationState) : Prop :=
  (forall p : ProductType, product_type st <> value p)
  \/ (forall c : CustomerSegment, state_customer_segment st <> value c)
  \/ (forall c : ConversationStep, current_step st <> value c).

(** The steps that no transition leads to. *)
Definition never_entered : list string := ["greeting"; "collect_budget"; "completed"].

(** The lead of Ana's closed conversation. *)
Definition ana_lead : LeadRow :=
  {| lead_row_id := 1;
     lead_user_id := "user_001";
     lead_campaign_id := "7";
     lead_session_id := "session_593997814126";
     lead_first_name := VStr "Ana";
     lead_last_name := VStr "";
     lead_email := VStr "";
     lead_phone := "+593997814126";
     lead_product_type := "credit_card";
     lead_monthly_income := VFloat 2500;
     lead_employment_type := VStr "employee";
     lead_requested_amount := VFloat 5000;
     lead_channel := "whatsapp";
     lead_propensity_score := 0.75;
     lead_status := "qualified";
     lead_priority := "high" |}.


(** * Properties *)

Import ConversationFlowManager.

(** ** Enumerations *)

Lemma step_of_value (c : ConversationStep) : of_value (value c) = Ok c.
Proof. destruct c; reflexivity. Qed.

Lemma intent_of_value (i : IntentType) : of_value (value i) = Ok i.
Proof. destruct i; reflexivity. Qed.

(** ** Numbers *)

(** Closes one case of a comparison against a fraction [p / q]. *)
Ltac close_between p q :=
  simpl;
  split;
  [ let Hb := fresh "Hb" in
    intros Hb; first [discriminate Hb | exists p, q; split; [reflexivity | lia]]
  | let Hb := fresh "Hb" in
    intros (? & ? & [= <- <-] & Hb); try reflexivity; lia ].

Lemma num_between_fraction (n : num) (lo hi : Z) :
  num_ge_Z n lo && num_le_Z n hi = true <->
  exists p q, num_fraction n = Some (p, q) /\ lo * q <= p <= hi * q.
Proof.
  unfold num_ge_Z, num_le_Z, num_cmp_Z, num_fraction, float_cmp_Z.
  destruct n as [z | f].
  - destruct (Z.compare_spec z lo), (Z.compare_spec z hi); close_between z 1.
  - destruct (Prim2SF f) as [s | s | | s m e].
    + destruct (Z.compare_spec 0 lo), (Z.compare_spec 0 hi); close_between 0 1.
    + destruct s; simpl; (split; [discriminate | intros (p & q & [=] & _)]).
    + simpl. split; [discriminate | intros (p & q & [=] & _)].
    + set (v := if s then Z.neg m else Z.pos m).
      destruct (Z.leb_spec 0 e).
      * destruct (Z.compare_spec (v * 2 ^ e) lo), (Z.compare_spec (v * 2 ^ e) hi);
          close_between (v * 2 ^ e) 1.
      * destruct (Z.compare_spec v (lo * 2 ^ (- e))), (Z.compare_spec v (hi * 2 ^ (- e)));
          close_between v (2 ^ (- e)).
Qed.

Lemma has_valid_income_between (data : Dict) :
  _has_valid_income data = true <-> number_between 500 50000 (dict_get data "monthly_income").
Proof.
  unfold _has_valid_income, number_between.
  destruct (as_num (dict_get data "monthly_income")) as [n |].
  - rewrite num_between_fraction. split.
    + intros (p & q & H). exists n, p, q. tauto.
    + intros (n' & p & q & [= <-] & H). exists p, q. exact H.
  - split; [discriminate | intros (n' & p & q & [=] & _)].
Qed.

(** ** The transition function *)

(** C3. Whatever the current step and the collected data, a negative
    intent leads to [close_negative]: the rule comes before the rules of
    the steps, so it also holds where a step has rules of its own
    ([present_offer], [handle_objection]) and at the steps that have
    none. *)
Theorem negative_intent_closes (current : ConversationStep) (data : Dict) :
  get_next_step (value current) "negative" data = "close_negative".
Proof.
  unfold get_next_step.
  rewrite step_of_value.
  change "negative" with (value NEGATIVE).
  rewrite intent_of_value.
  reflexivity.
Qed.

Lemma collect_income_next (i : IntentType) (data : Dict) :
  i <> NEGATIVE ->
  get_next_step "collect_income" (value i) data =
  if _has_valid_income data then "collect_employment" else "collect_income".
Proof.
  intros Hi. unfold get_next_step.
  change "collect_income" with (value COLLECT_INCOME) at 1.
  rewrite step_of_value, intent_of_value.
  cbn [rbind]. destruct (decide (i = NEGATIVE)) as [-> |]; [contradiction |].
  destruct (_has_valid_income data); reflexivity.
Qed.

(** C4. At [collect_income], under every intent but the negative one,
    the next step is [collect_employment] exactly when the collected
    [monthly_income] is a number with [500 <= x <= 50000]; in every other
    case (no income, an income that is no number, an income out of the
    range) the step stays [collect_income]. *)
Theorem collect_income_advances_iff_valid (i : IntentType) (data : Dict) :
  i <> NEGATIVE ->
  (number_between 500 50000 (dict_get data "monthly_income") ->
   get_next_step "collect_income" (value i) data = "collect_employment") /\
  (~ number_between 500 50000 (dict_get data "monthly_income") ->
   get_next_step "collect_income" (value i) data = "collect_income").
Proof.
  intros Hi. rewrite (collect_income_next i data Hi).
  rewrite <- has_valid_income_between.
  destruct (_has_valid_income data); split; intros H; try reflexivity.
  - exfalso. apply H. reflexivity.
  - discriminate H.
Qed.

Lemma collect_income_advances_iff_valid_witness :
  get_next_step "collect_income" "positive" {["monthly_income" := VFloat 2500]} = "collect_employment"
  /\ get_next_step "collect_income" "unclear" {["monthly_income" := VInt 300]} = "collect_income".
Proof.
  split.
  - apply (collect_income_advances_iff_valid POSITIVE {["monthly_income" := VFloat 2500]}).
    + discriminate.
    + eexists _, _, _. split; [reflexivity |]. split; [vm_compute; reflexivity |]. lia.
  - apply (collect_income_advances_iff_valid UNCLEAR {["monthly_income" := VInt 300]}).
    + discriminate.
    + intros (n & p & q & Hn & Hf & H). vm_compute in Hn. injection Hn as <-.
      injection Hf as <- <-. lia.
Defined.

(** ** Conversation progress *)

(** C2, as the code has it. For a current step of the enumeration,
    [data_completeness] is the truncated percentage of the three
    required fields whose value is not [None], valid or not: 100 for
    three, 66 for two, 33 for one and 0 for none; so it is 100 exactly
    when the three are present. *)
Theorem data_completeness_counts_present (current : ConversationStep) (data : Dict) :
  data_completeness (get_conversation_progress (value current) data) =
    match present_fields data with
    | 3%nat => 100
    | 2%nat => 66
    | 1%nat => 33
    | _ => 0
    end
  /\ (data_completeness (get_conversation_progress (value current) data) = 100 <->
      present_fields data = 3%nat).
Proof.
  unfold get_conversation_progress, present_fields, present, required_fields.
  rewrite step_of_value. cbn [rbind List.filter].
  destruct (is_none (dict_get data "monthly_income")),
           (is_none (dict_get data "employment_type")),
           (is_none (dict_get data "requested_amount"));
    destruct current; vm_compute; (split; [reflexivity | split; congruence]).
Qed.

Lemma data_completeness_counts_present_witness :
  data_completeness (get_conversation_progress "present_offer" complete_data) = 100.
Proof.
  apply (proj2 (data_completeness_counts_present PRESENT_OFFER complete_data)).
  reflexivity.
Defined.

(** C2 as stated fails on the code: two valid fields give 66, not 67,
    and three present fields give 100 although none of them is valid. *)
Lemma data_completeness_counterexample :
  data_completeness
    (get_conversation_progress "collect_amount"
       (<["employment_type" := VStr "employee"]> {["monthly_income" := VFloat 2500]})) = 66
  /\ (let data : Dict :=
        <["requested_amount" := VInt (-5)]>
          (<["employment_type" := VStr "astronaut"]> {["monthly_income" := VInt 100]}) in
      data_completeness (get_conversation_progress "present_offer" data) = 100
      /\ _has_valid_income data = false
      /\ _has_valid_employment data = false
      /\ _has_valid_amount data = false).
Proof. vm_compute. repeat split. Qed.

(** An unknown step name gives 0 whatever was collected. *)
Example data_completeness_unknown_step :
  data_completeness
    (get_conversation_progress "offer"
       (<["requested_amount" := VInt 900]>
          (<["employment_type" := VStr "employee"]> {["monthly_income" := VInt 1000]}))) = 0.
Proof. reflexivity. Qed.

(** ** Substrings *)

Lemma starts_with_app (w s : string) : starts_with w s = true <-> exists r, s = w +:+ r.
Proof.
  revert s. induction w as [| c w IH]; intros s; simpl.
  - split; [intros _; exists s; reflexivity | reflexivity].
  - destruct s as [| d s].
    + split; [discriminate | intros (r & [=])].
    + rewrite andb_true_iff, IH. split.
      * intros (Hc & r & ->). apply Ascii.eqb_eq in Hc. subst d. exists r. reflexivity.
      * intros (r & [= -> ->]). split; [apply Ascii.eqb_refl | exists r; reflexivity].
Qed.

Lemma str_in_contains (needle hay : string) : str_in needle hay = true <-> contains needle hay.
Proof.
  unfold contains. induction hay as [| c hay IH]; simpl.
  - rewrite orb_false_r, starts_with_app. split.
    + intros (r & H). exists "", r. exact H.
    + intros ([| b before] & after & H); [exists after; exact H | discriminate H].
  - rewrite orb_true_iff, starts_with_app, IH. split.
    + intros [(r & H) | (before & after & H)].
      * exists "", r. exact H.
      * exists (String c before), after. simpl. rewrite H. reflexivity.
    + intros ([| b before] & after & H).
      * left. exists after. exact H.
      * right. simpl in H. injection H as _ H. exists before, after. exact H.
Qed.

(** ** Numerals *)

Section Numerals.
Import DataExtractor.





Lemma append_cons (c : ascii) (p r : string) : String c p +:+ r = String c (p +:+ r).
Proof. reflexivity. Qed.

Lemma append_nil (r : string) : "" +:+ r = r.
Proof. reflexivity. Qed.





Lemma drop_app (p r : string) : drop (String.length p) (p +:+ r) = r.
Proof.
  induction p as [| c p IH]; [reflexivity |].
  rewrite append_cons. cbn [String.length drop]. exact IH.
Qed.

Lemma append_empty (p : string) : p +:+ "" = p.
Proof.
  induction p as [| c p IH]; [reflexivity |]. rewrite append_cons, IH. reflexivity.
Qed.









End Numerals.

(** ** Stripping runs to the end *)

Lemma starts_with_length (w s : string) :
  starts_with w s = true -> (String.length w <= String.length s)%nat.
Proof.
  revert s. induction w as [| c w IH]; intros [| d s]; cbn [starts_with String.length]; try lia.
  intros H. apply andb_true_iff in H as [_ H]. apply IH in H. lia.
Qed.

Lemma drop_length (n : nat) (s : string) :
  String.length (drop n s) = (String.length s - n)%nat.
Proof.
  revert s. induction n as [| n IH]; intros [| c s]; cbn [drop String.length]; try lia.
  apply IH.
Qed.

(** The fuel of [strip_prefixes] is never the reason it stops: with the
    length of the string as fuel, what is returned starts with none of
    the prefixes. *)
Lemma strip_prefixes_complete (ws : list string) :
  Forall (fun w => w <> "") ws ->
  forall (fuel : nat) (s : string), (String.length s <= fuel)%nat ->
  List.find (fun w => starts_with w (strip_prefixes ws fuel s)) ws = None.
Proof.
  intros Hws. pose proof (proj1 (List.Forall_forall _ _) Hws) as Hne. clear Hws.
  induction fuel as [| fuel IH]; intros s Hs; cbn [strip_prefixes].
  - destruct s; [| cbn [String.length] in Hs; lia].
    destruct (List.find (fun w => starts_with w "") ws) as [w |] eqn:E; [| reflexivity].
    apply find_some in E as [Hw E]. specialize (Hne w Hw).
    destruct w; [congruence | discriminate].
  - destruct (List.find (fun w => starts_with w s) ws) as [w |] eqn:E; [| exact E].
    apply find_some in E as [Hw E]. apply IH. rewrite drop_length.
    specialize (Hne w Hw). apply starts_with_length in E. destruct w; [congruence |].
    cbn [String.length] in *. lia.
Qed.

Lemma lstrip_complete (s : string) :
  List.find (fun w => starts_with w (lstrip s)) whitespace = None.
Proof.
  apply strip_prefixes_complete; [| reflexivity].
  repeat constructor; discriminate.
Qed.

Lemma length_string_of_list (l : list ascii) :
  String.length (string_of_list_ascii l) = List.length l.
Proof. induction l as [| c l IH]; cbn; congruence. Qed.

Lemma length_list_of_string (s : string) :
  List.length (list_ascii_of_string s) = String.length s.
Proof. induction s as [| c s IH]; cbn; congruence. Qed.

Lemma rev_string_length (s : string) : String.length (rev_string s) = String.length s.
Proof.
  unfold rev_string.
  rewrite length_string_of_list, List.length_rev, length_list_of_string. reflexivity.
Qed.

Lemma rstrip_complete (s : string) :
  exists t, rstrip s = rev_string t
            /\ List.find (fun w => starts_with w t) (map rev_string whitespace) = None.
Proof.
  eexists. split; [reflexivity |].
  apply strip_prefixes_complete; [| rewrite rev_string_length; reflexivity].
  repeat constructor; discriminate.
Qed.


(** ** Digits survive the normalization *)

Lemma has_digit_app (a b : string) : has_digit (a +:+ b) = has_digit a || has_digit b.
Proof.
  induction a as [| c a IH]; [reflexivity |].
  rewrite append_cons. cbn [has_digit]. rewrite IH, orb_assoc. reflexivity.
Qed.

Lemma upper_is_no_digit (c : ascii) :
  ((65 <=? code c) && (code c <=? 90))%N = true ->
  is_digit c = false /\ is_digit (ascii_of_N (code c + 32)) = false.
Proof.
  destruct c as [[] [] [] [] [] [] [] []]; vm_compute; intros H;
    first [discriminate H | split; reflexivity].
Qed.

Lemma latin1_upper_is_no_digit (d : ascii) :
  ((128 <=? code d) && (code d <=? 158) && negb (code d =? 151))%N = true ->
  is_digit d = false /\ is_digit (ascii_of_N (code d + 32)) = false.
Proof.
  destruct d as [[] [] [] [] [] [] [] []]; vm_compute; intros H;
    first [discriminate H | split; reflexivity].
Qed.

Lemma lead_byte_is_no_digit (c : ascii) : (code c =? 195)%N = true -> is_digit c = false.
Proof.
  destruct c as [[] [] [] [] [] [] [] []]; vm_compute; intros H;
    first [discriminate H | reflexivity].
Qed.

Lemma has_digit_lower_step (s : string) :
  has_digit (lower s) = has_digit s
  /\ forall c, has_digit (lower (String c s)) = has_digit (String c s).
Proof.
  induction s as [| d s [IHs IHd]].
  - split; [reflexivity |]. intros c. cbn [lower].
    destruct ((65 <=? code c) && (code c <=? 90))%N eqn:Eu.
    + destruct (upper_is_no_digit c Eu) as [H1 H2]. cbn [has_digit]. rewrite H1, H2. reflexivity.
    + destruct (code c =? 195)%N; reflexivity.
  - split; [apply IHd |]. intros c.
    change (lower (String c (String d s))) with
      (if ((65 <=? code c) && (code c <=? 90))%N
       then String (ascii_of_N (code c + 32)) (lower (String d s))
       else if (code c =? 195)%N
            then if ((128 <=? code d) && (code d <=? 158) && negb (code d =? 151))%N
                 then String c (String (ascii_of_N (code d + 32)) (lower s))
                 else String c (lower (String d s))
            else String c (lower (String d s))).
    destruct ((65 <=? code c) && (code c <=? 90))%N eqn:Eu.
    + destruct (upper_is_no_digit c Eu) as [H1 H2].
      cbn [has_digit] in *. rewrite H1, H2, (IHd d). reflexivity.
    + destruct (code c =? 195)%N eqn:El.
      * destruct ((128 <=? code d) && (code d <=? 158) && negb (code d =? 151))%N eqn:Ed.
        -- destruct (latin1_upper_is_no_digit d Ed) as [H1 H2].
           cbn [has_digit]. rewrite H1, H2, IHs. reflexivity.
        -- cbn [has_digit] in *. rewrite (IHd d). reflexivity.
      * cbn [has_digit] in *. rewrite (IHd d). reflexivity.
Qed.

Lemma has_digit_chars (s : string) : has_digit s = existsb is_digit (list_ascii_of_string s).
Proof. induction s as [| c s IH]; [reflexivity |]. cbn. rewrite IH. reflexivity. Qed.

Lemma has_digit_of_chars (l : list ascii) :
  has_digit (string_of_list_ascii l) = existsb is_digit l.
Proof. induction l as [| c l IH]; [reflexivity |]. cbn. rewrite IH. reflexivity. Qed.

Lemma existsb_reverse {A} (f : A -> bool) (l : list A) : existsb f (rev l) = existsb f l.
Proof.
  induction l as [| x l IH]; [reflexivity |].
  cbn [rev existsb]. rewrite existsb_app, IH. cbn [existsb].
  rewrite orb_false_r. apply orb_comm.
Qed.

Lemma has_digit_rev_string (s : string) : has_digit (rev_string s) = has_digit s.
Proof.
  unfold rev_string. rewrite has_digit_of_chars, existsb_reverse, has_digit_chars. reflexivity.
Qed.

Lemma has_digit_strip_prefixes (ws : list string) (fuel : nat) (s : string) :
  forallb (fun w => negb (has_digit w)) ws = true ->
  has_digit (strip_prefixes ws fuel s) = has_digit s.
Proof.
  intros Hws. revert s. induction fuel as [| fuel IH]; intros s; [reflexivity |].
  cbn [strip_prefixes].
  destruct (find (fun w => starts_with w s) ws) as [w |] eqn:E; [| reflexivity].
  apply find_some in E. destruct E as [Hin Hw].
  apply starts_with_app in Hw. destruct Hw as (r & ->).
  rewrite drop_app, IH, has_digit_app.
  rewrite forallb_forall in Hws. specialize (Hws w Hin).
  apply negb_true_iff in Hws. rewrite Hws. reflexivity.
Qed.

Lemma has_digit_normalized (message : string) :
  has_digit (strip (lower message)) = has_digit message.
Proof.
  unfold strip, rstrip, lstrip.
  rewrite has_digit_rev_string, has_digit_strip_prefixes by reflexivity.
  rewrite has_digit_rev_string, has_digit_strip_prefixes by reflexivity.
  apply has_digit_lower_step.
Qed.

(** ** The intent classifier *)

(** C8. The classifier applies the rules in their order of priority and
    the first that matches wins: positive lexicon, negative lexicon,
    information request, objection, a digit at a numeric collection step
    ([NEUTRAL]), employment lexicon ([NEUTRAL]), else [UNCLEAR]. The
    lexicons are tested on the case-normalized utterance; the digit is
    looked for in the utterance as it came, which has a digit exactly
    when its normalized form has one. In particular an utterance whose
    normalized form contains a word of the positive lexicon is
    [POSITIVE], whatever else it contains. *)
Theorem analyze_first_match_in_priority_order (message : string) (context : PromptContext) :
  IntentAnalyzer.analyze message context = classify message (ctx_current_step context)
  /\ has_digit (strip (lower message)) = has_digit message
  /\ (forall word,
        In word IntentAnalyzer.POSITIVE_KEYWORDS ->
        contains word (strip (lower message)) ->
        IntentAnalyzer.analyze message context = POSITIVE).
Proof.
  split; [| split; [apply has_digit_normalized |]].
  - unfold IntentAnalyzer.analyze, classify, first_match, intent_rules.
    cbn [find fst snd].
    assert (Hstep : bool_decide (ctx_current_step context ∈ [COLLECT_INCOME; COLLECT_AMOUNT])
                    = numeric_collection_step (ctx_current_step context))
      by (destruct (ctx_current_step context); reflexivity).
    rewrite Hstep.
    repeat match goal with |- context [if ?b then _ else _] => destruct b end; reflexivity.
  - intros word Hin Hc. unfold IntentAnalyzer.analyze.
    assert (H : any_in IntentAnalyzer.POSITIVE_KEYWORDS (strip (lower message)) = true).
    { unfold any_in. apply existsb_exists. exists word. split; [exact Hin |].
      apply str_in_contains. exact Hc. }
    rewrite H. reflexivity.
Qed.

Lemma analyze_first_match_in_priority_order_witness :
  IntentAnalyzer.analyze "  Si, pero no gracias"
    {| ctx_user_name := "Ana"; ctx_product_type := CREDIT_CARD;
       ctx_customer_segment := STANDARD; ctx_current_step := PRESENT_OFFER;
       ctx_collected_data := ∅ |} = POSITIVE.
Proof.
  apply (proj2 (proj2 (analyze_first_match_in_priority_order "  Si, pero no gracias" _)) "si").
  - right. left. reflexivity.
  - exists "", ", pero no gracias". vm_compute. reflexivity.
Defined.

(** ** The numeric extractors *)


(** ** The offer calculator *)

Lemma num_ge_Z_int (z k : Z) : num_ge_Z (NInt z) k = (k <=? z).
Proof.
  unfold num_ge_Z, num_cmp_Z.
  destruct (Z.compare_spec z k), (Z.leb_spec k z); try reflexivity; lia.
Qed.

Lemma num_min_Z_int (z k : Z) : num_min_Z (NInt z) k = NInt (Z.min z k).
Proof.
  unfold num_min_Z, num_gt_Z, num_cmp_Z.
  destruct (Z.compare_spec z k); f_equal; lia.
Qed.

(** The number of binary digits of a mantissa. *)
Lemma digits2_pos_bounds (m : positive) :
  2 ^ (Z.pos (digits2_pos m) - 1) <= Z.pos m < 2 ^ Z.pos (digits2_pos m).
Proof.
  induction m as [p IH | p IH |]; cbn [digits2_pos].
  - rewrite Pos2Z.inj_succ. replace (Z.succ (Z.pos (digits2_pos p)) - 1) with
      (Z.succ (Z.pos (digits2_pos p) - 1)) by lia.
    rewrite !Z.pow_succ_r by lia. lia.
  - rewrite Pos2Z.inj_succ. replace (Z.succ (Z.pos (digits2_pos p)) - 1) with
      (Z.succ (Z.pos (digits2_pos p) - 1)) by lia.
    rewrite !Z.pow_succ_r by lia. lia.
  - cbn. lia.
Qed.

(** The mantissa and the exponent of a binary64 in canonical form. *)
Lemma canonical_float (f : float) (s : bool) (m : positive) (e : Z) :
  Prim2SF f = S754_finite s m e ->
  Z.pos m < 2 ^ 53 /\ -1074 <= e /\ (e = -1074 \/ 2 ^ 52 <= Z.pos m).
Proof.
  intros Hf. pose proof (Prim2SF_valid f) as Hv. rewrite Hf in Hv.
  cbn [valid_binary] in Hv. unfold bounded, canonical_mantissa, fexp, emin in Hv.
  apply andb_true_iff in Hv. destruct Hv as [Hc _]. apply Z.eqb_eq in Hc.
  change prec with 53 in Hc. change emax with 1024 in Hc.
  pose proof (digits2_pos_bounds m) as [Hlo Hhi].
  assert (Hd : Z.pos (digits2_pos m) <= 53) by lia.
  split; [| split].
  - eapply Z.lt_le_trans; [exact Hhi |]. apply Z.pow_le_mono_r; lia.
  - lia.
  - destruct (Z.eq_dec e (-1074)) as [-> | Hne]; [left; reflexivity | right].
    assert (Z.pos (digits2_pos m) = 53) as Hd53 by lia.
    rewrite Hd53 in Hlo. exact Hlo.
Qed.

(** Against an integer that is a binary64 itself, the exact comparison of
    a float with an integer is the comparison of two floats. *)
Lemma float_cmp_Z_exact (f c : float) (z : Z) (m0 : positive) (e0 : Z) :
  Prim2SF c = S754_finite false m0 e0 ->
  e0 < 0 ->
  Z.pos m0 = z * 2 ^ (- e0) ->
  SFcompare (Prim2SF c) (Prim2SF f) = option_map CompOpp (float_cmp_Z f z).
Proof.
  intros Hc He0 Hz. unfold float_cmp_Z.
  destruct (canonical_float c false m0 e0 Hc) as (Hm0 & Hmin0 & Hnorm0).
  assert (Hpow0 : 0 < 2 ^ (- e0)) by (apply Z.pow_pos_nonneg; lia).
  assert (Hzpos : 0 < z) by nia.
  rewrite Hc.
  destruct (Prim2SF f) as [s | s | | s m e] eqn:Hf; cbn [SFcompare option_map].
  - f_equal. destruct (Z.compare_spec 0 z); try lia. reflexivity.
  - destruct s; reflexivity.
  - reflexivity.
  - destruct (canonical_float f s m e Hf) as (Hm & Hmin & Hnorm).
    f_equal. destruct s.
    + destruct (0 <=? e) eqn:Ee.
      * apply Z.leb_le in Ee. assert (0 < 2 ^ e) by (apply Z.pow_pos_nonneg; lia).
        destruct (Z.compare_spec (Z.neg m * 2 ^ e) z); try nia. reflexivity.
      * apply Z.leb_gt in Ee. assert (0 < 2 ^ (- e)) by (apply Z.pow_pos_nonneg; lia).
        destruct (Z.compare_spec (Z.neg m) (z * 2 ^ (- e))); try nia. reflexivity.
    + destruct (Z.compare_spec e0 e) as [<- | Hlt | Hgt].
      * replace (0 <=? e0) with false by (symmetry; apply Z.leb_gt; lia).
        rewrite <- Hz. rewrite Pos.compare_cont_spec. cbn [Pos.switch_Eq].
        change (Z.pos m ?= Z.pos m0) with (m ?= m0)%positive.
        rewrite (Pos.compare_antisym m0 m). destruct (m0 ?= m)%positive; reflexivity.
      * assert (Hbig : 2 ^ 52 <= Z.pos m) by lia.
        assert (Hz52 : z * 2 <= Z.pos m0).
        { rewrite Hz. replace (- e0) with (Z.succ (- e0 - 1)) by lia.
          rewrite Z.pow_succ_r by lia.
          assert (0 < 2 ^ (- e0 - 1)) by (apply Z.pow_pos_nonneg; lia). nia. }
        destruct (0 <=? e) eqn:Ee.
        -- apply Z.leb_le in Ee. assert (0 < 2 ^ e) by (apply Z.pow_pos_nonneg; lia).
           destruct (Z.compare_spec (Z.pos m * 2 ^ e) z); try nia. reflexivity.
        -- apply Z.leb_gt in Ee.
           assert (Hsplit : z * 2 ^ (- e0) = z * 2 ^ (- e) * 2 ^ (e - e0)).
           { rewrite <- Z.mul_assoc, <- Z.pow_add_r by lia. f_equal. f_equal. lia. }
           assert (Hk : 2 <= 2 ^ (e - e0)).
           { change 2 with (2 ^ 1) at 1. apply Z.pow_le_mono_r; lia. }
           assert (0 < 2 ^ (- e)) by (apply Z.pow_pos_nonneg; lia).
           destruct (Z.compare_spec (Z.pos m) (z * 2 ^ (- e))); try nia. reflexivity.
      * replace (0 <=? e) with false by (symmetry; apply Z.leb_gt; lia).
        assert (Hbig : 2 ^ 52 <= Z.pos m0) by lia.
        assert (Hsplit : z * 2 ^ (- e) = Z.pos m0 * 2 ^ (e0 - e)).
        { rewrite Hz, <- Z.mul_assoc, <- Z.pow_add_r by lia. f_equal. f_equal. lia. }
        assert (Hk : 2 <= 2 ^ (e0 - e)).
        { change 2 with (2 ^ 1) at 1. apply Z.pow_le_mono_r; lia. }
        rewrite Hsplit.
        change (2 ^ 53) with (2 * 2 ^ 52) in Hm.
        destruct (Z.compare_spec (Z.pos m) (Z.pos m0 * 2 ^ (e0 - e))); try nia. reflexivity.
Qed.

Lemma num_ge_Z_float (f c : float) (z : Z) (m0 : positive) (e0 : Z) :
  Prim2SF c = S754_finite false m0 e0 ->
  e0 < 0 ->
  Z.pos m0 = z * 2 ^ (- e0) ->
  num_ge_Z (NFloat f) z = (c <=? f)%float.
Proof.
  intros Hc He0 Hz. rewrite leb_spec. unfold SFleb.
  rewrite (float_cmp_Z_exact f c z m0 e0 Hc He0 Hz).
  unfold num_ge_Z, num_cmp_Z. destruct (float_cmp_Z f z) as [[| |] |]; reflexivity.
Qed.

Lemma num_gt_Z_float (f c : float) (z : Z) (m0 : positive) (e0 : Z) :
  Prim2SF c = S754_finite false m0 e0 ->
  e0 < 0 ->
  Z.pos m0 = z * 2 ^ (- e0) ->
  num_gt_Z (NFloat f) z = (c <? f)%float.
Proof.
  intros Hc He0 Hz. rewrite ltb_spec. unfold SFltb.
  rewrite (float_cmp_Z_exact f c z m0 e0 Hc He0 Hz).
  unfold num_gt_Z, num_cmp_Z. destruct (float_cmp_Z f z) as [[| |] |]; reflexivity.
Qed.

(** The limit and the card for an income that is a float. *)
Lemma credit_card_limit_float (f : float) :
  recommended_value CREDIT_CARD (VFloat f) =
    Ok (if (15000 <? f * 5)%float then NInt 15000 else NFloat (f * 5)).
Proof.
  unfold recommended_value. cbn [ProductPromptBuilder.PRODUCT_CONFIGS
    ProductPromptBuilder.calculation ProductPromptBuilder.on_number as_num num_mul_Z].
  unfold num_min_Z.
  rewrite (num_gt_Z_float _ 15000%float 15000 8246337208320000 (-39))
    by (reflexivity || lia).
  destruct (15000 <? _)%float; reflexivity.
Qed.

Lemma card_type_float (f : float) :
  ProductPromptBuilder._get_card_type (VFloat f) =
    Ok (if (5000 <=? f)%float then "Tarjeta Platinum"
        else if (2500 <=? f)%float then "Tarjeta Gold" else "Tarjeta Classic").
Proof.
  unfold ProductPromptBuilder._get_card_type. cbn [as_num].
  rewrite (num_ge_Z_float f 5000%float 5000 5497558138880000 (-40))
    by (reflexivity || lia).
  rewrite (num_ge_Z_float f 2500%float 2500 5497558138880000 (-41))
    by (reflexivity || lia).
  destruct (5000 <=? f)%float, (2500 <=? f)%float; reflexivity.
Qed.

(** C7. The offer is a function of the product and the income. For a
    credit card the limit is [min(income * 5, 15000)] and the card is
    Platinum from 5000, Gold from 2500 and Classic below, for an income
    that is an integer and for one that is a float (a NaN gets the
    Classic card and stays the limit), and the offer names that card and
    that limit; for savings the monthly deposit is [income * 0.15] and
    the annual yield [deposit * 12 * 0.065], and the offer names both.
    An income of 6000 gives the limit 15000 and the Platinum card; an
    income of 1000 gives the deposit 150.0 and the yield 117.0. *)
Theorem offer_calculator (z : Z) (f d : float) (limit deposit yield : Z) :
  recommended_value CREDIT_CARD (VInt z) = Ok (NInt (Z.min (z * 5) 15000))
  /\ recommended_value CREDIT_CARD (VFloat f) =
       Ok (if (15000 <? f * 5)%float then NInt 15000 else NFloat (f * 5))
  /\ ProductPromptBuilder._get_card_type (VInt z) =
       Ok (if 5000 <=? z then "Tarjeta Platinum"
           else if 2500 <=? z then "Tarjeta Gold" else "Tarjeta Classic")
  /\ ProductPromptBuilder._get_card_type (VFloat f) =
       Ok (if (5000 <=? f)%float then "Tarjeta Platinum"
           else if (2500 <=? f)%float then "Tarjeta Gold" else "Tarjeta Classic")
  /\ ((f =? 0)%float = false ->
      (if (15000 <? f * 5)%float then Ok 15000 else py_int (f * 5)) = Ok limit ->
      ProductPromptBuilder.build_offer (offer_context CREDIT_CARD (VFloat f)) =
        Ok ("Con tus ingresos de $" +:+ format_comma_float f +:+ ", te recomiendo nuestra "
            +:+ (if (5000 <=? f)%float then "Tarjeta Platinum"
                 else if (2500 <=? f)%float then "Tarjeta Gold" else "Tarjeta Classic")
            +:+ " con límite de hasta $" +:+ format_comma_Z limit
            +:+ ", que incluye Sin anualidad el primer año, Cashback en compras diarias y Meses sin intereses en tiendas afiliadas."))
  /\ recommended_value SAVINGS (VFloat f) = Ok (NFloat (f * 0.15))
  /\ ProductPromptBuilder.annual_earnings (NFloat d) = Ok (d * 12 * 0.065)%float
  /\ ((f =? 0)%float = false ->
      py_int (f * 0.15) = Ok deposit ->
      py_int (f * 0.15 * 12 * 0.065) = Ok yield ->
      ProductPromptBuilder.build_offer (offer_context SAVINGS (VFloat f)) =
        Ok ("Tu cuenta de ahorros con $" +:+ format_comma_Z deposit
            +:+ " mensuales generaría aproximadamente $" +:+ format_comma_Z yield
            +:+ " al año, e incluye Rendimientos hasta 6.5% anual, Sin monto mínimo de apertura y Retiros ilimitados."))
  /\ recommended_value CREDIT_CARD (VFloat 6000) = Ok (NInt 15000)
  /\ ProductPromptBuilder._get_card_type (VFloat 6000) = Ok "Tarjeta Platinum"
  /\ ProductPromptBuilder.build_offer (offer_context CREDIT_CARD (VFloat 6000)) =
       Ok "Con tus ingresos de $6,000.0, te recomiendo nuestra Tarjeta Platinum con límite de hasta $15,000, que incluye Sin anualidad el primer año, Cashback en compras diarias y Meses sin intereses en tiendas afiliadas."
  /\ recommended_value SAVINGS (VFloat 1000) = Ok (NFloat 150)
  /\ ProductPromptBuilder.annual_earnings (NFloat 150) = Ok 117%float
  /\ ProductPromptBuilder.build_offer (offer_context SAVINGS (VFloat 1000)) =
       Ok "Tu cuenta de ahorros con $150 mensuales generaría aproximadamente $117 al año, e incluye Rendimientos hasta 6.5% anual, Sin monto mínimo de apertura y Retiros ilimitados.".
Proof.
  split; [| split; [| split; [| split; [| split; [| split; [| split; [| split]]]]]]].
  - unfold recommended_value. cbn [ProductPromptBuilder.PRODUCT_CONFIGS
      ProductPromptBuilder.calculation ProductPromptBuilder.on_number as_num num_mul_Z].
    rewrite num_min_Z_int. reflexivity.
  - apply credit_card_limit_float.
  - unfold ProductPromptBuilder._get_card_type. cbn [as_num].
    rewrite !num_ge_Z_int. destruct (5000 <=? z), (2500 <=? z); reflexivity.
  - apply card_type_float.
  - intros Hf Hlimit.
    pose proof (credit_card_limit_float f) as Hvalue. unfold recommended_value in Hvalue.
    unfold ProductPromptBuilder.build_offer, offer_context.
    cbn [ctx_product_type ctx_collected_data ProductPromptBuilder.PRODUCT_CONFIGS] in *.
    unfold dict_get_default. rewrite lookup_singleton.
    destruct (decide _); [| congruence].
    cbn [truthy]. rewrite Hf. cbn [negb]. rewrite Hvalue. cbn [rbind].
    rewrite card_type_float.
    change (ProductPromptBuilder.benefits_text _) with
      (Ok "Sin anualidad el primer año, Cashback en compras diarias y Meses sin intereses en tiendas afiliadas").
    cbn [rbind format_comma]. unfold ProductPromptBuilder.int_comma.
    destruct (15000 <? f * 5)%float; cbn [num_int] in *; rewrite Hlimit; reflexivity.
  - reflexivity.
  - reflexivity.
  - intros Hf Hdeposit Hyield.
    unfold ProductPromptBuilder.build_offer, offer_context.
    cbn [ctx_product_type ctx_collected_data ProductPromptBuilder.PRODUCT_CONFIGS] in *.
    unfold dict_get_default. rewrite lookup_singleton.
    destruct (decide _); [| congruence].
    cbn [truthy]. rewrite Hf. cbn [negb].
    cbn [ProductPromptBuilder.calculation ProductPromptBuilder.on_number as_num
         num_mul_float num_to_float rbind].
    change (ProductPromptBuilder.benefits_text _) with
      (Ok "Rendimientos hasta 6.5% anual, Sin monto mínimo de apertura y Retiros ilimitados").
    cbn [rbind]. unfold ProductPromptBuilder.annual_earnings, ProductPromptBuilder.int_comma.
    cbn [num_mul_Z num_mul_float num_to_float rbind num_int].
    change (flit 12) with 12%float.
    rewrite Hdeposit, Hyield. reflexivity.
  - vm_compute. repeat split.
Qed.

Lemma offer_calculator_witness :
  ProductPromptBuilder.build_offer (offer_context CREDIT_CARD (VFloat 2600)) =
    Ok "Con tus ingresos de $2,600.0, te recomiendo nuestra Tarjeta Gold con límite de hasta $13,000, que incluye Sin anualidad el primer año, Cashback en compras diarias y Meses sin intereses en tiendas afiliadas."
  /\ ProductPromptBuilder.build_offer (offer_context SAVINGS (VFloat 2000)) =
    Ok "Tu cuenta de ahorros con $300 mensuales generaría aproximadamente $234 al año, e incluye Rendimientos hasta 6.5% anual, Sin monto mínimo de apertura y Retiros ilimitados.".
Proof.
  destruct (offer_calculator 0 2600 0 13000 0 0) as (_ & _ & _ & _ & Hcard & _).
  destruct (offer_calculator 0 2000 0 0 300 234) as (_ & _ & _ & _ & _ & _ & _ & Hsavings & _).
  split.
  - apply Hcard; reflexivity.
  - apply Hsavings; reflexivity.
Defined.

(** ** The propensity scores *)

Lemma segment_multiplier_cases (segment : PyVal) :
  default 1.0%float (Utils.segment_multipliers segment) = 1.3%float
  \/ default 1.0%float (Utils.segment_multipliers segment) = 1.0%float
  \/ default 1.0%float (Utils.segment_multipliers segment) = 0.8%float.
Proof.
  unfold Utils.segment_multipliers. destruct segment; try (right; left; reflexivity).
  repeat match goal with |- context [if ?b then _ else _] => destruct b end;
    simpl; auto.
Qed.

Lemma employment_multiplier_cases (employment : PyVal) :
  Utils.employment_multipliers employment = None
  \/ Utils.employment_multipliers employment = Some 1.1%float
  \/ Utils.employment_multipliers employment = Some 1.2%float
  \/ Utils.employment_multipliers employment = Some 0.9%float
  \/ Utils.employment_multipliers employment = Some 0.8%float.
Proof.
  unfold Utils.employment_multipliers. destruct employment; try (left; reflexivity).
  repeat match goal with |- context [if ?b then _ else _] => destruct b end; auto.
Qed.

Lemma segment_score_cases (segment : string) :
  default 0.5%float (Customers.segment_scores segment) = 0.8%float
  \/ default 0.5%float (Customers.segment_scores segment) = 0.6%float
  \/ default 0.5%float (Customers.segment_scores segment) = 0.4%float
  \/ default 0.5%float (Customers.segment_scores segment) = 0.5%float.
Proof.
  unfold Customers.segment_scores.
  repeat match goal with |- context [if ?b then _ else _] => destruct b end; simpl; auto.
Qed.

(** A credit score of at most four digits survives [safe_int] unchanged. *)
Lemma safe_int_credit_score (z : Z) :
  0 <= z <= 1000 -> Customers.safe_int (Some z) = Ok z.
Proof.
  intros Hz.
  assert (H : forallb (fun n => match Customers.safe_int (Some (Z.of_nat n)) with
                                | Ok r => r =? Z.of_nat n
                                | Raise _ => false
                                end) (seq 0 1001) = true) by (vm_compute; reflexivity).
  rewrite forallb_forall in H. specialize (H (Z.to_nat z)).
  rewrite Z2Nat.id in H by lia.
  destruct (Customers.safe_int (Some z)) as [r |].
  - f_equal. apply Z.eqb_eq. apply H. apply in_seq. lia.
  - discriminate H. apply in_seq. lia.
Qed.

Lemma utils_score_clamped (user_data collected_data : Dict) :
  match Utils.calculate_propensity_score user_data collected_data with
  | Ok v => in_unit_interval v
  | Raise e =>
      e = TypeError
      /\ truthy (dict_get collected_data "monthly_income") = true
      /\ as_num (dict_get collected_data "monthly_income") = None
  end.
Proof.
  unfold Utils.calculate_propensity_score, in_unit_interval.
  destruct (segment_multiplier_cases
              (dict_get_default user_data "customer_segment" (VStr "standard")))
    as [-> | [-> | ->]];
  destruct (employment_multiplier_cases (dict_get collected_data "employment_type"))
    as [-> | [-> | [-> | [-> | ->]]]];
  (destruct (truthy (dict_get collected_data "monthly_income"));
   [ destruct (as_num (dict_get collected_data "monthly_income")) as [n |];
     [ destruct (num_gt_Z n 5000);
       [| destruct (num_gt_Z n 2000); [| destruct (num_lt_Z n 1000)]]
     | ]
   | ]);
  cbn [rbind]; first [ split; vm_compute; reflexivity | repeat split ].
Qed.

Lemma customers_score_clamped (customer : UserData) (lead_data : Dict) :
  match Customers.calculate_propensity_score customer lead_data with
  | Ok v => in_unit_interval v
  | Raise e =>
      exists z, credit_score customer = Some z /\ Customers.safe_int (Some z) = Raise e
  end.
Proof.
  unfold Customers.calculate_propensity_score, in_unit_interval.
  destruct (segment_score_cases (customer_segment customer)) as [-> | [-> | [-> | ->]]];
  (destruct (credit_score customer) as [z |];
   [ cbn [from_option]; destruct (truthy (VInt z));
     [ destruct (Customers.safe_int (Some z)) as [cs | e] eqn:Es;
       [ cbn [rbind]; destruct (800 <=? cs);
         [| destruct (700 <=? cs); [| destruct (cs <? 600)]]
       | ]
     | ]
   | cbn [from_option truthy] ]);
  cbn [rbind];
  try (exists z; split; [reflexivity | exact Es]);
  destruct (1500 <? Customers.safe_decimal_to_float (monthly_income customer))%float;
  destruct (negb (bool_decide (current_products customer = []))
            && (0 <? length (current_products customer))%nat);
  split; vm_compute; reflexivity.
Qed.

(** C9. Both propensity scores lie in [0, 1] whenever they are
    returned: the score of core/utils.py for every [user_data] and
    [collected_data], the score of api/customers.py for every customer
    record. The first returns for every [monthly_income] that is absent,
    false or a number (a true value that is no number cannot be compared
    with the thresholds: [TypeError]); the second returns for every
    credit score that [safe_int] converts, those of at most four digits
    among them. *)
Theorem propensity_scores_clamped (user_data collected_data : Dict)
    (customer : UserData) (lead_data : Dict) :
  match Utils.calculate_propensity_score user_data collected_data with
  | Ok v => in_unit_interval v
  | Raise e =>
      e = TypeError
      /\ truthy (dict_get collected_data "monthly_income") = true
      /\ as_num (dict_get collected_data "monthly_income") = None
  end
  /\ match Customers.calculate_propensity_score customer lead_data with
     | Ok v => in_unit_interval v
     | Raise e =>
         exists z, credit_score customer = Some z /\ Customers.safe_int (Some z) = Raise e
     end
  /\ (truthy (dict_get collected_data "monthly_income") = false
      \/ as_num (dict_get collected_data "monthly_income") <> None ->
      exists v, Utils.calculate_propensity_score user_data collected_data = Ok v
                /\ in_unit_interval v)
  /\ ((forall z, credit_score customer = Some z -> 0 <= z <= 1000) ->
      exists v, Customers.calculate_propensity_score customer lead_data = Ok v
                /\ in_unit_interval v).
Proof.
  pose proof (utils_score_clamped user_data collected_data) as Hu.
  pose proof (customers_score_clamped customer lead_data) as Hc.
  split; [exact Hu | split; [exact Hc | split]].
  - intros H.
    destruct (Utils.calculate_propensity_score user_data collected_data) as [v | e];
      [exists v; split; [reflexivity | exact Hu] |].
    destruct Hu as (_ & Ht & Hn). destruct H as [H | H]; congruence.
  - intros H.
    destruct (Customers.calculate_propensity_score customer lead_data) as [v | e];
      [exists v; split; [reflexivity | exact Hc] |].
    destruct Hc as (z & Hz & He). rewrite safe_int_credit_score in He by (apply H; exact Hz).
    discriminate He.
Qed.

Lemma propensity_scores_clamped_witness :
  (exists v, Utils.calculate_propensity_score
               {["customer_segment" := VStr "premium"]}
               (<["employment_type" := VStr "business_owner"]>
                  {["monthly_income" := VFloat 6000]}) = Ok v
             /\ in_unit_interval v)
  /\ (exists v, Customers.calculate_propensity_score
                  {| customer_segment := "premium"; current_products := ["savings"];
                     credit_score := Some 820;
                     monthly_income :=
                       Some {| dec_sign := false; dec_coefficient := 250000; dec_exponent := -2 |} |}
                  ∅ = Ok v
                /\ in_unit_interval v).
Proof.
  pose proof (propensity_scores_clamped
                {["customer_segment" := VStr "premium"]}
                (<["employment_type" := VStr "business_owner"]>
                   {["monthly_income" := VFloat 6000]})
                {| customer_segment := "premium"; current_products := ["savings"];
                   credit_score := Some 820;
                   monthly_income :=
                     Some {| dec_sign := false; dec_coefficient := 250000; dec_exponent := -2 |} |}
                ∅) as (_ & _ & Hu & Hc).
  split.
  - apply Hu. right. vm_compute. discriminate.
  - apply Hc. intros z [= <-]. lia.
Defined.

Example utils_score_premium_owner :
  Utils.calculate_propensity_score
    {["customer_segment" := VStr "premium"]}
    (<["employment_type" := VStr "business_owner"]> {["monthly_income" := VFloat 6000]})
  = Ok 0.93599999999999994%float.
Proof. vm_compute. reflexivity. Qed.

Example customers_score_premium :
  Customers.calculate_propensity_score
    {| customer_segment := "premium"; current_products := ["savings"];
       credit_score := Some 820;
       monthly_income :=
         Some {| dec_sign := false; dec_coefficient := 250000; dec_exponent := -2 |} |} ∅
  = Ok 1%float.
Proof. vm_compute. reflexivity. Qed.

(** ** The prompts *)

Lemma of_value_raises {A} `{PyEnum A} (v : string) (e : exn) :
  of_value v = Raise e -> e = ValueError.
Proof.
  unfold of_value. destruct (find _ members); [discriminate | intros [= <-]; reflexivity].
Qed.

Lemma of_value_sound {A} `{PyEnum A} (v : string) (a : A) : of_value v = Ok a -> value a = v.
Proof.
  unfold of_value. destruct (find _ members) as [a' |] eqn:E; [| discriminate].
  intros [= <-]. apply find_some in E. destruct E as [_ E]. apply String.eqb_eq. exact E.
Qed.

(** A call whose keywords name no parameter goes through. *)
Lemma call_with_keywords_free {A} (parameters : list string) (kwargs : Dict) (body : Result A) :
  Forall (fun name => kwargs !! name = None) parameters ->
  call_with_keywords parameters kwargs body = body.
Proof.
  intros Hfree. unfold call_with_keywords.
  replace (existsb _ parameters) with false; [reflexivity |].
  symmetry. induction Hfree as [| name rest Hname _ IH]; [reflexivity |].
  cbn [existsb]. rewrite IH, Hname. rewrite bool_decide_eq_false_2; [reflexivity |].
  intros [v Hv]. discriminate.
Qed.

(** A keyword that names a parameter makes the call a [TypeError]. *)
Lemma call_with_keywords_clash {A} (parameters : list string) (kwargs : Dict) (body : Result A)
    (name : string) :
  In name parameters -> is_Some (kwargs !! name) ->
  call_with_keywords parameters kwargs body = Raise TypeError.
Proof.
  intros Hin Hsome. unfold call_with_keywords.
  replace (existsb _ parameters) with true; [reflexivity |].
  symmetry. apply existsb_exists. exists name. split; [exact Hin |].
  apply bool_decide_eq_true_2. exact Hsome.
Qed.

(** The variables a step adds are never called [self]. *)
Lemma step_specific_vars_names (context : PromptContext) (step_vars : Dict) :
  StepPromptBuilder._get_step_specific_vars context = Ok step_vars ->
  step_vars !! "self" = None.
Proof.
  unfold StepPromptBuilder._get_step_specific_vars.
  destruct (ctx_current_step context);
    try (intros [= <-]; reflexivity).
  destruct (ProductPromptBuilder.build_offer context); [| discriminate].
  intros [= <-]. reflexivity.
Qed.

(** Away from [present_offer], whose prompt runs the offer calculator,
    building the prompt of a step raises nothing, as long as no variable
    is called [self] and no keyword [cls] or [context]. *)
Lemma build_step_prompt_returns (step user_name product_type customer_segment : string)
    (collected_data kwargs : Dict) :
  step <> "present_offer" ->
  collected_data !! "self" = None ->
  Forall (fun name => kwargs !! name = None) ["cls"; "context"; "self"] ->
  exists text,
    PromptBuilder.build_step_prompt step user_name product_type customer_segment
      collected_data kwargs = Ok text.
Proof.
  intros Hstep Hdata Hkwargs.
  unfold PromptBuilder.build_step_prompt, PromptBuilder.except_value_or_key.
  destruct (of_value product_type) as [product | e] eqn:Ep;
    [| apply of_value_raises in Ep; subst e; cbn [rbind]; eauto].
  destruct (of_value customer_segment) as [segment | e] eqn:Es;
    [| apply of_value_raises in Es; subst e; cbn [rbind]; eauto].
  destruct (of_value step) as [current | e] eqn:Ec;
    [| apply of_value_raises in Ec; subst e; cbn [rbind]; eauto].
  apply of_value_sound in Ec. cbn [rbind].
  inversion Hkwargs as [| ? ? Hcls Hrest]; subst.
  inversion Hrest as [| ? ? Hcontext Hlast]; subst.
  inversion Hlast as [| ? ? Hself _]; subst.
  rewrite call_with_keywords_free by (repeat constructor; assumption).
  unfold StepPromptBuilder.build. cbn [ctx_current_step].
  destruct (StepPromptBuilder.STEP_TEMPLATES current) as [t |]; [| eauto].
  destruct (StepPromptBuilder._get_step_specific_vars _) as [step_vars | e] eqn:Ev.
  - cbn [rbind]. cbv zeta. apply step_specific_vars_names in Ev.
    rewrite call_with_keywords_free; [eauto |].
    repeat constructor. cbn [ctx_collected_data].
    rewrite !lookup_union, Ev, Hself, Hdata.
    rewrite !lookup_insert_ne by discriminate. reflexivity.
  - exfalso. unfold StepPromptBuilder._get_step_specific_vars in Ev.
    cbn [ctx_current_step] in Ev. destruct current; try discriminate.
    apply Hstep. reflexivity.
Qed.

(** ** The agent *)

(** Runs the plumbing of the monad and of the world in the goal. *)
Ltac run :=
  repeat progress
    (unfold try_except, bind, ret, lift, get_state, get_world, update_state, update_world,
       Agent.assistant_message, Agent.llm_ainvoke, execute_single,
       ConversationRepository.save_message, ConversationRepository.save_conversation_log,
       ConversationRepository.insert_message, ConversationRepository.upsert_log,
       LeadRepository.save_lead, LeadRepository.insert_lead;
     cbv beta zeta;
     cbn [state world fst snd backend_called statement_sent
          conversation_logs conversation_messages leads statements db_fails
          backend_calls backend now]).

(** Decides the comparisons of two string literals in the goal. *)
Ltac decide_literals :=
  repeat match goal with
    | |- context [String.eqb ?a ?b] =>
        let r := eval vm_compute in (String.eqb a b) in
        match r with
        | true => change (String.eqb a b) with true
        | false => change (String.eqb a b) with false
        end
    end.

(** What [_generate_llm_response] does, by the outcome of building the
    prompt and of the backend call. *)
Lemma generate_llm_response_cases (step user_name product_type customer_segment : string)
    (collected_data kwargs : Dict) (s : Store) :
  Agent._generate_llm_response step user_name product_type customer_segment
    collected_data kwargs s =
  match PromptBuilder.build_step_prompt step user_name product_type customer_segment
          collected_data kwargs with
  | Raise e => (Raise e, s)
  | Ok text =>
      (Ok match backend (world s) (backend_calls (world s)) with
          | Ok reply => strip reply
          | Raise _ => text
          end,
       {| state := state s; world := backend_called (world s) |})
  end.
Proof.
  unfold Agent._generate_llm_response, try_except, bind, lift, Agent.llm_ainvoke, ret.
  destruct (PromptBuilder.build_step_prompt _ _ _ _ _ _) as [text | e]; [| reflexivity].
  destruct (backend (world s) (backend_calls (world s))); reflexivity.
Qed.




(** The transition function always answers with a step of the
    enumeration. *)
Lemma get_next_step_valid (current_step intent : string) (data : Dict) :
  exists c : ConversationStep, get_next_step current_step intent data = value c.
Proof.
  unfold get_next_step, _get_clarification_next_step.
  destruct (of_value current_step) as [c |]; [| exists ERROR; reflexivity].
  destruct (of_value intent) as [i |]; [| exists ERROR; reflexivity].
  cbn [rbind].
  destruct (decide (i = NEGATIVE)); [exists CLOSE_NEGATIVE; reflexivity |].
  destruct c;
    repeat match goal with
      | |- context [if ?b then _ else _] => destruct b
      end;
    cbn [rcatch]; eexists; reflexivity.
Qed.

Lemma written_step_valid (st : ConversationState) :
  exists c : ConversationStep, written_step st = value c.
Proof.
  unfold written_step.
  destruct (_ && _); [exists CLOSE_NEGATIVE; reflexivity |].
  destruct (_ && _); [exists CLOSE_POSITIVE; reflexivity |].
  apply get_next_step_valid.
Qed.

(** C5, as the code has it. When the backend call fails,
    [_generate_llm_response] returns the text of [build_step_prompt] for
    the step, which is the template of the step passed through [render]
    with the variables at hand, and [generate_response] completes the
    turn: the text goes through [_clean_response] into the assistant's
    message, and the step written is a step of the enumeration. *)
Theorem backend_failure_falls_back_to_step_prompt
    (s : Store) (step : string) (kwargs : Dict) (text : string) (e : exn) :
  backend (world s) (backend_calls (world s)) = Raise e ->
  db_fails (world s) (statements (world s)) = false ->
  prompted_step (state s) = Some (step, kwargs) ->
  PromptBuilder.build_step_prompt step (user_name (state s)) (product_type (state s))
    (state_customer_segment (state s)) (collected_data (state s)) kwargs = Ok text ->
  Agent._generate_llm_response step (user_name (state s)) (product_type (state s))
    (state_customer_segment (state s)) (collected_data (state s)) kwargs s
  = (Ok text, {| state := state s; world := backend_called (world s) |})
  /\ fst (Agent.generate_response s) = Ok tt
  /\ messages (state (snd (Agent.generate_response s))) =
       (messages (state s) ++
        [{| role := "assistant"; content := Agent._clean_response text;
            timestamp := now (world s) |}])%list
  /\ current_step (state (snd (Agent.generate_response s))) = written_step (state s)
  /\ exists c : ConversationStep, written_step (state s) = value c.
Proof.
  intros Hb Hdb Hp Ht.
  split; [rewrite generate_llm_response_cases, Ht, Hb; reflexivity |].
  assert (Hrun : Agent.generate_response s =
            (Ok tt,
             {| state :=
                  set_current_step (written_step (state s))
                    (append_message
                       {| role := "assistant"; content := Agent._clean_response text;
                          timestamp := now (world s) |} (state s));
                world :=
                  statement_sent
                    (snd (ConversationRepository.insert_message (session_id (state s)) "agent"
                            (Agent._clean_response text) (Some (written_step (state s))) None
                            (backend_called (world s)))) |})).
  { unfold Agent.generate_response, prompted_step, written_step in *.
    unfold try_except at 1. unfold bind at 1. unfold get_state at 1. cbv beta zeta in *.
    destruct (_ && _); [discriminate Hp |].
    destruct (_ && _); [| destruct (_ =? "present_offer")%string];
      injection Hp as <- <-;
      unfold bind; cbv beta; rewrite generate_llm_response_cases, Ht, Hb;
      destruct s as [st w]; cbn [state world] in Hdb; run; rewrite Hdb; reflexivity. }
  rewrite Hrun. cbn [fst snd state]. repeat split. apply written_step_valid.
Qed.

Lemma backend_failure_falls_back_to_step_prompt_witness :
  Agent._generate_llm_response "close_positive" "Ana" "credit_card" "standard" complete_data ∅
    {| state := ana_accepts; world := backend_down |}
  = (Ok close_positive_for_ana,
     {| state := ana_accepts; world := backend_called backend_down |})
  /\ fst (Agent.generate_response {| state := ana_accepts; world := backend_down |}) = Ok tt
  /\ messages (state (snd (Agent.generate_response {| state := ana_accepts; world := backend_down |})))
     = (messages ana_accepts ++
        [{| role := "assistant"; content := Agent._clean_response close_positive_for_ana;
            timestamp := 0 |}])%list
  /\ current_step (state (snd (Agent.generate_response {| state := ana_accepts; world := backend_down |})))
     = written_step ana_accepts
  /\ exists c : ConversationStep, written_step ana_accepts = value c.
Proof.
  apply (backend_failure_falls_back_to_step_prompt
           {| state := ana_accepts; world := backend_down |}
           "close_positive" ∅ close_positive_for_ana BackendError).
  - reflexivity.
  - reflexivity.
  - reflexivity.
  - vm_compute. reflexivity.
Defined.

(** C5 as stated fails on the code: with the backend down, the answer
    to Ana's acceptance is the closing template filled with her name and
    her product, not the template as it is. *)
Lemma fallback_text_is_rendered_counterexample :
  fst (Agent.generate_response {| state := ana_accepts; world := backend_down |}) = Ok tt
  /\ content <$> last (messages (state (snd (Agent.generate_response
                                                {| state := ana_accepts; world := backend_down |}))))
     = Some close_positive_for_ana
  /\ template <$> StepPromptBuilder.STEP_TEMPLATES CLOSE_POSITIVE = Some close_positive_template
  /\ (close_positive_for_ana =? close_positive_template)%string = false.
Proof. vm_compute. repeat split. Qed.

(** Where the prompt lacks a variable of the template, the fallback is
    the template as it is: so at [awaiting_decision]. *)
Example fallback_text_awaiting_decision :
  PromptBuilder.build_step_prompt "awaiting_decision" "Ana" "credit_card" "standard"
    complete_data ∅
  = Ok ("{decision_prompt}" +:+ nl +:+ nl +:+ "¿Te interesa proceder con esta opción?").
Proof. vm_compute. reflexivity. Qed.

(** ** Leads *)

(** C1, as the code has it. A run of [save_conversation] raises
    nothing and inserts one lead for the session of the state when the
    step is [close_positive], the intent is confirmed, there is a lead
    repository, the data is complete to 75% or more and the database
    takes both statements; it inserts none otherwise. [lead_generated]
    and [lead_id] play no part in that: a state whose lead was already
    emitted emits again. *)
Theorem save_conversation_emits_on_every_qualifying_run
    (self : ConversationAgent) (s : Store) :
  fst (Agent.save_conversation self s) = Ok tt
  /\ (emits_lead self (state s) (world s) = true ->
      exists row,
        leads (world (snd (Agent.save_conversation self s))) = (leads (world s) ++ [row])%list
        /\ lead_session_id row = session_id (state s))
  /\ (emits_lead self (state s) (world s) = false ->
      leads (world (snd (Agent.save_conversation self s))) = leads (world s))
  /\ (forall generated id,
        emits_lead self (with_lead_marks generated id (state s)) (world s)
        = emits_lead self (state s) (world s)).
Proof.
  destruct s as [st w].
  split; [| split; [| split; [| reflexivity]]];
    unfold emits_lead, Agent.save_conversation; run;
    destruct (db_fails w (statements w)); run;
    rewrite ?andb_false_r; try reflexivity; try discriminate;
    rewrite ?andb_true_r;
    (destruct ((current_step st =? "close_positive")%string
               && truthy (from_option VBool VNone (intent_confirmed st))
               && lead_repo self
               && (75 <=? data_completeness
                            (get_conversation_progress (current_step st) (collected_data st))));
     run; [| first [reflexivity | discriminate]]);
    destruct (db_fails w (S (statements w))); run;
    first [reflexivity | discriminate | idtac].
  intros _. eexists. split; reflexivity.
Qed.

Lemma save_conversation_emits_on_every_qualifying_run_witness :
  exists row,
    leads (world (snd (Agent.save_conversation with_lead_repo
                         {| state := ana_closed; world := quiet_world |})))
    = ([] ++ [row])%list
    /\ lead_session_id row = "session_593997814126".
Proof.
  apply (proj1 (proj2 (save_conversation_emits_on_every_qualifying_run with_lead_repo
                         {| state := ana_closed; world := quiet_world |}))).
  vm_compute. reflexivity.
Defined.

(** C1 as stated fails on the code: the first run emits the lead of
    Ana's session and sets [lead_generated]; a second run on the state so
    marked emits a second lead for the same session. *)
Lemma second_lead_counterexample :
  lead_generated (state (snd (Agent.save_conversation with_lead_repo
                                {| state := ana_closed; world := quiet_world |}))) = Some true
  /\ length (leads_of "session_593997814126"
               (world (snd (Agent.save_conversation with_lead_repo
                              {| state := ana_closed; world := quiet_world |})))) = 1%nat
  /\ length (leads_of "session_593997814126"
               (world (snd (Agent.save_conversation with_lead_repo
                              (snd (Agent.save_conversation with_lead_repo
                                      {| state := ana_closed; world := quiet_world |})))))) = 2%nat.
Proof. vm_compute. repeat split. Qed.

(** ** Two stages on an answer *)

(** An income below the range is collected and the step stays. *)
Example income_300_stays :
  current_step (analyze_then_generate (ana_answers_income "300 al mes")) = "collect_income"
  /\ collected_data (analyze_then_generate (ana_answers_income "300 al mes")) !! "monthly_income"
     = Some (VFloat 300).
Proof. vm_compute. split; reflexivity. Qed.

(** An income in the range is collected and the step advances. *)
Example income_2500_advances :
  current_step (analyze_then_generate (ana_answers_income "2500 al mes")) = "collect_employment"
  /\ collected_data (analyze_then_generate (ana_answers_income "2500 al mes")) !! "monthly_income"
     = Some (VFloat 2500).
Proof. vm_compute. split; reflexivity. Qed.

(** The lexicons are matched by containment: "gano" contains "no", so
    this answer is a refusal for the classifier and closes the
    conversation, with the income collected all the same. *)
Example gano_2500_is_a_refusal :
  detected_intent (analyze_then_generate (ana_answers_income "gano 2500 al mes"))
  = Some "negative"
  /\ current_step (analyze_then_generate (ana_answers_income "gano 2500 al mes"))
     = "close_negative"
  /\ collected_data (analyze_then_generate (ana_answers_income "gano 2500 al mes"))
       !! "monthly_income" = Some (VFloat 2500).
Proof. vm_compute. repeat split; reflexivity. Qed.


(** * Properties of the rest of the engine *)

Import CoreUtils.

(** ** The transition table, step by step *)

Lemma of_value_unknown {A} `{PyEnum A} (v : string) :
  (forall a : A, v <> value a) -> of_value v = Raise ValueError.
Proof.
  intros Hv. unfold of_value. destruct (find _ members) as [a |] eqn:E; [| reflexivity].
  apply find_some in E. destruct E as [_ E]. apply String.eqb_eq in E.
  contradiction (Hv a). symmetry. exact E.
Qed.

(** X1. The transition function raises nothing and answers [error] for
    a step or an intent that is no member of its enumeration; for
    members, it answers [error] exactly when the intent is not the
    negative one and the step is one the table has no rule for
    ([collect_budget] and the four closing steps): a conversation that
    has closed does not stay closed on a further turn. *)
Theorem get_next_step_error_cases (current : ConversationStep) (intent : IntentType)
    (step_name intent_name : string) (data : Dict) :
  (get_next_step (value current) (value intent) data = value ERROR
   <-> intent <> NEGATIVE /\ without_rule current = true)
  /\ ((forall c : ConversationStep, step_name <> value c) ->
      get_next_step step_name intent_name data = value ERROR)
  /\ ((forall i : IntentType, intent_name <> value i) ->
      get_next_step step_name intent_name data = value ERROR).
Proof.
  split; [| split].
  - unfold get_next_step, _get_clarification_next_step.
    rewrite step_of_value, intent_of_value. cbn [rbind].
    destruct intent, current;
      repeat match goal with
        | |- context [if ?b then _ else _] => destruct b
        end;
      cbn [rcatch value ConversationStep_enum without_rule];
      try (exfalso; congruence);
      (split; [intros E; first [discriminate E | split; [discriminate | reflexivity]]
              | intros [Hn Hw]; first [reflexivity | discriminate Hw | contradiction Hn; reflexivity]]).
  - intros Hs. unfold get_next_step. rewrite (of_value_unknown step_name Hs). reflexivity.
  - intros Hi. unfold get_next_step.
    destruct (of_value step_name); [| reflexivity].
    cbn [rbind]. rewrite (of_value_unknown intent_name Hi). reflexivity.
Qed.

Lemma get_next_step_error_cases_witness :
  (get_next_step "close_positive" "positive" ∅ = "error"
   <-> POSITIVE <> NEGATIVE /\ without_rule CLOSE_POSITIVE = true)
  /\ get_next_step "offer" "maybe" ∅ = "error".
Proof.
  destruct (get_next_step_error_cases CLOSE_POSITIVE POSITIVE "offer" "maybe" ∅)
    as (H1 & H2 & _).
  split; [exact H1 |].
  apply H2. intros c; destruct c; discriminate.
Defined.

(** ** Progress *)

(** X2. The progress report raises nothing. Its percentage is 0, 14,
    28, 42, 57, 71 and 85 along the main path from [greeting] to
    [close_positive], 50 for a step off that path and 0 for a name that
    is no step: it never reaches 100, not even for a closed
    conversation; and [is_complete] is true exactly for the four closing
    steps. *)
Theorem progress_percentage_stays_below_100 (current_step : string) (data : Dict) :
  0 <= progress_percentage (get_conversation_progress current_step data) <= 85
  /\ is_complete (get_conversation_progress current_step data)
     = is_conversation_complete current_step
  /\ map (fun c => progress_percentage (get_conversation_progress (value c) data)) step_order
     = [0; 14; 28; 42; 57; 71; 85]
  /\ (forall c : ConversationStep,
        ~ In c step_order ->
        progress_percentage (get_conversation_progress (value c) data) = 50)
  /\ ((forall c : ConversationStep, current_step <> value c) ->
      progress_percentage (get_conversation_progress current_step data) = 0).
Proof.
  assert (Hstep : forall c : ConversationStep,
            progress_percentage (get_conversation_progress (value c) data)
            = match c with
              | GREETING => 0 | COLLECT_INCOME => 14 | COLLECT_EMPLOYMENT => 28
              | COLLECT_AMOUNT => 42 | PRESENT_OFFER => 57 | AWAITING_DECISION => 71
              | CLOSE_POSITIVE => 85 | _ => 50
              end
            /\ is_complete (get_conversation_progress (value c) data)
               = is_conversation_complete (value c)).
  { intros c. unfold get_conversation_progress, required_fields.
    rewrite step_of_value. cbn [rbind List.filter].
    destruct (is_none (dict_get data "monthly_income")),
             (is_none (dict_get data "employment_type")),
             (is_none (dict_get data "requested_amount"));
      destruct c; vm_compute; split; reflexivity. }
  assert (Hunknown : forall name,
            of_value (A := ConversationStep) name = Raise ValueError ->
            progress_percentage (get_conversation_progress name data) = 0
            /\ is_complete (get_conversation_progress name data) = false).
  { intros name E. unfold get_conversation_progress. rewrite E. split; reflexivity. }
  split; [| split; [| split; [| split]]].
  - destruct (of_value (A := ConversationStep) current_step) as [c | e] eqn:E.
    + apply of_value_sound in E. subst current_step.
      rewrite (proj1 (Hstep c)). destruct c; lia.
    + pose proof (of_value_raises _ _ E); subst e.
      rewrite (proj1 (Hunknown _ E)). lia.
  - destruct (of_value (A := ConversationStep) current_step) as [c | e] eqn:E.
    + apply of_value_sound in E. subst current_step. apply Hstep.
    + pose proof (of_value_raises _ _ E); subst e.
      rewrite (proj2 (Hunknown _ E)). symmetry.
      unfold is_conversation_complete.
      apply not_true_is_false. intros Hin. apply existsb_exists in Hin.
      destruct Hin as (x & Hx & Heq). apply String.eqb_eq in Heq. subst x.
      unfold of_value in E.
      cbn [In] in Hx.
      destruct Hx as [<- | [<- | [<- | [<- | []]]]]; discriminate E.
  - cbn [map step_order]. rewrite !(proj1 (Hstep _)). reflexivity.
  - intros c Hc. rewrite (proj1 (Hstep c)).
    destruct c; try reflexivity; contradiction Hc; cbn; tauto.
  - intros Hs. apply Hunknown. apply of_value_unknown. exact Hs.
Qed.

Lemma progress_percentage_stays_below_100_witness :
  progress_percentage (get_conversation_progress "handle_objection" complete_data) = 50
  /\ progress_percentage (get_conversation_progress "offer" complete_data) = 0.
Proof.
  destruct (progress_percentage_stays_below_100 "offer" complete_data)
    as (_ & _ & _ & H4 & H5).
  split.
  - apply (H4 HANDLE_OBJECTION). cbn. intros H.
    repeat (destruct H as [H | H]; [discriminate H |]). exact H.
  - apply H5. intros c; destruct c; discriminate.
Defined.

(** ** Telephone numbers *)

Lemma all_chars_keep_chars (p : ascii -> bool) (s : string) :
  all_chars p (keep_chars p s) = true.
Proof.
  induction s as [| c s IH]; [reflexivity |].
  cbn [keep_chars]. destruct (p c) eqn:E; [cbn [all_chars]; rewrite E, IH; reflexivity | exact IH].
Qed.

Lemma keep_chars_all_chars (p : ascii -> bool) (s : string) :
  all_chars p s = true -> keep_chars p s = s.
Proof.
  induction s as [| c s IH]; [reflexivity |].
  cbn [all_chars keep_chars]. intros H. apply andb_true_iff in H as [Hc Hs].
  rewrite Hc, (IH Hs). reflexivity.
Qed.

Lemma all_chars_app (p : ascii -> bool) (a b : string) :
  all_chars p (a +:+ b) = all_chars p a && all_chars p b.
Proof.
  induction a as [| c a IH]; [reflexivity |].
  rewrite append_cons. cbn [all_chars]. rewrite IH, andb_assoc. reflexivity.
Qed.

Lemma all_chars_lstrip_char (p : ascii -> bool) (c : ascii) (s : string) :
  all_chars p s = true -> all_chars p (lstrip_char c s) = true.
Proof.
  induction s as [| d s IH]; [reflexivity |].
  cbn [lstrip_char]. destruct (Ascii.eqb c d); [| tauto].
  cbn [all_chars]. intros H. apply andb_true_iff in H as [_ H]. exact (IH H).
Qed.

(** A cleaned number starts with the plus sign and has digits and plus
    signs only. *)
Lemma with_country_code_shape (clean : string) :
  all_chars digit_or_plus clean = true ->
  starts_with "+" (with_country_code clean) = true
  /\ all_chars digit_or_plus (with_country_code clean) = true.
Proof.
  intros H. unfold with_country_code.
  destruct (starts_with "+" clean) eqn:E; cbn [negb]; [split; assumption |].
  destruct (starts_with "593" clean); [split; [reflexivity |] |].
  { rewrite all_chars_app, H. reflexivity. }
  destruct (_ || _); (split; [reflexivity |]); rewrite all_chars_app.
  - rewrite (all_chars_lstrip_char _ _ _ H). reflexivity.
  - rewrite H. reflexivity.
Qed.

Lemma with_country_code_fixed (clean : string) :
  starts_with "+" clean = true -> with_country_code clean = clean.
Proof. intros H. unfold with_country_code. rewrite H. reflexivity. Qed.

Lemma starts_with_plus_nonempty (s : string) : starts_with "+" s = true -> s <> "".
Proof. intros H ->. discriminate H. Qed.

(** X3. On a non-empty number written in ASCII, [clean_phone_number]
    and the [_clean_phone] of the API and of the repositories give the
    same text; it starts with the plus sign, holds digits and plus signs
    only, and cleaning it again changes nothing. They differ on the
    empty text only, which the first keeps and the second turns into the
    bare country code. *)
Theorem clean_phone_number_normal_form (phone : string) :
  (is_ascii phone = true -> phone <> "" ->
   starts_with "+" (clean_phone_number phone) = true
   /\ all_chars digit_or_plus (clean_phone_number phone) = true
   /\ clean_phone_number (clean_phone_number phone) = clean_phone_number phone
   /\ CustomersApi._clean_phone phone = clean_phone_number phone
   /\ CustomersApi._clean_phone (CustomersApi._clean_phone phone)
      = CustomersApi._clean_phone phone)
  /\ clean_phone_number "" = ""
  /\ CustomersApi._clean_phone "" = "+593".
Proof.
  split; [| split; reflexivity].
  intros _ Hne.
  assert (E : clean_phone_number phone = CustomersApi._clean_phone phone).
  { unfold clean_phone_number, CustomersApi._clean_phone.
    destruct (phone =? "")%string eqn:Ee; [apply String.eqb_eq in Ee; contradiction | reflexivity]. }
  destruct (with_country_code_shape (keep_chars digit_or_plus phone)
              (all_chars_keep_chars _ _)) as [Hplus Hall].
  fold (CustomersApi._clean_phone phone) in Hplus, Hall.
  assert (Hfix : CustomersApi._clean_phone (CustomersApi._clean_phone phone)
                 = CustomersApi._clean_phone phone).
  { unfold CustomersApi._clean_phone at 1.
    rewrite (keep_chars_all_chars _ _ Hall). apply with_country_code_fixed. exact Hplus. }
  rewrite E. split; [exact Hplus | split; [exact Hall | split; [| split; [reflexivity | exact Hfix]]]].
  unfold clean_phone_number at 1.
  destruct (CustomersApi._clean_phone phone =? "")%string eqn:Ee.
  - apply String.eqb_eq in Ee. contradiction (starts_with_plus_nonempty _ Hplus).
  - exact Hfix.
Qed.

Lemma clean_phone_number_normal_form_witness :
  starts_with "+" (clean_phone_number "099 123-4567") = true
  /\ all_chars digit_or_plus (clean_phone_number "099 123-4567") = true
  /\ clean_phone_number (clean_phone_number "099 123-4567") = clean_phone_number "099 123-4567"
  /\ CustomersApi._clean_phone "099 123-4567" = clean_phone_number "099 123-4567"
  /\ CustomersApi._clean_phone (CustomersApi._clean_phone "099 123-4567")
     = CustomersApi._clean_phone "099 123-4567".
Proof.
  apply (proj1 (clean_phone_number_normal_form "099 123-4567")); [reflexivity | discriminate].
Defined.

Lemma substring_drop (n : nat) (s : string) : String.substring 0 n s +:+ drop n s = s.
Proof.
  revert s. induction n as [| n IH]; intros [| c s]; cbn [String.substring drop]; try reflexivity.
  rewrite append_cons, IH. reflexivity.
Qed.

Lemma substring_length (n : nat) (s : string) :
  (n <= String.length s)%nat -> String.length (String.substring 0 n s) = n.
Proof.
  revert s. induction n as [| n IH]; intros [| c s]; cbn [String.substring String.length];
    try reflexivity; try lia.
  intros H. rewrite IH by lia. reflexivity.
Qed.

Lemma substring_all (s : string) : String.substring 0 (String.length s) s = s.
Proof.
  induction s as [| c s IH]; [reflexivity |].
  cbn [String.length String.substring]. rewrite IH. reflexivity.
Qed.

Lemma drop_all (s : string) : drop (String.length s) s = "".
Proof. induction s as [| c s IH]; [reflexivity | exact IH]. Qed.

Lemma all_digits_digit_or_plus (s : string) :
  all_digits s = true -> all_chars digit_or_plus s = true.
Proof.
  induction s as [| c s IH]; [reflexivity |].
  cbn [all_digits all_chars]. intros H. apply andb_true_iff in H as [Hc Hs].
  rewrite (IH Hs). unfold digit_or_plus. rewrite Hc. reflexivity.
Qed.

Lemma exact_digits (n : nat) (ds : string) :
  String.length ds = n -> all_digits ds = true ->
  (n <=? String.length ds)%nat && all_digits (String.substring 0 n ds)
  && ((drop n ds =? "")%string || (drop n ds =? nl)%string) = true.
Proof.
  intros <- Hd. rewrite Nat.leb_refl, substring_all, drop_all, Hd. reflexivity.
Qed.

Lemma matches_ecuadorian_mobile (ds : string) :
  String.length ds = 9%nat -> all_digits ds = true -> matches_ecuadorian ("+593" +:+ ds) = true.
Proof.
  intros Hl Hd. unfold matches_ecuadorian.
  change ("+593" +:+ ds) with (String "+" (String "5" (String "9" (String "3" ds)))).
  cbn [starts_with drop Ascii.eqb Bool.eqb andb]. cbv zeta.
  apply exact_digits; assumption.
Qed.

(** X4. A mobile number of Ecuador is valid however it is written: with
    its last eight digits [d], the local forms [09d] and [9d] and the
    international forms [5939d] and [+5939d] are all cleaned to [+5939d]
    and all pass [is_valid_phone_number]. *)
Theorem mobile_spellings_are_valid (d p : string) :
  String.length d = 8%nat -> all_digits d = true -> In p (spellings d) ->
  clean_phone_number p = "+5939" +:+ d /\ is_valid_phone_number p = true.
Proof.
  intros Hl Hd Hp.
  assert (Hk : keep_chars digit_or_plus d = d)
    by (apply keep_chars_all_chars, all_digits_digit_or_plus, Hd).
  assert (Hv : matches_ecuadorian ("+5939" +:+ d) = true).
  { apply (matches_ecuadorian_mobile (String "9" d)); [cbn [String.length]; lia |].
    cbn [all_digits]. rewrite Hd. reflexivity. }
  assert (Hc : clean_phone_number p = "+5939" +:+ d).
  { cbn [spellings In] in Hp.
    destruct Hp as [<- | [<- | [<- | [<- | []]]]];
      unfold clean_phone_number;
      repeat (rewrite append_cons || rewrite append_nil);
      cbn [String.eqb Ascii.eqb Bool.eqb keep_chars digit_or_plus is_digit code orb andb];
      vm_compute N_of_ascii; cbn [N.leb N.compare Pos.compare Pos.compare_cont orb andb];
      rewrite Hk; reflexivity. }
  split; [exact Hc |]. unfold is_valid_phone_number. rewrite Hc. exact Hv.
Qed.

Lemma mobile_spellings_are_valid_witness :
  clean_phone_number "0991234567" = "+593991234567"
  /\ is_valid_phone_number "0991234567" = true.
Proof.
  apply (mobile_spellings_are_valid "91234567" "0991234567");
    [reflexivity | reflexivity | left; reflexivity].
Defined.

Lemma clean_phone_number_chars (phone : string) :
  all_chars digit_or_plus (clean_phone_number phone) = true.
Proof.
  unfold clean_phone_number. destruct (phone =? "")%string; [reflexivity |].
  apply with_country_code_shape, all_chars_keep_chars.
Qed.

(** X5. On a number written in ASCII, [is_valid_phone_number] accepts
    exactly the numbers that are cleaned to [+593] and nine digits: the
    line feed the pattern would let through at the end never survives
    the cleaning, and the empty text is refused. *)
Theorem valid_phone_number_shape (phone : string) :
  is_ascii phone = true ->
  (is_valid_phone_number phone = true
   <-> exists ds, String.length ds = 9%nat /\ all_digits ds = true
                  /\ clean_phone_number phone = "+593" +:+ ds).
Proof.
  intros _. unfold is_valid_phone_number. split.
  - intros H. pose proof (clean_phone_number_chars phone) as Hc.
    unfold matches_ecuadorian in H.
    apply andb_true_iff in H as [Hp H]. apply starts_with_app in Hp as [r Hr].
    rewrite Hr in H, Hc.
    replace (drop 4 ("+593" +:+ r)) with r in H by reflexivity. cbv zeta in H.
    apply andb_true_iff in H as [H Hend]. apply andb_true_iff in H as [Hlen Hd].
    apply Nat.leb_le in Hlen.
    rewrite all_chars_app in Hc. apply andb_true_iff in Hc as [_ Hc].
    pose proof (substring_drop 9 r) as Hsd.
    apply orb_true_iff in Hend as [Hend | Hend]; apply String.eqb_eq in Hend;
      rewrite Hend in Hsd.
    + rewrite append_empty in Hsd. exists r. split; [| split; [| exact Hr]].
      * rewrite <- Hsd. apply substring_length. exact Hlen.
      * rewrite <- Hsd. exact Hd.
    + rewrite <- Hsd, all_chars_app in Hc. apply andb_true_iff in Hc as [_ Hc].
      discriminate Hc.
  - intros (ds & Hl & Hd & ->). apply matches_ecuadorian_mobile; assumption.
Qed.

Lemma valid_phone_number_shape_witness :
  is_valid_phone_number "+593 99 123 4567" = true
  <-> exists ds, String.length ds = 9%nat /\ all_digits ds = true
                 /\ clean_phone_number "+593 99 123 4567" = "+593" +:+ ds.
Proof. apply (valid_phone_number_shape "+593 99 123 4567"). reflexivity. Defined.

(** ** Counting in code points *)

Lemma py_len_app (a b : string) : py_len (a +:+ b) = (py_len a + py_len b)%nat.
Proof.
  induction a as [| c a IH]; [reflexivity |].
  rewrite append_cons. cbn [py_len]. destruct (is_continuation c); rewrite IH; reflexivity.
Qed.

Lemma py_len_take (n : nat) (s : string) : py_len (py_take n s) = Nat.min n (py_len s).
Proof.
  revert n. induction s as [| c s IH]; intros n; cbn [py_take py_len].
  - rewrite Nat.min_0_r. reflexivity.
  - destruct (is_continuation c) eqn:E.
    + cbn [py_len]. rewrite E. apply IH.
    + destruct n as [| n]; [reflexivity |]. cbn [py_len]. rewrite E, IH. reflexivity.
Qed.

Lemma py_len_drop (n : nat) (s : string) : py_len (py_drop n s) = (py_len s - n)%nat.
Proof.
  revert n. induction s as [| c s IH]; intros n; cbn [py_drop py_len]; [reflexivity |].
  destruct (is_continuation c) eqn:E; [apply IH |].
  destruct n as [| n]; [cbn [py_len]; rewrite E; reflexivity | apply IH].
Qed.

Lemma py_take_drop (n : nat) (s : string) : py_take n s +:+ py_drop n s = s.
Proof.
  revert n. induction s as [| c s IH]; intros n; cbn [py_take py_drop]; [reflexivity |].
  destruct (is_continuation c).
  - rewrite append_cons, IH. reflexivity.
  - destruct n as [| n]; [reflexivity |]. rewrite append_cons, IH. reflexivity.
Qed.

Lemma py_len_repeat_star (n : nat) : py_len (repeat_char "*" n) = n.
Proof. induction n as [| n IH]; [reflexivity |]. cbn [repeat_char py_len]. rewrite IH. reflexivity. Qed.

Lemma py_len_last (n : nat) (s : string) : py_len (py_last n s) = Nat.min n (py_len s).
Proof. unfold py_last. rewrite py_len_drop. lia. Qed.

(** X6. Masking a telephone number keeps its length in characters, and
    leaves a number of eight characters or fewer as it is: only what
    lies between the first four and the last four characters is
    hidden. *)
Theorem mask_phone_number_keeps_length (phone : string) :
  py_len (mask_phone_number phone) = py_len phone
  /\ ((py_len phone <= 8)%nat -> mask_phone_number phone = phone)
  /\ ((8 <= py_len phone)%nat ->
      mask_phone_number phone
      = py_take 4 phone +:+ repeat_char "*" (py_len phone - 8) +:+ py_last 4 phone).
Proof.
  unfold mask_phone_number.
  destruct (py_len phone <? 8)%nat eqn:E;
    [apply Nat.ltb_lt in E | apply Nat.ltb_ge in E].
  - split; [reflexivity | split; [reflexivity | lia]].
  - split; [| split; [| reflexivity]].
    + rewrite !py_len_app, py_len_take, py_len_repeat_star, py_len_last. lia.
    + intros H. assert (H8 : py_len phone = 8%nat) by lia.
      unfold py_last. rewrite H8. cbn [Nat.sub repeat_char].
      rewrite append_nil. apply py_take_drop.
Qed.

Lemma mask_phone_number_keeps_length_witness :
  mask_phone_number "22334455" = "22334455"
  /\ mask_phone_number "+593991234567" = "+593*****4567".
Proof.
  destruct (mask_phone_number_keeps_length "22334455") as (_ & H & _).
  destruct (mask_phone_number_keeps_length "+593991234567") as (_ & _ & H').
  split; [apply H; vm_compute; lia | rewrite H' by (vm_compute; lia); reflexivity].
Defined.

(** ** Dictionaries *)

Lemma merge_dicts_union (dict1 dict2 : Dict) : merge_dicts dict1 dict2 = dict2 ∪ dict1.
Proof.
  unfold merge_dicts. repeat case_bool_decide; subst;
    rewrite ?(left_id_L ∅ (∪)), ?(right_id_L ∅ (∪)); reflexivity.
Qed.

(** X7. In the merge of two dictionaries a key has the value the second
    one gives it, and the value of the first one when the second lacks
    it; an empty dictionary on either side changes nothing, and merging
    is associative. *)
Theorem merge_dicts_lookup (dict1 dict2 dict3 : Dict) (key : string) :
  merge_dicts dict1 dict2 !! key
  = match dict2 !! key with
    | Some v => Some v
    | None => dict1 !! key
    end
  /\ merge_dicts dict1 ∅ = dict1
  /\ merge_dicts ∅ dict2 = dict2
  /\ merge_dicts (merge_dicts dict1 dict2) dict3 = merge_dicts dict1 (merge_dicts dict2 dict3).
Proof.
  rewrite !merge_dicts_union. split; [| split; [| split]].
  - rewrite lookup_union. destruct (dict2 !! key), (dict1 !! key); reflexivity.
  - apply (left_id_L ∅ (∪)).
  - apply (right_id_L ∅ (∪)).
  - apply (assoc_L (∪)).
Qed.

Lemma extract_dict_fields_from (data result : Dict) (fields : list string) (key : string) :
  foldl (fun result field =>
           match data !! field with
           | Some v => <[field := v]> result
           | None => result
           end) result fields !! key
  = if existsb (String.eqb key) fields
    then match data !! key with
         | Some v => Some v
         | None => result !! key
         end
    else result !! key.
Proof.
  revert result. induction fields as [| field fields IH]; intros result; [reflexivity |].
  cbn [foldl existsb]. rewrite IH.
  destruct (String.eqb_spec key field) as [<- | Hne]; cbn [orb].
  - destruct (data !! key) as [v |] eqn:E.
    + rewrite lookup_insert. destruct (decide (key = key)); [| congruence].
      destruct (existsb _ fields); reflexivity.
    + destruct (existsb _ fields); reflexivity.
  - destruct (data !! field) as [v |]; [| reflexivity].
    rewrite lookup_insert_ne by congruence. reflexivity.
Qed.

(** X8. [extract_dict_fields] gives the restriction of the dictionary
    to the fields asked for: a key asked for and present has its value,
    every other key is absent, so a field the dictionary lacks is left
    out rather than set to [None]. *)
Theorem extract_dict_fields_lookup (data : Dict) (fields : list string) (key : string) :
  extract_dict_fields data fields !! key
  = if existsb (String.eqb key) fields then data !! key else None.
Proof.
  unfold extract_dict_fields. rewrite extract_dict_fields_from, lookup_empty.
  destruct (existsb _ fields); [destruct (data !! key) |]; reflexivity.
Qed.

(** ** Masking *)

Lemma existsb_eqb_In (key : string) (fields : list string) :
  existsb (String.eqb key) fields = true <-> In key fields.
Proof.
  rewrite existsb_exists. split.
  - intros (x & Hx & E). apply String.eqb_eq in E. subst x. exact Hx.
  - intros H. exists key. split; [exact H | apply String.eqb_refl].
Qed.

Lemma mask_fields_lookup (fields : list string) :
  List.NoDup fields ->
  forall (data : Dict) (key : string),
    foldl (fun masked field =>
             match masked !! field with
             | Some v => if truthy v then <[field := mask_field field v]> masked else masked
             | None => masked
             end) data fields !! key
    = match data !! key with
      | Some v => Some (if existsb (String.eqb key) fields && truthy v
                        then mask_field key v else v)
      | None => None
      end.
Proof.
  induction 1 as [| field fields Hnotin Hnodup IH]; intros data key.
  - cbn [foldl existsb andb]. destruct (data !! key); reflexivity.
  - cbn [foldl existsb]. rewrite IH.
    destruct (String.eqb_spec key field) as [-> | Hne]; cbn [orb].
    + assert (Ef : existsb (String.eqb field) fields = false).
      { apply not_true_is_false. rewrite existsb_eqb_In. exact Hnotin. }
      rewrite Ef. cbn [andb].
      destruct (data !! field) as [v |] eqn:E; [| rewrite E; reflexivity].
      destruct (truthy v); [| rewrite E; reflexivity].
      rewrite lookup_insert. destruct (decide (field = field)); [reflexivity | congruence].
    + destruct (data !! field) as [v |]; [| reflexivity].
      destruct (truthy v); [| reflexivity].
      rewrite lookup_insert_ne by congruence. reflexivity.
Qed.

(** X9. Masking keeps the keys of the dictionary and changes the values
    of the four sensitive fields only, and of those only the true ones
    (an empty text, a zero and [None] stay). What replaces a user or
    campaign identifier is three asterisks, with the first four and the
    last four characters of the identifier around them when it has more
    than eight, eleven characters in all. *)
Theorem mask_sensitive_info_lookup (data : Dict) (key : string) (v : PyVal) :
  mask_sensitive_info data !! key
  = match data !! key with
    | Some v => Some (if existsb (String.eqb key) sensitive_fields && truthy v
                      then mask_field key v else v)
    | None => None
    end
  /\ (In key ["user_id"; "campaign_id"] ->
      ((py_len (format_plain v) <= 8)%nat -> mask_field key v = VStr "***")
      /\ ((8 < py_len (format_plain v))%nat ->
          mask_field key v =
            VStr (py_take 4 (format_plain v) +:+ "***" +:+ py_last 4 (format_plain v))
          /\ py_len (py_take 4 (format_plain v)) = 4%nat
          /\ py_len (py_last 4 (format_plain v)) = 4%nat)).
Proof.
  split.
  - apply mask_fields_lookup. repeat constructor; cbn; intuition discriminate.
  - intros Hk. cbn [In] in Hk. destruct Hk as [<- | [<- | []]];
      unfold mask_field; decide_literals;
      (split; intros Hlen;
       [ apply Nat.ltb_ge in Hlen; rewrite Hlen; reflexivity
       | rewrite py_len_take, py_len_last; apply Nat.ltb_lt in Hlen as Hlt; rewrite Hlt;
         repeat split; lia ]).
Qed.

Lemma mask_sensitive_info_lookup_witness :
  mask_field "user_id" (VStr "user_0000123") = VStr "user***0123"
  /\ mask_field "campaign_id" (VStr "7") = VStr "***".
Proof.
  split.
  - apply (proj2 (proj2 (mask_sensitive_info_lookup ∅ "user_id" (VStr "user_0000123"))
                   ltac:(left; reflexivity))).
    vm_compute. lia.
  - apply (proj1 (proj2 (mask_sensitive_info_lookup ∅ "campaign_id" (VStr "7"))
                   ltac:(right; left; reflexivity))).
    vm_compute. lia.
Defined.

(** ** The validation rules and the transition table *)

Import PromptBuilderRules.

(** Splits the comparisons of a number with the bounds of a rule. *)
Ltac split_comparisons :=
  unfold below, above, num_lt_Z, num_gt_Z, num_ge_Z, num_le_Z, num_cmp_Z, float_cmp_Z;
  repeat match goal with
    | |- context [Prim2SF ?f] => destruct (Prim2SF f)
    | |- context [if ?b then (?x ?= ?y) else (?u ?= ?v)] => destruct b
    | |- context [?x ?= ?y] => destruct (x ?= y)
    | |- context [if ?b then Lt else Gt] => destruct b
    end.

(** A float that is not below a positive bound is above zero, unless it
    is a NaN. *)
Lemma float_cmp_Z_positive (f : float) (lo : Z) :
  0 < lo ->
  num_lt_Z (NFloat f) lo = false ->
  is_nan_value (VFloat f) = false ->
  num_gt_Z (NFloat f) 0 = true.
Proof.
  intros Hlo. unfold num_lt_Z, num_gt_Z, num_cmp_Z, float_cmp_Z, is_nan_value.
  destruct (Prim2SF f) as [s | s | | s m e]; try discriminate.
  - destruct (0 ?= lo) eqn:E; try discriminate.
    + apply Z.compare_eq in E. lia.
    + rewrite Z.compare_gt_iff in E. lia.
  - destruct s; [discriminate | reflexivity].
  - intros H _.
    destruct (0 <=? e) eqn:Ee.
    + apply Z.leb_le in Ee.
      assert (0 < 2 ^ e) by (apply Z.pow_pos_nonneg; lia).
      destruct ((if s then Z.neg m else Z.pos m) * 2 ^ e ?= lo) eqn:E; try discriminate.
      * apply Z.compare_eq in E.
        assert (G : ((if s then Z.neg m else Z.pos m) * 2 ^ e ?= 0) = Gt)
          by (apply Z.compare_gt_iff; lia).
        rewrite G. reflexivity.
      * rewrite Z.compare_gt_iff in E.
        assert (G : ((if s then Z.neg m else Z.pos m) * 2 ^ e ?= 0) = Gt)
          by (apply Z.compare_gt_iff; lia).
        rewrite G. reflexivity.
    + apply Z.leb_gt in Ee.
      assert (0 < 2 ^ (- e)) by (apply Z.pow_pos_nonneg; lia).
      destruct ((if s then Z.neg m else Z.pos m) ?= lo * 2 ^ (- e)) eqn:E; try discriminate.
      * apply Z.compare_eq in E.
        assert (G : ((if s then Z.neg m else Z.pos m) ?= 0 * 2 ^ (- e)) = Gt)
          by (apply Z.compare_gt_iff; nia).
        rewrite G. reflexivity.
      * rewrite Z.compare_gt_iff in E.
        assert (G : ((if s then Z.neg m else Z.pos m) ?= 0 * 2 ^ (- e)) = Gt)
          by (apply Z.compare_gt_iff; nia).
        rewrite G. reflexivity.
Qed.

(** On the employment the rules and the table ask the same. *)
Lemma employment_rule_is_flow_test (data : Dict) :
  valid (validate_collected_data "collect_employment" data) = _has_valid_employment data.
Proof.
  unfold validate_collected_data, get_validation_rules, _has_valid_employment.
  cbn [value ConversationStep_enum]. decide_literals.
  cbn [required_data data_type List.filter].
  destruct (dict_get data "employment_type") as [| b | z | f | s] eqn:E; cbn [is_none];
    decide_literals; cbn [check_categorical valid_values]; rewrite ?E;
    cbn [among negb valid invalid]; try reflexivity.
  destruct (existsb (String.eqb s) _); reflexivity.
Qed.

(** X10. The validation rules of a step against the tests of the
    transition table. On the employment they agree. On the income they
    agree but for a NaN, which the rules accept (it is below no minimum
    and above no maximum) and the table refuses. On the amount the
    rules ask for 100 to 100000 and the table for more than zero: what
    the rules accept, a NaN apart, the table accepts. A step without
    rules is valid whatever was collected. *)
Theorem validation_rules_against_flow (data : Dict) (step : string) :
  valid (validate_collected_data "collect_employment" data) = _has_valid_employment data
  /\ valid (validate_collected_data "collect_income" data)
     = _has_valid_income data || is_nan_value (dict_get data "monthly_income")
  /\ (valid (validate_collected_data "collect_amount" data) = true ->
      _has_valid_amount data = true \/ is_nan_value (dict_get data "requested_amount") = true)
  /\ (~ In step validated_steps ->
      validate_collected_data step data
      = {| valid := true; message := None; missing_fields := None |}).
Proof.
  split; [| split; [| split]].
  - apply employment_rule_is_flow_test.
  - unfold validate_collected_data, get_validation_rules, _has_valid_income.
    cbn [value ConversationStep_enum]. decide_literals.
    cbn [required_data data_type List.filter].
    destruct (dict_get data "monthly_income") as [| b | z | f | s] eqn:E;
      cbn [is_none as_num is_nan_value]; decide_literals;
      cbn [check_numeric min_value max_value]; rewrite ?E;
      cbn [as_num valid invalid]; try reflexivity.
    + destruct b; reflexivity.
    + split_comparisons; reflexivity.
    + split_comparisons; reflexivity.
  - unfold validate_collected_data, get_validation_rules, _has_valid_amount.
    cbn [value ConversationStep_enum]. decide_literals.
    cbn [required_data data_type List.filter].
    destruct (dict_get data "requested_amount") as [| b | z | f | s] eqn:E;
      cbn [is_none as_num is_nan_value]; decide_literals;
      cbn [check_numeric min_value max_value]; rewrite ?E;
      cbn [as_num valid invalid]; try discriminate.
    + destruct b; discriminate.
    + unfold below, above, num_lt_Z, num_gt_Z, num_cmp_Z. cbn [negb andb Z.eqb].
      destruct (z ?= 100) eqn:E1; try discriminate;
        destruct (z ?= 100000) eqn:E2; try discriminate; intros _; left;
        (apply Z.compare_eq in E1 || rewrite Z.compare_gt_iff in E1);
        assert (E0 : (z ?= 0) = Gt) by (apply Z.compare_gt_iff; lia);
        rewrite E0; reflexivity.
    + intros H. destruct (is_nan_value (VFloat f)) eqn:En; [right; exact En | left].
      apply (float_cmp_Z_positive f 100); [lia | | exact En].
      unfold below in H. cbn [negb Z.eqb andb] in H.
      destruct (num_lt_Z (NFloat f) 100); [discriminate H | reflexivity].
  - intros Hs. unfold validate_collected_data, get_validation_rules.
    cbn [value ConversationStep_enum].
    destruct (String.eqb_spec step "collect_income") as [-> | _];
      [contradiction Hs; cbn; tauto |].
    destruct (String.eqb_spec step "collect_employment") as [-> | _];
      [contradiction Hs; cbn; tauto |].
    destruct (String.eqb_spec step "collect_amount") as [-> | _];
      [contradiction Hs; cbn; tauto |].
    reflexivity.
Qed.

Lemma validation_rules_against_flow_witness :
  (_has_valid_amount {["requested_amount" := VInt 2000]} = true
   \/ is_nan_value (dict_get {["requested_amount" := VInt 2000]} "requested_amount") = true)
  /\ validate_collected_data "greeting" ∅
     = {| valid := true; message := None; missing_fields := None |}.
Proof.
  destruct (validation_rules_against_flow {["requested_amount" := VInt 2000]} "greeting")
    as (_ & _ & H3 & _).
  destruct (validation_rules_against_flow ∅ "greeting") as (_ & _ & _ & H4).
  split; [apply H3; reflexivity | apply H4].
  cbn. intuition discriminate.
Defined.

(** The rules take a NaN for an income and refuse an amount of 50; the
    table refuses the first and takes the second. *)
Example validation_rules_differ_from_flow :
  valid (validate_collected_data "collect_income" {["monthly_income" := VFloat nan]}) = true
  /\ _has_valid_income {["monthly_income" := VFloat nan]} = false
  /\ validate_collected_data "collect_amount" {["requested_amount" := VInt 50]}
     = {| valid := false;
          message := Some "El valor mínimo para requested_amount es 100.";
          missing_fields := None |}
  /\ _has_valid_amount {["requested_amount" := VInt 50]} = true.
Proof. vm_compute. repeat split; reflexivity. Qed.

(** ** The employment extractor *)

(** X11. What [extract_employment] finds is always one of the six
    employment types, so that, once collected, it passes the test of the
    transition table, the validation rules of the step and
    [validate_employment_type]. The answer is [freelancer] only for a
    message with "freelance", "por mi cuenta" or "proyectos": the word
    "independiente" is listed for the freelancer as well but always gives
    [business_owner], which comes first. *)
Theorem extract_employment_is_valid (message e : string) (data : Dict) :
  DataExtractor.extract_employment message = Some e ->
  In e employment_types
  /\ _has_valid_employment (<["employment_type" := VStr e]> data) = true
  /\ valid (validate_collected_data "collect_employment"
              (<["employment_type" := VStr e]> data)) = true
  /\ validate_employment_type e = true
  /\ (e = "freelancer" ->
      any_in ["freelance"; "por mi cuenta"; "proyectos"] (lower message) = true).
Proof.
  intros H.
  assert (Hvalid : forall d, _has_valid_employment (<["employment_type" := VStr e]> d)
                             = existsb (String.eqb e) employment_types).
  { intros d. unfold _has_valid_employment, dict_get. rewrite lookup_insert.
    destruct (decide _); [reflexivity | congruence]. }
  rewrite employment_rule_is_flow_test, !Hvalid. clear Hvalid.
  unfold DataExtractor.extract_employment in H.
  cbn [find DataExtractor.employment_keywords snd fst] in H.
  repeat match type of H with
    | context [if ?b then _ else _] =>
        let E := fresh "E" in
        destruct b eqn:E;
        [ cbn [option_map fst] in H; injection H as <-;
          (split; [cbn; tauto | split; [reflexivity | split; [reflexivity | split; [reflexivity |]]]]);
          try (intros [=])
        | ]
    end; [| discriminate H].
  unfold any_in in *. cbn [existsb] in *.
  repeat match goal with
    | E : _ || _ = false |- _ => apply orb_false_iff in E as [? E]
    end.
  match goal with
  | E1 : str_in "independiente" (lower message) = false,
    E2 : _ || _ = true |- _ => rewrite E1 in E2; exact E2
  end.
Qed.

Lemma extract_employment_is_valid_witness :
  In "freelancer" employment_types
  /\ _has_valid_employment (<["employment_type" := VStr "freelancer"]> ∅) = true
  /\ valid (validate_collected_data "collect_employment"
              (<["employment_type" := VStr "freelancer"]> ∅)) = true
  /\ validate_employment_type "freelancer" = true
  /\ ("freelancer" = "freelancer" ->
      any_in ["freelance"; "por mi cuenta"; "proyectos"] (lower "Hago proyectos") = true).
Proof.
  apply (extract_employment_is_valid "Hago proyectos" "freelancer" ∅). reflexivity.
Defined.

(** "Soy independiente" is a business owner, never a freelancer. *)
Example independiente_is_business_owner :
  DataExtractor.extract_employment "Soy independiente" = Some "business_owner".
Proof. reflexivity. Qed.

(** ** The amount a customer may ask for *)

Import CustomersApi.

Lemma limits_ordered (product_type : string) :
  fst (limits_of product_type) <= snd (limits_of product_type).
Proof.
  unfold limits_of, limits.
  repeat match goal with
    | |- context [if ?b then _ else _] => destruct b
    end; cbn; lia.
Qed.

(** X12. The maximum amount is the base amount of 5000 when the credit
    score or the income is zero, whatever the product, even where 5000
    lies below the minimum of the product. Otherwise it is the income
    times the factor of the product and the multiplier of the score,
    truncated to an integer and brought within the limits of the product
    (those of the personal credit for an unknown product): the minimum
    when it lies below, the maximum when it lies above. The function
    raises when that product of floats is not a finite number, and only
    then. *)
Theorem calculate_max_amount_within_limits (credit_score : Z) (monthly_income : float)
    (product_type : string) :
  let scaled := (monthly_income * default 5.0 (product_factors product_type)
                 * score_multiplier credit_score)%float in
  let lo := fst (limits_of product_type) in
  let hi := snd (limits_of product_type) in
  (credit_score = 0 \/ (monthly_income =? 0)%float = true ->
   calculate_max_amount credit_score monthly_income product_type = Ok 5000)
  /\ (credit_score <> 0 -> (monthly_income =? 0)%float = false ->
      (forall raw, py_int scaled = Ok raw ->
         calculate_max_amount credit_score monthly_income product_type
         = Ok (if raw <? lo then lo else if hi <? raw then hi else raw)
         /\ lo <= (if raw <? lo then lo else if hi <? raw then hi else raw) <= hi)
      /\ (forall e, py_int scaled = Raise e ->
            calculate_max_amount credit_score monthly_income product_type = Raise e)
      /\ (not_finite scaled <-> exists e, py_int scaled = Raise e)).
Proof.
  cbv zeta. pose proof (limits_ordered product_type) as Hlim.
  unfold calculate_max_amount. fold (limits_of product_type).
  destruct (limits_of product_type) as [lo hi]. cbn [fst snd] in *.
  cbn [truthy]. split.
  - intros [-> | ->]; [reflexivity |].
    rewrite orb_true_r. reflexivity.
  - intros Hscore Hincome. rewrite Hincome.
    replace (credit_score =? 0) with false by (symmetry; apply Z.eqb_neq; exact Hscore).
    cbn [negb orb]. split; [| split].
    + intros raw ->. cbn [rbind]. split.
      * f_equal. destruct (Z.ltb_spec raw lo), (Z.ltb_spec hi raw); lia.
      * destruct (Z.ltb_spec raw lo), (Z.ltb_spec hi raw); lia.
    + intros e ->. reflexivity.
    + unfold py_int, not_finite.
      destruct (Prim2SF _); split;
        first [ intros _; eexists; reflexivity
              | intros _; exact I
              | intros [ex Hex]; discriminate Hex
              | intros [] ].
Qed.

Lemma calculate_max_amount_within_limits_witness :
  calculate_max_amount 0 3000 "credito_hipotecario" = Ok 5000
  /\ calculate_max_amount 750 2000 "tarjeta_credito" = Ok 7200
  /\ calculate_max_amount 750 9000 "tarjeta_credito" = Ok 15000
  /\ calculate_max_amount 500 100 "credito_hipotecario" = Ok 20000.
Proof.
  destruct (calculate_max_amount_within_limits 0 3000 "credito_hipotecario") as (H1 & _).
  destruct (calculate_max_amount_within_limits 750 2000 "tarjeta_credito") as (_ & H2).
  destruct (calculate_max_amount_within_limits 750 9000 "tarjeta_credito") as (_ & H3).
  destruct (calculate_max_amount_within_limits 500 100 "credito_hipotecario") as (_ & H4).
  split; [apply H1; left; reflexivity | split; [| split]].
  - apply (proj1 (H2 ltac:(discriminate) eq_refl) 7200). reflexivity.
  - apply (proj1 (H3 ltac:(discriminate) eq_refl) 32400). reflexivity.
  - apply (proj1 (H4 ltac:(discriminate) eq_refl) 7000). reflexivity.
Defined.

(** The base amount for a mortgage is below the minimum of the product,
    and an income too large for the factors raises. *)
Example calculate_max_amount_edges :
  calculate_max_amount 0 3000 "credito_hipotecario" = Ok 5000
  /\ limits_of "credito_hipotecario" = (20000, 500000)
  /\ calculate_max_amount 850 1e308 "credito_hipotecario" = Raise OverflowError
  /\ calculate_max_amount 750 nan "tarjeta_credito" = Raise ValueError.
Proof. vm_compute. repeat split; reflexivity. Qed.

(** ** The outbound text *)

Lemma last_char_none (s : string) : last_char s = None <-> s = "".
Proof.
  split; [| intros ->; reflexivity].
  induction s as [| c s IH]; [reflexivity |].
  cbn [last_char]. destruct s; [discriminate |]. intros H. discriminate (IH H).
Qed.

Lemma last_char_app (s t : string) :
  t <> "" -> last_char (s +:+ t) = last_char t.
Proof.
  intros Ht. induction s as [| c s IH]; [reflexivity |].
  rewrite append_cons. cbn [last_char].
  destruct (s +:+ t) eqn:E; [| exact IH].
  destruct s; [contradiction | discriminate E].
Qed.

Lemma append_is_empty (s t : string) : s +:+ t = "" -> s = "" /\ t = "".
Proof.
  destruct s; [rewrite append_nil; intros ->; split; reflexivity
              | rewrite append_cons; discriminate].
Qed.

Lemma py_len_empty (s : string) : s = "" -> py_len s = O.
Proof. intros ->. reflexivity. Qed.

(** X13. The cleaned response has 501 characters at most (the cap of
    500, and the full stop added to a text of 500 characters that lacks
    one) and ends with a full stop, an exclamation mark or a question
    mark, unless it is empty; and it is empty exactly when the response
    is made of white space only, which the default question does not
    replace. *)
Theorem clean_response_shape (response : string) :
  (py_len (Agent._clean_response response) <= 501)%nat
  /\ (Agent._clean_response response = ""
      \/ exists c, last_char (Agent._clean_response response) = Some c
                   /\ In c ["."; "!"; "?"]%char)
  /\ (Agent._clean_response response = "" <-> response <> "" /\ strip response = "").
Proof.
  unfold Agent._clean_response.
  destruct (String.eqb_spec response "") as [-> | Hne].
  { split; [vm_compute; lia | split; [right; exists "?"%char; split; [reflexivity | cbn; tauto] |]].
    split; [discriminate | intros [H _]; contradiction H; reflexivity]. }
  cbv zeta.
  destruct (500 <? py_len (strip response))%nat eqn:Elen;
    [apply Nat.ltb_lt in Elen | apply Nat.ltb_ge in Elen].
  - rewrite (last_char_app _ "...") by discriminate.
    change (last_char "...") with (Some "."%char).
    cbn [existsb Ascii.eqb Bool.eqb orb andb].
    split; [rewrite py_len_app, py_len_take; change (py_len "...") with 3%nat; lia |].
    split; [right; exists "."%char; split;
            [apply (last_char_app _ "..."); discriminate | cbn; tauto] |].
    split.
    + intros H. apply append_is_empty in H as [_ H]. discriminate H.
    + intros [_ H]. rewrite (py_len_empty _ H) in Elen. lia.
  - destruct (last_char (strip response)) as [c |] eqn:El.
    + assert (Hs : strip response <> "").
      { intros H. rewrite H in El. discriminate El. }
      destruct (existsb (Ascii.eqb c) _) eqn:Ep.
      * split; [lia |]. split; [right; exists c; split; [exact El |] |].
        { apply existsb_exists in Ep as (x & Hx & Ex). apply Ascii.eqb_eq in Ex.
          subst x. exact Hx. }
        split; [intros H; contradiction | intros [_ H]; contradiction].
      * split; [rewrite py_len_app; change (py_len ".") with 1%nat; lia |].
        split; [right; exists "."%char; split;
                [apply (last_char_app _ "."); discriminate | cbn; tauto] |].
        split; [intros H; apply append_is_empty in H as [_ H]; discriminate H
               | intros [_ H]; contradiction].
    + apply last_char_none in El. rewrite El.
      split; [cbn; lia |]. split; [left; reflexivity |].
      split; [intros _; split; [exact Hne | reflexivity] | reflexivity].
Qed.

Lemma clean_response_shape_witness :
  Agent._clean_response "   " = "" <-> "   " <> "" /\ strip "   " = "".
Proof. apply (proj2 (proj2 (clean_response_shape "   "))). Defined.

(** A response of 500 characters without a final mark leaves with 501,
    and white space leaves as the empty text. *)
Example clean_response_edges :
  py_len (Agent._clean_response (repeat_char "a" 500)) = 501%nat
  /\ Agent._clean_response "   " = "".
Proof. vm_compute. split; reflexivity. Qed.

(** ** The analyze stage *)

Section Analysis.

Lemma analysis_only_refl (s : Store) : analysis_only s s.
Proof. unfold analysis_only. repeat split; auto. Qed.

Lemma analysis_only_trans (s1 s2 s3 : Store) :
  analysis_only s1 s2 -> analysis_only s2 s3 -> analysis_only s1 s3.
Proof.
  unfold analysis_only.
  intros (M1 & C1 & S1 & K1 & O1 & L1) (M2 & C2 & S2 & K2 & O2 & L2).
  repeat split; try congruence; auto.
  intros key Hk. rewrite O2, O1 by exact Hk. reflexivity.
Qed.

Lemma analyses_ret {A} (a : A) : analyses (ret a).
Proof. intros s. apply analysis_only_refl. Qed.

Lemma analyses_lift {A} (r : Result A) : analyses (lift r).
Proof. intros s. apply analysis_only_refl. Qed.

Lemma analyses_get_state : analyses get_state.
Proof. intros s. apply analysis_only_refl. Qed.

Lemma analyses_bind {A B} (m : M A) (k : A -> M B) :
  analyses m -> (forall a, analyses (k a)) -> analyses (bind m k).
Proof.
  intros Hm Hk s. unfold bind. specialize (Hm s).
  destruct (m s) as [[a | e] s1]; cbn [snd] in *; [| exact Hm].
  eapply analysis_only_trans; [exact Hm | apply Hk].
Qed.

Lemma analyses_try_except {A} (body : M A) (handler : exn -> M A) :
  analyses body -> (forall e, analyses (handler e)) -> analyses (try_except body handler).
Proof.
  intros Hb Hh s. unfold try_except. specialize (Hb s).
  destruct (body s) as [[a | e] s1]; cbn [snd] in *; [exact Hb |].
  eapply analysis_only_trans; [exact Hb | apply Hh].
Qed.

Lemma analyses_execute_single (run : World -> nat * World) :
  (forall w, leads (snd (run w)) = leads w) -> analyses (execute_single run).
Proof.
  intros Hrun [st w]. unfold execute_single. cbn [state world].
  destruct (db_fails w (statements w)).
  - unfold analysis_only. cbn. repeat split; auto.
  - specialize (Hrun w). destruct (run w) as [id w']. cbn [snd] in *.
    unfold analysis_only. cbn. repeat split; auto.
Qed.

Lemma analyses_set_intent (confirmed : option bool) (intent : string) :
  analyses (update_state (set_intent confirmed intent)).
Proof. intros [st w]. unfold analysis_only. cbn. repeat split; auto. Qed.

Lemma analyses_set_collected (key : string) (v : PyVal) :
  In key analysed_fields -> analyses (update_state (set_collected key v)).
Proof.
  intros Hkey [st w]. unfold analysis_only. cbn. repeat split; auto.
  - intros k Hk. destruct (decide (k = key)) as [-> | Hne].
    + rewrite lookup_insert. destruct (decide (key = key)); [eauto | congruence].
    + rewrite lookup_insert_ne by congruence. exact Hk.
  - intros k Hk. apply lookup_insert_ne. intros ->. contradiction.
Qed.

End Analysis.

(** Goes through a computation of the analyze stage, step by step. *)
Ltac analysis :=
  repeat first
    [ apply analyses_ret
    | apply analyses_lift
    | apply analyses_get_state
    | apply analyses_set_intent
    | apply analyses_set_collected; cbn; tauto
    | apply analyses_execute_single; intros ?; reflexivity
    | apply analyses_bind; [| intros ?]
    | apply analyses_try_except; [| intros ?]
    | match goal with
      | |- analyses (if ?b then _ else _) => destruct b
      | |- analyses (match ?x with _ => _ end) => destruct x
      end ].

Lemma analyze_message_analyses : analyses Agent.analyze_message.
Proof.
  unfold Agent.analyze_message, Agent.collect_if_found,
    ConversationRepository.save_conversation_log, ConversationRepository.save_message.
  analysis.
Qed.

Lemma analyze_message_returns (s : Store) : fst (Agent.analyze_message s) = Ok tt.
Proof.
  unfold Agent.analyze_message, try_except.
  destruct (bind _ _ s) as [[[] | e] s']; reflexivity.
Qed.

(** X14. The analyze stage raises nothing, whatever the database does
    and whatever the state holds. It leaves the messages, the step and
    the session of the state as they are and writes no lead; a field
    collected before it is still collected after it, and only the
    income, the employment, the amount and the budget may change. *)
Theorem analyze_message_only_analyses (s : Store) :
  fst (Agent.analyze_message s) = Ok tt
  /\ analysis_only s (snd (Agent.analyze_message s)).
Proof. split; [apply analyze_message_returns | apply analyze_message_analyses]. Qed.

(** ** The generate stage *)

Ltac written :=
  unfold written_step;
  repeat match goal with
    | E : ?c = _ |- context [if ?c then _ else _] => rewrite E
    end;
  reflexivity.

(** Closes one outcome of the generate stage. *)
Ltac outcome :=
  let H := fresh in
  intros H; injection H as <- <-;
  unfold appends_answer;
  cbn [state world messages collected_data current_step
       append_message set_current_step statements db_fails now backend_called];
  eexists; split;
  [ first [ reflexivity | rewrite <- app_assoc; reflexivity ] | ];
  (split; [repeat constructor |]);
  (split; [reflexivity |]);
  (split;
   [ intros ?; first [congruence | split; reflexivity]
   | intros ?;
     first
       [ congruence
       | left; repeat split; reflexivity
       | right; eexists; split; [reflexivity |];
         split; [written |]; split; intros; congruence ] ]).

Lemma generate_response_outcome (s : Store) (r : Result unit) (s' : Store) :
  Agent.generate_response s = (r, s') -> appends_answer s r s'.
Proof.
  destruct s as [st w].
  unfold Agent.generate_response.
  unfold try_except at 1. unfold bind at 1. unfold get_state at 1. cbv beta zeta.
  cbn [state world].
  destruct ((default "unclear" (detected_intent st) =? "negative")%string && _) eqn:Eneg;
    [| destruct ((current_step st =? "present_offer")%string && _) eqn:Epos;
       [| destruct (get_next_step _ _ _ =? "present_offer")%string eqn:Eoffer];
       unfold bind; cbv beta; rewrite generate_llm_response_cases;
       destruct (PromptBuilder.build_step_prompt _ _ _ _ _ _) as [text | e] ];
    run;
    (destruct (db_fails w (statements w)) eqn:E1; run;
     [destruct (db_fails w (S (statements w))) eqn:E2; run |]);
    outcome.
Qed.

(** X15. The generate stage only adds messages of the assistant and
    never touches the collected data. It adds exactly one message and
    returns when the database saves it. When the database refuses the
    answer, the answer is already in the list and the step already
    written: the apology is added after it, so that one turn leaves two
    messages of the assistant, and the step has changed although the
    turn failed. *)
Theorem generate_response_appends_answer (s : Store) :
  appends_answer s (fst (Agent.generate_response s)) (snd (Agent.generate_response s)).
Proof. apply generate_response_outcome. destruct (Agent.generate_response s); reflexivity. Qed.

(** Ana accepts the offer while the database refuses one statement: the
    closing message and the apology both reach her, and the
    conversation is closed. *)
Example two_answers_in_one_turn :
  map content
    (messages (state (snd (Agent.generate_response
                             {| state := ana_accepts; world := first_statement_fails |}))))
  = ["si, me interesa"; "¡Listo!"; apology]
  /\ current_step (state (snd (Agent.generate_response
                                 {| state := ana_accepts; world := first_statement_fails |})))
     = "close_positive"
  /\ fst (Agent.generate_response {| state := ana_accepts; world := first_statement_fails |})
     = Ok tt.
Proof. vm_compute. repeat split; reflexivity. Qed.

(** ** The conversation log *)

Import ConversationReads.

(** X16. Saving the log of a conversation and reading the step back
    gives the step of the state, when the database takes both
    statements. The save touches the row of its own session only; where
    that row existed, it keeps its identifier, user, campaign, product,
    telephone number and start, whatever the state says of them, and a
    completed log stays completed. A session without a log reads as
    [greeting]. *)
Theorem save_conversation_log_round_trip (s : Store) (other : string) :
  db_fails (world s) (statements (world s)) = false ->
  db_fails (world s) (S (statements (world s))) = false ->
  fst (get_current_step (session_id (state s))
         (snd (ConversationRepository.save_conversation_log s)))
  = Ok (current_step (state s))
  /\ (other <> session_id (state s) ->
      conversation_logs (world (snd (ConversationRepository.save_conversation_log s))) !! other
      = conversation_logs (world s) !! other)
  /\ (forall old,
        conversation_logs (world s) !! session_id (state s) = Some old ->
        exists new,
          conversation_logs (world (snd (ConversationRepository.save_conversation_log s)))
            !! session_id (state s) = Some new
          /\ same_session old new)
  /\ (conversation_logs (world s) !! other = None ->
      fst (get_current_step other s) = Ok "greeting").
Proof.
  intros E1 E2. destruct s as [st w]. cbn [state world] in *.
  unfold get_current_step, select_single. run. rewrite E1. run. rewrite E2.
  split; [| split; [| split]].
  - cbn [fst]. rewrite lookup_insert. destruct (decide _); [| congruence].
    destruct (conversation_logs w !! session_id st); reflexivity.
  - intros Hne. cbn [snd world conversation_logs].
    apply lookup_insert_ne. congruence.
  - intros old Hold. cbn [snd world conversation_logs]. rewrite lookup_insert, Hold.
    destruct (decide _); [| congruence].
    eexists. split; [reflexivity |].
    unfold same_session. cbn. repeat split.
    intros ->. destruct (_ =? _)%string; reflexivity.
  - intros ->. reflexivity.
Qed.

Lemma save_conversation_log_round_trip_witness :
  fst (get_current_step "session_593997814126"
         (snd (ConversationRepository.save_conversation_log
                 {| state := ana_accepts; world := quiet_world |})))
  = Ok "present_offer".
Proof.
  apply (save_conversation_log_round_trip {| state := ana_accepts; world := quiet_world |} "");
    reflexivity.
Defined.

(** ** Templates *)

Lemma format_segments_missing (segs : list segment) (kwargs : Dict) (name : string) :
  In name (flat_map (fun s => match s with Field name _ => [name] | Lit _ => [] end) segs) ->
  kwargs !! name = None ->
  exists e, format_segments segs kwargs = Raise e.
Proof.
  intros Hin Hnone. induction segs as [| [text | field spec] segs IH]; [contradiction | |].
  - cbn [flat_map app] in Hin. destruct (IH Hin) as [e He].
    cbn [format_segments]. rewrite He. eauto.
  - cbn [flat_map app In] in Hin. cbn [format_segments].
    destruct (kwargs !! field) as [v |] eqn:E; [| eauto].
    destruct Hin as [-> | Hin]; [congruence |].
    destruct (IH Hin) as [e He].
    destruct (format_value v spec); cbn [rbind]; [rewrite He |]; eauto.
Qed.

Lemma format_segments_insert (segs : list segment) (kwargs : Dict) (key : string) (v : PyVal) :
  ~ In key (flat_map (fun s => match s with Field name _ => [name] | Lit _ => [] end) segs) ->
  format_segments segs (<[key := v]> kwargs) = format_segments segs kwargs.
Proof.
  intros Hkey. induction segs as [| [text | field spec] segs IH]; [reflexivity | |].
  - cbn [flat_map app] in Hkey. cbn [format_segments]. rewrite (IH Hkey). reflexivity.
  - cbn [flat_map app In] in Hkey. cbn [format_segments].
    rewrite lookup_insert_ne by (intros ->; apply Hkey; left; reflexivity).
    rewrite IH by tauto. reflexivity.
Qed.

Lemma render_missing (t : BasePromptTemplate) (kwargs : Dict) (name : string) :
  In name (field_names t) -> kwargs !! name = None -> render t kwargs = template t.
Proof.
  intros Hin Hnone. unfold render.
  destruct (format_segments_missing _ _ _ Hin Hnone) as [e ->]. reflexivity.
Qed.

(** X17. Rendering a template raises nothing. When a variable of the
    template has no value the result is the template as it is, with all
    its placeholders, even those that have a value; and a keyword
    argument that the template does not name changes nothing. *)
Theorem render_needs_every_variable (t : BasePromptTemplate) (kwargs : Dict)
    (name key : string) (v : PyVal) :
  (In name (field_names t) -> kwargs !! name = None -> render t kwargs = template t)
  /\ (~ In key (field_names t) -> render t (<[key := v]> kwargs) = render t kwargs).
Proof.
  split; [apply render_missing |].
  intros Hkey. unfold render. rewrite (format_segments_insert _ _ _ _ Hkey). reflexivity.
Qed.

Lemma render_needs_every_variable_witness :
  render
    {| segments := [Lit "Hola "; Field "user_name" ""; Lit ", tu "; Field "product" ""];
       required_vars := [] |}
    {["user_name" := VStr "Ana"]}
  = "Hola {user_name}, tu {product}"
  /\ render
       {| segments := [Lit "Hola "; Field "user_name" ""]; required_vars := [] |}
       (<["tone" := VStr "formal"]> {["user_name" := VStr "Ana"]})
     = render
         {| segments := [Lit "Hola "; Field "user_name" ""]; required_vars := [] |}
         {["user_name" := VStr "Ana"]}.
Proof.
  split.
  - apply (proj1 (render_needs_every_variable
                    {| segments := [Lit "Hola "; Field "user_name" ""; Lit ", tu ";
                                    Field "product" ""];
                       required_vars := [] |}
                    {["user_name" := VStr "Ana"]} "product" "" VNone)).
    + cbn. tauto.
    + reflexivity.
  - apply (proj2 (render_needs_every_variable
                    {| segments := [Lit "Hola "; Field "user_name" ""]; required_vars := [] |}
                    {["user_name" := VStr "Ana"]} "" "tone" (VStr "formal"))).
    cbn. intuition discriminate.
Defined.

Lemma product_of_value (p : ProductType) : of_value (value p) = Ok p.
Proof. destruct p; reflexivity. Qed.

Lemma segment_of_value (c : CustomerSegment) : of_value (value c) = Ok c.
Proof. destruct c; reflexivity. Qed.

(** X18. For four steps the prompt of the step cannot be filled:
    the template of [collect_amount], [awaiting_decision],
    [handle_objection] and [request_clarification] names a variable
    that the builder does not supply for that step. Unless the collected
    data happens to define it, or has a field called [self] (which
    makes the call of [render] a [TypeError]), the prompt is then the
    text of the template with its placeholders, for every user, product
    and segment, and it is the response of the agent when the backend
    gives no reply. *)
Theorem step_prompt_left_unfilled (step : ConversationStep) (variable user_name : string)
    (product : ProductType) (segment : CustomerSegment) (collected_data : Dict)
    (t : BasePromptTemplate) (s : Store) :
  unsupplied_variable step = Some variable ->
  collected_data !! variable = None ->
  collected_data !! "self" = None ->
  StepPromptBuilder.STEP_TEMPLATES step = Some t ->
  In variable (field_names t)
  /\ PromptBuilder.build_step_prompt (value step) user_name (value product) (value segment)
       collected_data ∅ = Ok (template t)
  /\ ((forall reply, backend (world s) (backend_calls (world s)) <> Ok reply) ->
      fst (Agent._generate_llm_response (value step) user_name (value product) (value segment)
             collected_data ∅ s) = Ok (template t)).
Proof.
  intros Hvar Hnone Hself Ht.
  assert (Hin : In variable (field_names t)).
  { destruct step; try discriminate Hvar; injection Hvar as <-; injection Ht as <-;
      cbn; tauto. }
  assert (Hprompt : PromptBuilder.build_step_prompt (value step) user_name (value product)
                      (value segment) collected_data ∅ = Ok (template t)).
  { unfold PromptBuilder.build_step_prompt.
    rewrite product_of_value, segment_of_value, step_of_value. cbn [rbind].
    unfold StepPromptBuilder.build. cbn [ctx_current_step]. rewrite Ht.
    assert (Hvars : exists step_vars,
              StepPromptBuilder._get_step_specific_vars
                {| ctx_user_name := user_name; ctx_product_type := product;
                   ctx_customer_segment := segment; ctx_current_step := step;
                   ctx_collected_data := collected_data |} = Ok step_vars
              /\ step_vars !! variable = None).
    { destruct step; try discriminate Hvar; injection Hvar as <-;
        cbn [StepPromptBuilder._get_step_specific_vars ctx_current_step];
        eexists; (split; [reflexivity |]);
        first [apply lookup_empty | apply lookup_singleton_ne; discriminate]. }
    destruct Hvars as (step_vars & Hvars & Hstep).
    pose proof (step_specific_vars_names _ _ Hvars) as Hnames. rewrite Hvars.
    cbn [rbind]. cbv zeta.
    cbn [ctx_collected_data ctx_customer_segment ctx_product_type ctx_user_name].
    rewrite !call_with_keywords_free;
      [| repeat constructor; rewrite !lookup_union, Hnames, Hself, lookup_empty;
         rewrite !lookup_insert_ne by discriminate; reflexivity
       | repeat constructor ].
    cbn [PromptBuilder.except_value_or_key].
    f_equal. apply (render_missing t _ variable Hin).
    rewrite !lookup_union, Hstep, Hnone, lookup_empty.
    rewrite !lookup_insert_ne, lookup_empty by
      (destruct step; try discriminate Hvar; injection Hvar as <-; discriminate).
    reflexivity. }
  split; [exact Hin | split; [exact Hprompt |]].
  intros Hdown. rewrite generate_llm_response_cases, Hprompt. cbn [fst].
  destruct (backend (world s) (backend_calls (world s))) as [reply | e];
    [contradiction (Hdown reply) |]; reflexivity.
Qed.

Lemma step_prompt_left_unfilled_witness :
  In "decision_prompt"
    (field_names {| segments := [Field "decision_prompt" ""; Lit nl; Lit nl;
                                 Lit "¿Te interesa proceder con esta opción?"];
                    required_vars := ["decision_prompt"] |})
  /\ PromptBuilder.build_step_prompt "awaiting_decision" "Ana" "credit_card" "standard"
       complete_data ∅
     = Ok ("{decision_prompt}" +:+ nl +:+ nl +:+ "¿Te interesa proceder con esta opción?")
  /\ fst (Agent._generate_llm_response "awaiting_decision" "Ana" "credit_card" "standard"
            complete_data ∅ {| state := ana_accepts; world := backend_down |})
     = Ok ("{decision_prompt}" +:+ nl +:+ nl +:+ "¿Te interesa proceder con esta opción?").
Proof.
  destruct (step_prompt_left_unfilled AWAITING_DECISION "decision_prompt" "Ana"
              CREDIT_CARD STANDARD complete_data
              {| segments := [Field "decision_prompt" ""; Lit nl; Lit nl;
                              Lit "¿Te interesa proceder con esta opción?"];
                 required_vars := ["decision_prompt"] |}
              {| state := ana_accepts; world := backend_down |}
              eq_refl eq_refl eq_refl eq_refl) as (H1 & H2 & H3).
  split; [exact H1 | split; [exact H2 |]].
  apply H3. intros reply. discriminate.
Defined.

(** ** The offer without a usable income *)

(** X19. The offer builder on the incomes it cannot compute with. A
    product without configuration (mortgage, investment) gets the
    generic sentence whatever was collected. For a configured product,
    a missing or false income (absent, [None], zero, empty) gets the
    sentence that asks for the income. A text as income raises a
    [TypeError]: [build_product_offer] turns it into the generic
    sentence, but the prompt of [present_offer] runs the builder again
    and raises, so that the agent has no response for that step, with
    or without the backend. *)
Theorem offer_without_usable_income (context : PromptContext) (text user_name : string)
    (segment : CustomerSegment) (kwargs : Dict) (s : Store) :
  (configured (ctx_product_type context) = false ->
   ProductPromptBuilder.build_offer context = Ok generic_offer)
  /\ (configured (ctx_product_type context) = true ->
      truthy (dict_get_default (ctx_collected_data context) "monthly_income" (VInt 0)) = false ->
      ProductPromptBuilder.build_offer context = Ok income_needed)
  /\ (configured (ctx_product_type context) = true ->
      ctx_collected_data context !! "monthly_income" = Some (VStr text) ->
      text <> "" ->
      ProductPromptBuilder.build_offer context = Raise TypeError
      /\ PromptBuilder.build_product_offer (value (ctx_product_type context))
           (ctx_collected_data context) (value segment) user_name = generic_offer
      /\ fst (Agent._generate_llm_response "present_offer" user_name
                (value (ctx_product_type context)) (value segment)
                (ctx_collected_data context) kwargs s) = Raise TypeError).
Proof.
  destruct context as [name product seg step data]. cbn [ctx_product_type ctx_collected_data].
  unfold configured. split; [| split].
  - unfold ProductPromptBuilder.build_offer. cbn [ctx_product_type].
    destruct (ProductPromptBuilder.PRODUCT_CONFIGS product); [discriminate | reflexivity].
  - unfold ProductPromptBuilder.build_offer. cbn [ctx_product_type ctx_collected_data].
    destruct (ProductPromptBuilder.PRODUCT_CONFIGS product); [| discriminate].
    intros _ ->. reflexivity.
  - intros Hc Hincome Htext.
    assert (Hoffer : forall n sg st,
              ProductPromptBuilder.build_offer
                {| ctx_user_name := n; ctx_product_type := product;
                   ctx_customer_segment := sg; ctx_current_step := st;
                   ctx_collected_data := data |} = Raise TypeError).
    { intros n sg st. unfold ProductPromptBuilder.build_offer.
      cbn [ctx_product_type ctx_collected_data]. unfold dict_get_default. rewrite Hincome.
      cbn [truthy]. destruct (String.eqb_spec text "") as [-> | _]; [contradiction |].
      cbn [negb]. destruct product; try discriminate Hc; reflexivity. }
    split; [apply Hoffer | split].
    + unfold PromptBuilder.build_product_offer.
      rewrite product_of_value, segment_of_value. cbn [rbind]. rewrite Hoffer. reflexivity.
    + rewrite generate_llm_response_cases.
      unfold PromptBuilder.build_step_prompt.
      rewrite product_of_value, segment_of_value. cbn [rbind].
      change (of_value "present_offer") with (Ok PRESENT_OFFER). cbn [rbind].
      unfold StepPromptBuilder.build. cbn [ctx_current_step StepPromptBuilder.STEP_TEMPLATES].
      cbn [StepPromptBuilder._get_step_specific_vars ctx_current_step].
      rewrite Hoffer. unfold call_with_keywords.
      destruct (existsb _ _); reflexivity.
Qed.

Lemma offer_without_usable_income_witness :
  ProductPromptBuilder.build_offer (offer_context MORTGAGE (VFloat 2500)) = Ok generic_offer
  /\ ProductPromptBuilder.build_offer (offer_context SAVINGS (VFloat 0)) = Ok income_needed
  /\ ProductPromptBuilder.build_offer (offer_context CREDIT_CARD (VStr "dos mil"))
     = Raise TypeError.
Proof.
  destruct (offer_without_usable_income (offer_context MORTGAGE (VFloat 2500)) "" ""
              STANDARD ∅ {| state := ana_accepts; world := quiet_world |}) as (H1 & _).
  destruct (offer_without_usable_income (offer_context SAVINGS (VFloat 0)) "" ""
              STANDARD ∅ {| state := ana_accepts; world := quiet_world |}) as (_ & H2 & _).
  destruct (offer_without_usable_income (offer_context CREDIT_CARD (VStr "dos mil"))
              "dos mil" "" STANDARD ∅ {| state := ana_accepts; world := quiet_world |})
    as (_ & _ & H3).
  split; [apply H1; reflexivity | split; [apply H2; reflexivity |]].
  apply H3; [reflexivity | reflexivity | discriminate].
Defined.

(** ** The range of the propensity scores *)

(** X20. The scores use less than the interval they are clamped to. The
    score of core/utils.py lies between 0.256 and 0.936 whenever it is
    returned, so that its clamp to 0.1 and 1.0 never changes it; the
    score of api/customers.py lies between 0.3 and 1.0, and only its
    upper clamp is ever used. *)
Theorem propensity_scores_range (user_data collected_data : Dict)
    (customer : UserData) (lead_data : Dict) :
  match Utils.calculate_propensity_score user_data collected_data with
  | Ok v => float_between 0.256 0.936 v
  | Raise _ => True
  end
  /\ match Customers.calculate_propensity_score customer lead_data with
     | Ok v => float_between 0.3 1.0 v
     | Raise _ => True
     end.
Proof.
  split.
  - unfold Utils.calculate_propensity_score, float_between.
    destruct (segment_multiplier_cases
                (dict_get_default user_data "customer_segment" (VStr "standard")))
      as [-> | [-> | ->]];
    destruct (employment_multiplier_cases (dict_get collected_data "employment_type"))
      as [-> | [-> | [-> | [-> | ->]]]];
    (destruct (truthy (dict_get collected_data "monthly_income"));
     [ destruct (as_num (dict_get collected_data "monthly_income")) as [n |];
       [ destruct (num_gt_Z n 5000);
         [| destruct (num_gt_Z n 2000); [| destruct (num_lt_Z n 1000)]]
       | ]
     | ]);
    cbn [rbind]; first [ split; vm_compute; reflexivity | exact I ].
  - unfold Customers.calculate_propensity_score, float_between.
    destruct (segment_score_cases (customer_segment customer)) as [-> | [-> | [-> | ->]]];
    (destruct (credit_score customer) as [z |];
     [ cbn [from_option]; destruct (truthy (VInt z));
       [ destruct (Customers.safe_int (Some z)) as [cs | e];
         [ cbn [rbind]; destruct (800 <=? cs);
           [| destruct (700 <=? cs); [| destruct (cs <? 600)]]
         | ]
       | ]
     | cbn [from_option truthy] ]);
    cbn [rbind];
    try exact I;
    destruct (1500 <? Customers.safe_decimal_to_float (monthly_income customer))%float;
    destruct (negb (bool_decide (current_products customer = []))
              && (0 <? length (current_products customer))%nat);
    split; vm_compute; reflexivity.
Qed.

(** ** Leads and the collected data *)

(** The data is complete to 75% only with the three fields present. *)
Lemma complete_to_75_percent (current_step : string) (data : Dict) :
  (75 <=? data_completeness (get_conversation_progress current_step data)) = true ->
  present_fields data = 3%nat.
Proof.
  destruct (of_value (A := ConversationStep) current_step) as [c | e] eqn:E.
  - apply of_value_sound in E. subst current_step.
    unfold get_conversation_progress, present_fields, present, required_fields.
    rewrite step_of_value. cbn [rbind List.filter].
    destruct (is_none (dict_get data "monthly_income")),
             (is_none (dict_get data "employment_type")),
             (is_none (dict_get data "requested_amount"));
      destruct c; vm_compute; congruence.
  - unfold get_conversation_progress. rewrite E. discriminate.
Qed.

(** X21. The persist stage writes a lead only for a conversation closed
    positively with a confirmed intent, by an agent that has a lead
    repository, and only when the income, the employment and the amount
    have all been collected: two fields out of three make 66%, below the
    75% asked for. The values need not be valid. *)
Theorem lead_needs_the_three_fields (self : ConversationAgent) (s : Store) :
  leads (world (snd (Agent.save_conversation self s))) <> leads (world s) ->
  current_step (state s) = "close_positive"
  /\ intent_confirmed (state s) = Some true
  /\ lead_repo self = true
  /\ present_fields (collected_data (state s)) = 3%nat.
Proof.
  destruct s as [st w]. cbn [state world]. intros H.
  destruct ((current_step st =? "close_positive")%string
            && truthy (from_option VBool VNone (intent_confirmed st))
            && lead_repo self
            && (75 <=? data_completeness
                         (get_conversation_progress (current_step st) (collected_data st))))
    eqn:Ec.
  - repeat (apply andb_true_iff in Ec as [Ec ?]).
    apply String.eqb_eq in Ec.
    split; [exact Ec | split; [| split; [assumption |]]].
    + destruct (intent_confirmed st) as [[] |]; first [reflexivity | discriminate].
    + eapply complete_to_75_percent. eassumption.
  - contradiction H.
    unfold Agent.save_conversation. run.
    destruct (db_fails w (statements w)); run; [reflexivity |].
    rewrite Ec. reflexivity.
Qed.

Lemma lead_needs_the_three_fields_witness :
  current_step ana_closed = "close_positive"
  /\ intent_confirmed ana_closed = Some true
  /\ lead_repo with_lead_repo = true
  /\ present_fields (collected_data ana_closed) = 3%nat.
Proof.
  apply (lead_needs_the_three_fields with_lead_repo
           {| state := ana_closed; world := quiet_world |}).
  vm_compute. discriminate.
Defined.

(** Two fields are not enough for a lead, and three invalid ones are. *)
Example leads_and_collected_data :
  leads (world (snd (Agent.save_conversation with_lead_repo
                       {| state := set_collected "requested_amount" VNone ana_closed;
                          world := quiet_world |}))) = []
  /\ length (leads (world (snd (Agent.save_conversation with_lead_repo
                                  {| state :=
                                       set_collected "monthly_income" (VInt 100)
                                         (set_collected "employment_type" (VStr "astronaut")
                                            (set_collected "requested_amount" (VInt (-5))
                                               ana_closed));
                                     world := quiet_world |})))) = 1%nat.
Proof. vm_compute. split; reflexivity. Qed.

(** ** A state outside the enumerations *)

Lemma analyze_intent_outside (message : string) (st : ConversationState) :
  outside_enumerations st ->
  PromptBuilder.analyze_intent message (current_step st) (product_type st)
    (state_customer_segment st) (user_name st) = Raise ValueError.
Proof.
  intros H. unfold PromptBuilder.analyze_intent.
  destruct (of_value (A := ProductType) (product_type st)) as [p | e] eqn:Ep;
    [| rewrite (of_value_raises _ _ Ep); reflexivity].
  destruct (of_value (A := CustomerSegment) (state_customer_segment st)) as [c | e] eqn:Ec;
    [| rewrite (of_value_raises _ _ Ec); reflexivity].
  destruct (of_value (A := ConversationStep) (current_step st)) as [k | e] eqn:Ek;
    [| rewrite (of_value_raises _ _ Ek); reflexivity].
  apply of_value_sound in Ep, Ec, Ek.
  destruct H as [H | [H | H]]; [contradiction (H p) | contradiction (H c) | contradiction (H k)];
    congruence.
Qed.

(** X22. [analyze_intent] has no handler of its own: for a state whose
    product, segment or step is not a member of its enumeration it
    raises, and the analyze stage then does nothing but mark the intent
    as unclear. Nothing is extracted from the message, and the message
    of the user is not saved, on any turn of such a conversation. *)
Theorem analysis_outside_enumerations (s : Store) :
  outside_enumerations (state s) ->
  fst (Agent.analyze_message s) = Ok tt
  /\ state (snd (Agent.analyze_message s)) = set_detected_intent "unclear" (state s)
  /\ conversation_messages (world (snd (Agent.analyze_message s)))
     = conversation_messages (world s).
Proof.
  intros H. destruct s as [st w]. cbn [state world] in *.
  unfold Agent.analyze_message. run.
  destruct (db_fails w (statements w)); run; [repeat split |].
  destruct (last (messages st)) as [m |]; run; [| repeat split].
  rewrite (analyze_intent_outside (content m) st H). repeat split.
Qed.

Lemma analysis_outside_enumerations_witness :
  state (snd (Agent.analyze_message
                {| state := set_current_step "offer" ana_accepts; world := quiet_world |}))
  = set_detected_intent "unclear" (set_current_step "offer" ana_accepts).
Proof.
  apply (analysis_outside_enumerations
           {| state := set_current_step "offer" ana_accepts; world := quiet_world |}).
  right. right. intros c. destruct c; discriminate.
Defined.

(** ** Where the transitions lead *)

Lemma get_next_step_targets (current_step intent : string) (data : Dict) :
  ~ In (get_next_step current_step intent data) never_entered
  /\ (get_next_step current_step intent data = "close_positive"
      <-> current_step = "awaiting_decision" /\ intent = "positive").
Proof.
  unfold get_next_step, _get_clarification_next_step.
  destruct (of_value (A := ConversationStep) current_step) as [c | e] eqn:Ec;
    [apply of_value_sound in Ec; subst current_step
    | cbn [rbind rcatch]; split;
      [cbn; intuition discriminate | split; [discriminate | intros [-> _]; discriminate Ec]]].
  destruct (of_value (A := IntentType) intent) as [i | e] eqn:Ei;
    [apply of_value_sound in Ei; subst intent
    | cbn [rbind rcatch]; split;
      [cbn; intuition discriminate
      | split; [discriminate | intros [_ ->]; discriminate Ei]]].
  cbn [rbind].
  destruct i, c;
    repeat match goal with
      | |- context [if ?b then _ else _] => destruct b
      end;
    cbn [rcatch value ConversationStep_enum IntentType_enum];
    try (exfalso; congruence);
    (split; [cbn; intuition discriminate
            | split; [intros E; first [discriminate E | split; reflexivity]
                     | intros [E1 E2]; first [discriminate E1 | discriminate E2 | reflexivity]]]).
Qed.

(** X23. No transition leads to [greeting], [collect_budget] or
    [completed], and the only one that leads to [close_positive] starts
    at [awaiting_decision] with a positive intent. The step the generate
    stage writes is never [completed] either: the engine itself never
    marks a conversation as completed. *)
Theorem transitions_never_complete (current_step intent : string) (data : Dict)
    (st : ConversationState) :
  ~ In (get_next_step current_step intent data) never_entered
  /\ (get_next_step current_step intent data = "close_positive"
      <-> current_step = "awaiting_decision" /\ intent = "positive")
  /\ ~ In (written_step st) never_entered.
Proof.
  destruct (get_next_step_targets current_step intent data) as [H1 H2].
  split; [exact H1 | split; [exact H2 |]].
  unfold written_step.
  destruct (_ && _); [cbn; intuition discriminate |].
  destruct (_ && _); [cbn; intuition discriminate |].
  apply get_next_step_targets.
Qed.

Lemma transitions_never_complete_witness :
  get_next_step "awaiting_decision" "positive" ∅ = "close_positive"
  <-> "awaiting_decision" = "awaiting_decision" /\ "positive" = "positive".
Proof. apply (transitions_never_complete "awaiting_decision" "positive" ∅ ana_accepts). Defined.

(** ** Letter case *)

Lemma lower_unfold (c d : ascii) (s : string) :
  lower (String c (String d s))
  = if ((65 <=? code c) && (code c <=? 90))%N
    then String (ascii_of_N (code c + 32)) (lower (String d s))
    else if (code c =? 195)%N
         then if ((128 <=? code d) && (code d <=? 158) && negb (code d =? 151))%N
              then String c (String (ascii_of_N (code d + 32)) (lower s))
              else String c (lower (String d s))
         else String c (lower (String d s)).
Proof. reflexivity. Qed.

(** What [lower] puts first is no capital letter, and no second byte of
    a capital letter of Latin-1 unless that byte was there before. *)
Lemma lowered_byte (c : ascii) :
  ((65 <=? code c) && (code c <=? 90))%N = true ->
  ((65 <=? code (ascii_of_N (code c + 32))) && (code (ascii_of_N (code c + 32)) <=? 90))%N = false
  /\ (code (ascii_of_N (code c + 32)) =? 195)%N = false
  /\ ((128 <=? code (ascii_of_N (code c + 32))) && (code (ascii_of_N (code c + 32)) <=? 158)
      && negb (code (ascii_of_N (code c + 32)) =? 151))%N = false.
Proof.
  destruct c as [[] [] [] [] [] [] [] []]; vm_compute; intros H;
    first [discriminate H | repeat split].
Qed.

Lemma lowered_latin1_byte (d : ascii) :
  ((128 <=? code d) && (code d <=? 158) && negb (code d =? 151))%N = true ->
  ((65 <=? code (ascii_of_N (code d + 32))) && (code (ascii_of_N (code d + 32)) <=? 90))%N = false
  /\ (code (ascii_of_N (code d + 32)) =? 195)%N = false
  /\ ((128 <=? code (ascii_of_N (code d + 32))) && (code (ascii_of_N (code d + 32)) <=? 158)
      && negb (code (ascii_of_N (code d + 32)) =? 151))%N = false.
Proof.
  destruct d as [[] [] [] [] [] [] [] []]; vm_compute; intros H;
    first [discriminate H | repeat split].
Qed.

Lemma lead_byte_facts (c : ascii) :
  (code c =? 195)%N = true ->
  ((65 <=? code c) && (code c <=? 90))%N = false
  /\ ((128 <=? code c) && (code c <=? 158) && negb (code c =? 151))%N = false.
Proof.
  destruct c as [[] [] [] [] [] [] [] []]; vm_compute; intros H;
    first [discriminate H | repeat split].
Qed.

Lemma lower_single (c : ascii) :
  lower (String c "")
  = if ((65 <=? code c) && (code c <=? 90))%N then String (ascii_of_N (code c + 32)) ""
    else String c "".
Proof. cbn [lower]. destruct (_ && _)%N; [reflexivity |]. destruct (_ =? _)%N; reflexivity. Qed.

Lemma lower_cons_plain (c : ascii) (s : string) :
  ((65 <=? code c) && (code c <=? 90))%N = false ->
  (code c =? 195)%N = false ->
  lower (String c s) = String c (lower s).
Proof. intros H1 H2. cbn [lower]. cbv zeta. rewrite H1, H2. reflexivity. Qed.

Lemma lower_cons_upper (c : ascii) (s : string) :
  ((65 <=? code c) && (code c <=? 90))%N = true ->
  lower (String c s) = String (ascii_of_N (code c + 32)) (lower s).
Proof. intros H1. cbn [lower]. cbv zeta. rewrite H1. reflexivity. Qed.

(** The first byte of a lowered text, when the text does not start with
    the second byte of a capital letter of Latin-1, is no such byte. *)
Lemma lower_head (d : ascii) (s : string) :
  ((128 <=? code d) && (code d <=? 158) && negb (code d =? 151))%N = false ->
  exists d' r, lower (String d s) = String d' r
    /\ ((128 <=? code d') && (code d' <=? 158) && negb (code d' =? 151))%N = false.
Proof.
  intros Hd.
  destruct ((65 <=? code d) && (code d <=? 90))%N eqn:Eu.
  - rewrite (lower_cons_upper _ _ Eu). do 2 eexists. split; [reflexivity |].
    apply (lowered_byte d Eu).
  - destruct (code d =? 195)%N eqn:El.
    + destruct s as [| e s].
      * rewrite lower_single, Eu. do 2 eexists. split; [reflexivity | exact Hd].
      * rewrite lower_unfold, Eu, El.
        destruct ((128 <=? code e) && (code e <=? 158) && negb (code e =? 151))%N;
          do 2 eexists; (split; [reflexivity | exact Hd]).
    + rewrite (lower_cons_plain _ _ Eu El). do 2 eexists. split; [reflexivity | exact Hd].
Qed.

Lemma lower_lead (c : ascii) (Y : string) (d : ascii) (r : string) :
  (code c =? 195)%N = true ->
  Y = String d r ->
  ((128 <=? code d) && (code d <=? 158) && negb (code d =? 151))%N = false ->
  lower (String c Y) = String c (lower Y).
Proof.
  intros Hc -> Hd. rewrite lower_unfold, Hc, Hd.
  destruct (lead_byte_facts c Hc) as [-> _]. reflexivity.
Qed.

Lemma lower_idempotent_step (s : string) :
  lower (lower s) = lower s
  /\ forall c, lower (lower (String c s)) = lower (String c s).
Proof.
  induction s as [| d s [IHs IHd]].
  - split; [reflexivity |]. intros c. rewrite lower_single.
    destruct ((65 <=? code c) && (code c <=? 90))%N eqn:Eu.
    + rewrite lower_single. destruct (lowered_byte c Eu) as [-> _]. reflexivity.
    + rewrite lower_single, Eu. reflexivity.
  - split; [apply IHd |]. intros c. rewrite lower_unfold.
    destruct ((65 <=? code c) && (code c <=? 90))%N eqn:Eu.
    + destruct (lowered_byte c Eu) as (H1 & H2 & _).
      rewrite (lower_cons_plain _ _ H1 H2), (IHd d). reflexivity.
    + destruct (code c =? 195)%N eqn:El.
      * destruct ((128 <=? code d) && (code d <=? 158) && negb (code d =? 151))%N eqn:Ed.
        -- destruct (lowered_latin1_byte d Ed) as (H1 & H2 & H3).
           rewrite lower_unfold, Eu, El, H3.
           rewrite (lower_cons_plain _ _ H1 H2), IHs. reflexivity.
        -- destruct (lower_head d s Ed) as (d' & r & EY & Hd').
           rewrite (lower_lead c _ d' r El EY Hd'), (IHd d). reflexivity.
      * rewrite (lower_cons_plain _ _ Eu El), (IHd d). reflexivity.
Qed.

(** X24. The classifier and the employment extractor do not depend on
    letter case: two messages with the same lowered text get the same
    intent at every step and the same employment type. Lowering is
    idempotent, so a message and its lowered form are two such
    messages. *)
Theorem classification_ignores_case (message other : string) (context : PromptContext) :
  (lower message = lower other ->
   IntentAnalyzer.analyze message context = IntentAnalyzer.analyze other context
   /\ DataExtractor.extract_employment message = DataExtractor.extract_employment other)
  /\ lower (lower message) = lower message
  /\ IntentAnalyzer.analyze (lower message) context = IntentAnalyzer.analyze message context.
Proof.
  assert (Hsame : forall a b, lower a = lower b ->
            IntentAnalyzer.analyze a context = IntentAnalyzer.analyze b context).
  { intros a b E. unfold IntentAnalyzer.analyze. cbv zeta.
    rewrite <- (proj1 (has_digit_lower_step a)), <- (proj1 (has_digit_lower_step b)), E.
    reflexivity. }
  pose proof (proj1 (lower_idempotent_step message)) as Hidem.
  split; [| split; [exact Hidem | apply Hsame; exact Hidem]].
  intros E. split; [apply Hsame; exact E |].
  unfold DataExtractor.extract_employment. cbv zeta. rewrite E. reflexivity.
Qed.

Lemma classification_ignores_case_witness :
  IntentAnalyzer.analyze "ME INTERESA" (offer_context CREDIT_CARD VNone)
  = IntentAnalyzer.analyze "me interesa" (offer_context CREDIT_CARD VNone)
  /\ DataExtractor.extract_employment "ME INTERESA"
     = DataExtractor.extract_employment "me interesa".
Proof.
  apply (proj1 (classification_ignores_case "ME INTERESA" "me interesa"
                  (offer_context CREDIT_CARD VNone))).
  vm_compute. reflexivity.
Defined.

Lemma three_fields_present (data : Dict) :
  present_fields data = 3%nat ->
  is_none (dict_get data "monthly_income") = false
  /\ is_none (dict_get data "employment_type") = false
  /\ is_none (dict_get data "requested_amount") = false.
Proof.
  unfold present_fields, present, required_fields. cbn [List.filter].
  destruct (is_none (dict_get data "monthly_income")),
           (is_none (dict_get data "employment_type")),
           (is_none (dict_get data "requested_amount"));
    cbn; intros H; first [discriminate H | repeat split].
Qed.

Lemma not_longer {A} (l : list A) (x : A) : l <> (l ++ [x])%list.
Proof.
  intros H. apply (f_equal (@length _)) in H. rewrite length_app in H. cbn in H. lia.
Qed.

(** X25. A lead that the persist stage writes is always [qualified]:
    the status [new] that [save_lead] has for an unconfirmed intent is
    never used by the engine. The lead is that of the session of the
    state and carries the income, the employment and the amount
    collected, none of which is [None]. *)
Theorem written_lead_is_qualified (self : ConversationAgent) (s : Store) (row : LeadRow) :
  leads (world (snd (Agent.save_conversation self s))) = (leads (world s) ++ [row])%list ->
  lead_status row = "qualified"
  /\ lead_session_id row = session_id (state s)
  /\ lead_monthly_income row = dict_get (collected_data (state s)) "monthly_income"
  /\ lead_employment_type row = dict_get (collected_data (state s)) "employment_type"
  /\ lead_requested_amount row = dict_get (collected_data (state s)) "requested_amount"
  /\ is_none (lead_monthly_income row) = false
  /\ is_none (lead_employment_type row) = false
  /\ is_none (lead_requested_amount row) = false.
Proof.
  destruct s as [st w]. cbn [state world].
  destruct ((current_step st =? "close_positive")%string
            && truthy (from_option VBool VNone (intent_confirmed st))
            && lead_repo self
            && (75 <=? data_completeness
                         (get_conversation_progress (current_step st) (collected_data st))))
    eqn:Ec;
    unfold Agent.save_conversation; run;
    (destruct (db_fails w (statements w)); run;
     [intros H; contradiction (not_longer _ _ H) |]);
    rewrite Ec; run;
    [| intros H; contradiction (not_longer _ _ H)].
  destruct (db_fails w (S (statements w))); run;
    [intros H; contradiction (not_longer _ _ H) |].
  intros H. apply app_inv_head in H. injection H as <-.
  cbn [lead_status lead_session_id lead_monthly_income lead_employment_type
       lead_requested_amount].
  repeat (apply andb_true_iff in Ec as [Ec ?]).
  match goal with
  | H : truthy _ = true |- _ => rewrite H
  end.
  match goal with
  | H : (75 <=? _) = true |- _ =>
      apply complete_to_75_percent, three_fields_present in H; destruct H as (? & ? & ?)
  end.
  repeat split; assumption.
Qed.

Lemma written_lead_is_qualified_witness :
  lead_status ana_lead = "qualified"
  /\ lead_session_id ana_lead = "session_593997814126"
  /\ lead_monthly_income ana_lead = dict_get complete_data "monthly_income"
  /\ lead_employment_type ana_lead = dict_get complete_data "employment_type"
  /\ lead_requested_amount ana_lead = dict_get complete_data "requested_amount"
  /\ is_none (lead_monthly_income ana_lead) = false
  /\ is_none (lead_employment_type ana_lead) = false
  /\ is_none (lead_requested_amount ana_lead) = false.
Proof.
  apply (written_lead_is_qualified with_lead_repo
           {| state := ana_closed; world := quiet_world |} ana_lead).
  vm_compute. reflexivity.
Defined.

(** ** An answer about the income, end to end *)

Lemma has_valid_income_insert (data : Dict) (v : PyVal) :
  _has_valid_income (<["monthly_income" := v]> data) = _has_valid_income {["monthly_income" := v]}.
Proof.
  unfold _has_valid_income, dict_get. rewrite lookup_insert, lookup_singleton.
  reflexivity.
Qed.

Lemma analyze_intent_value (message step product segment name intent : string) :
  PromptBuilder.analyze_intent message step product segment name = Ok intent ->
  exists i : IntentType, intent = value i.
Proof.
  unfold PromptBuilder.analyze_intent.
  destruct (of_value product); [| discriminate].
  destruct (of_value segment); [| discriminate].
  destruct (of_value step); [| discriminate].
  cbn [rbind]. intros [= <-]. eauto.
Qed.

Lemma analysis_of_income (st : ConversationState) (w : World) (m : Message) (f : float)
    (intent : string) :
  current_step st = "collect_income" ->
  last (messages st) = Some m ->
  (forall n, db_fails w n = false) ->
  PromptBuilder.analyze_intent (content m) "collect_income" (product_type st)
    (state_customer_segment st) (user_name st) = Ok intent ->
  DataExtractor.extract_income (content m) = Ok (Some f) ->
  truthy (VFloat f) = true ->
  exists w',
    Agent.analyze_message {| state := st; world := w |}
    = (Ok tt,
       {| state :=
            set_collected "monthly_income" (VFloat f)
              (set_intent (if (intent =? "positive")%string then Some true
                           else if (intent =? "negative")%string then Some false
                           else None) intent st);
          world := w' |})
    /\ db_fails w' = db_fails w.
Proof.
  intros Hstep Hlast Hdb Hintent Hincome Htrue.
  unfold Agent.analyze_message, Agent.collect_if_found. run.
  rewrite Hdb. run. rewrite Hlast. run. rewrite Hstep, Hintent. run.
  rewrite String.eqb_refl. unfold PromptBuilder.extract_data. rewrite String.eqb_refl.
  rewrite Hincome, Htrue. run.
  cbn [collected_data set_collected]. unfold dict_get. rewrite lookup_insert.
  destruct (decide _); [| congruence]. rewrite Htrue. cbn [negb andb]. run.
  rewrite Hdb. run.
  eexists. split; [reflexivity | reflexivity].
Qed.

Lemma generation_after_income (st : ConversationState) (w : World) (i : IntentType) :
  current_step st = "collect_income" ->
  detected_intent st = Some (value i) ->
  i <> NEGATIVE ->
  collected_data st !! "self" = None ->
  db_fails w (statements w) = false ->
  fst (Agent.generate_response {| state := st; world := w |}) = Ok tt
  /\ current_step (state (snd (Agent.generate_response {| state := st; world := w |})))
     = (if _has_valid_income (collected_data st) then "collect_employment"
        else "collect_income")
  /\ collected_data (state (snd (Agent.generate_response {| state := st; world := w |})))
     = collected_data st.
Proof.
  intros Hstep Hintent Hi Hself Hdb.
  unfold Agent.generate_response, try_except, bind, get_state. cbn [state world].
  rewrite Hstep, Hintent. cbn [default from_option]. unfold id.
  rewrite (collect_income_next i _ Hi).
  assert (Hneg : (value i =? "negative")%string = false)
    by (destruct i; first [reflexivity | contradiction Hi; reflexivity]).
  rewrite Hneg.
  change ("collect_income" =? "present_offer")%string with false.
  cbn [andb negb].
  destruct (_has_valid_income (collected_data st));
    [change ("collect_employment" =? "present_offer")%string with false
    | change ("collect_income" =? "present_offer")%string with false];
    cbn [andb negb]; cbv beta zeta;
    rewrite generate_llm_response_cases;
    match goal with
    | |- context [PromptBuilder.build_step_prompt ?step ?a ?b ?c ?d ?e] =>
        destruct (build_step_prompt_returns step a b c d e) as (text & ->);
        [destruct (needs_retry st); discriminate | exact Hself | repeat constructor |]
    end;
    run; rewrite Hdb; run; repeat split.
Qed.

(** X26. An answer to the question about the income, through the
    analyze stage and the generate stage, with the database up: when the
    state is at [collect_income], the intent found in the message is not
    the negative one and the extractor finds a non-zero income in it,
    that income is collected, and the conversation moves to
    [collect_employment] when the income is valid and stays at
    [collect_income] when it is not, whatever the backend does. The
    collected data has no field called [self], with which the prompt of
    the step cannot be built. *)
Theorem income_answer_is_collected (st : ConversationState) (w : World) (m : Message)
    (f : float) (intent : string) :
  current_step st = "collect_income" ->
  collected_data st !! "self" = None ->
  last (messages st) = Some m ->
  (forall n, db_fails w n = false) ->
  PromptBuilder.analyze_intent (content m) "collect_income" (product_type st)
    (state_customer_segment st) (user_name st) = Ok intent ->
  intent <> "negative" ->
  DataExtractor.extract_income (content m) = Ok (Some f) ->
  truthy (VFloat f) = true ->
  fst ((Agent.analyze_message ;; Agent.generate_response) {| state := st; world := w |}) = Ok tt
  /\ current_step
       (state (snd ((Agent.analyze_message ;; Agent.generate_response)
                      {| state := st; world := w |})))
     = (if _has_valid_income {["monthly_income" := VFloat f]} then "collect_employment"
        else "collect_income")
  /\ collected_data
       (state (snd ((Agent.analyze_message ;; Agent.generate_response)
                      {| state := st; world := w |}))) !! "monthly_income"
     = Some (VFloat f).
Proof.
  intros Hstep Hself Hlast Hdb Hintent Hneg Hincome Htrue.
  destruct (analysis_of_income st w m f intent Hstep Hlast Hdb Hintent Hincome Htrue)
    as (w' & Hrun & Hdb').
  destruct (analyze_intent_value _ _ _ _ _ _ Hintent) as [i ->].
  unfold bind. rewrite Hrun.
  match goal with
  | |- context [Agent.generate_response {| state := ?st1; world := w' |}] =>
      destruct (generation_after_income st1 w' i) as (H1 & H2 & H3);
      [ exact Hstep | reflexivity | intros ->; contradiction Hneg; reflexivity
      | cbn [collected_data set_collected set_intent];
        rewrite lookup_insert_ne by discriminate; exact Hself
      | rewrite Hdb'; apply Hdb | ]
  end.
  rewrite H1, H2, H3. cbn [collected_data set_collected set_intent].
  rewrite has_valid_income_insert, lookup_insert.
  destruct (decide _); [| congruence]. repeat split.
Qed.

Lemma income_answer_is_collected_witness :
  current_step
    (state (snd ((Agent.analyze_message ;; Agent.generate_response)
                   {| state := ana_answers_income "2500 al mes"; world := quiet_world |})))
  = (if _has_valid_income {["monthly_income" := VFloat 2500]} then "collect_employment"
     else "collect_income").
Proof.
  apply (income_answer_is_collected (ana_answers_income "2500 al mes") quiet_world
           {| role := "user"; content := "2500 al mes"; timestamp := 0 |} 2500 "neutral");
    try reflexivity.
  discriminate.
Defined.
